(** * famiguru: identity resolution, conversation linking, AI co-participation
      and the scheduled topic broadcast

    A shallow embedding of the route handlers of the repository:

    - the group-aware LINE webhook ([POST], [getOrCreateUserProfile],
      [getOrCreateFamily], [handleAIResponse]),
    - the two 1:1-only webhooks (without and with AI participation),
    - the scheduled broadcast ([GET] of [api/cron/daily-topic/route.ts]) and
      its variant that also writes a conversation entry,
    - the on-demand broadcast ([POST], [getUserFamilyInfo]) and the
      single-user broadcast,
    - the grouping of the history page ([groupConversationsByDate]).

    The handlers are asynchronous TypeScript functions that talk to three
    collaborators (Supabase, the LINE client, OpenAI).  They are embedded in a
    state-and-exception monad over a [World]: the tables of the store, the log
    of what was sent to the collaborators, the console, and the handler's
    mutable locals.  What the collaborators answer is read from an [Env]. *)

From Stdlib Require Import String Ascii List Arith Bool Lia QArith Permutation.
Import ListNotations.
Local Open Scope string_scope.
Local Open Scope list_scope.
Local Open Scope nat_scope.

Set Implicit Arguments.

(* ================================================================== *)
(** ** JavaScript string helpers *)

Module Js.

(** Strings are kept as the bytes of their UTF-8 encoding.

    What [String.prototype.trim] strips, each code point as the bytes of its
    encoding: WhiteSpace (TAB, VT, FF, SP, NBSP, ZWNBSP and the category Zs)
    and LineTerminator (LF, CR, LS, PS). *)
Definition white_space : list (list nat) :=
  [ [9]; [10]; [11]; [12]; [13]; [32];
    [194; 160]                                       (* U+00A0 *);
    [225; 154; 128]                                  (* U+1680 *);
    [226; 128; 128]; [226; 128; 129]; [226; 128; 130];
    [226; 128; 131]; [226; 128; 132]; [226; 128; 133];
    [226; 128; 134]; [226; 128; 135]; [226; 128; 136];
    [226; 128; 137]; [226; 128; 138]                 (* U+2000 .. U+200A *);
    [226; 128; 168]; [226; 128; 169]                 (* U+2028, U+2029 *);
    [226; 128; 175]                                  (* U+202F *);
    [226; 129; 159]                                  (* U+205F *);
    [227; 128; 128]                                  (* U+3000 *);
    [239; 187; 191]                                  (* U+FEFF *) ].

(** [s] without the bytes [p] it starts with, if it does. *)
Fixpoint drop_prefix (p : list nat) (s : string) : option string :=
  match p, s with
  | [], _ => Some s
  | n :: p', String c r =>
      if Nat.eqb (nat_of_ascii c) n then drop_prefix p' r else None
  | _ :: _, EmptyString => None
  end.

(** [s] without the first of the sequences of [table] it starts with. *)
Fixpoint strip_one (table : list (list nat)) (s : string) : option string :=
  match table with
  | [] => None
  | p :: rest =>
      match drop_prefix p s with
      | Some r => Some r
      | None => strip_one rest s
      end
  end.

(** At most [fuel] sequences of [table] stripped from the start of [s]. *)
Fixpoint strip (table : list (list nat)) (fuel : nat) (s : string) : string :=
  match fuel with
  | 0 => s
  | S fuel' =>
      match strip_one table s with
      | Some r => strip table fuel' r
      | None => s
      end
  end.

Definition reverse (s : string) : string :=
  string_of_list_ascii (rev (list_ascii_of_string s)).

(** Every sequence has a byte at least, so [String.length s] rounds strip
    all the white space [s] starts with. *)
Definition trimStart (s : string) : string :=
  strip white_space (String.length s) s.

(** The white space at the end, read backwards. *)
Definition trimEnd (s : string) : string :=
  reverse (strip (map (@rev nat) white_space) (String.length s) (reverse s)).

Definition trim (s : string) : string := trimEnd (trimStart s).

(** [s.includes(needle)] *)
Fixpoint includes (s needle : string) : bool :=
  String.prefix needle s
  || match s with
     | EmptyString => false
     | String _ r => includes r needle
     end.

Definition LF : string := String (ascii_of_nat 10) EmptyString.

(** [xs.join('\n')] *)
Definition join_lines (xs : list string) : string := String.concat LF xs.

(** Truthiness of a [string | undefined] value: [!x] is [negb (truthy x)]. *)
Definition truthy (x : option string) : bool :=
  match x with
  | Some (String _ _) => true
  | _ => false
  end.

Definition nonempty (s : string) : bool :=
  match s with EmptyString => false | String _ _ => true end.

End Js.

(* ================================================================== *)
(** ** Data model: the rows of the five tables *)

(** Row identifiers are UUID strings in the store; they are never empty, so
    they are always truthy.  The model numbers them. *)
Definition Id := nat.

Module Profiles.
Record row := mk
  { id : Id; line_user_id : string; display_name : string; role : string }.
End Profiles.

Module Families.
Record row := mk
  { id : Id; line_group_id : option string; name : string }.
End Families.

(** The webhook names the member column [user_id], the broadcaster reads it as
    [profile_id]; the model keeps the one reference to a profile. *)
Module FamilyMembers.
Record row := mk { family_id : Id; user_id : Id }.
End FamilyMembers.

Module Conversations.
Record row := mk
  { sender_id : option Id; family_id : option Id; content : string;
    is_ai_generated : bool }.
End Conversations.

Module DailyTopics.
Record row := mk
  { family_id : option Id; topic : string; sent_to_user_id : option Id }.
End DailyTopics.

(** The tables.  [conversations] is kept in insertion order, which is the
    order of [sent_at] (the store stamps a row when it inserts it). *)
Record Store := mkStore
  { profiles : list Profiles.row;
    families : list Families.row;
    family_members : list FamilyMembers.row;
    conversations : list Conversations.row;
    daily_topics : list DailyTopics.row;
    next_id : Id }.

(** One call of [lineClient.pushMessage]. *)
Record Push := mkPush
  { push_to : string; push_text : string; push_delivered : bool }.

(** One call of [openai.chat.completions.create]. *)
Record ChatRequest := mkChat
  { chat_system : string; chat_user : string }.

Record World := mkWorld
  { store : Store;
    store_requests : nat;            (* requests sent to the store so far *)
    chats : list ChatRequest;        (* generation calls, oldest first *)
    pushes : list Push;              (* push calls, oldest first *)
    profile_fetches : nat;           (* lineClient.getProfile calls *)
    random_draws : nat;              (* Math.random calls *)
    console : list string;           (* console.log / console.error, oldest first *)
    successCount : nat;              (* locals of the broadcast loop *)
    errorCount : nat }.

(* ================================================================== *)
(** ** Webhook events (the tagged union of the LINE SDK) *)

Inductive Message :=
| TextMessage (text : string)
| OtherMessage (type : string).

Record Source := mkSource
  { userId : string; groupId : option string; roomId : option string }.

Inductive WebhookEvent :=
| MessageEvent (source : Source) (message : Message)
| OtherEvent (type : string).

Record Request := mkRequest
  { req_body : string; x_line_signature : option string }.

(* ================================================================== *)
(** ** What the collaborators answer *)

Record Env := mkEnv
  { channelSecret : string;
    (** [validateSignature(body, channelSecret, signature)] of the LINE SDK *)
    validateSignature : string -> string -> string -> bool;
    (** [JSON.parse(body).events]; [None] when parsing throws *)
    parse_events : string -> option (list WebhookEvent);
    (** the error the store answers its n-th request with, when that request
        fails for a reason of the store's own (network, policy, a row that a
        concurrent request committed first) *)
    store_fault : nat -> option string;
    (** [lineClient.getProfile]: the display name, [None] when it throws *)
    line_profile : nat -> string -> option string;
    (** whether the n-th [lineClient.pushMessage] is delivered (it throws
        otherwise) *)
    push_ok : nat -> bool;
    (** the n-th [openai.chat.completions.create]: [None] when it throws, else
        [choices[0]?.message?.content] *)
    completion : nat -> option (option string);
    (** the n-th [Math.random()] *)
    random : nat -> Q;
    (** the clock: [new Date().getHours()] and [new Date().getMonth()] *)
    clock_hours : nat;
    clock_month : nat }.

(* ================================================================== *)
(** ** The monad of a handler: environment, state, exceptions, [continue] *)

Inductive Res (A : Type) :=
| Normal (a : A)
| Throw (e : string)
| Continue.
Arguments Normal {A} a.
Arguments Throw {A} e.
Arguments Continue {A}.

Definition M (A : Type) := Env -> World -> Res A * World.

Definition ret {A} (a : A) : M A := fun _ w => (Normal a, w).

Definition bind {A B} (m : M A) (k : A -> M B) : M B :=
  fun env w =>
    match m env w with
    | (Normal a, w') => k a env w'
    | (Throw e, w') => (Throw e, w')
    | (Continue, w') => (Continue, w')
    end.

Definition throw {A} (e : string) : M A := fun _ w => (Throw e, w).
Definition continue {A} : M A := fun _ w => (Continue, w).

(** [try { m } catch (e) { h e }] *)
Definition try_catch {A} (m : M A) (h : string -> M A) : M A :=
  fun env w =>
    match m env w with
    | (Throw e, w') => h e env w'
    | r => r
    end.

Declare Scope monad_scope.
Delimit Scope monad_scope with monad.
Notation "x <- m ;; k" := (bind m (fun x => k))
  (at level 61, m at next level, right associativity) : monad_scope.
Notation "m ;; k" := (bind m (fun _ => k))
  (at level 61, right associativity) : monad_scope.
Local Open Scope monad_scope.

(** [for (const x of xs) { body x }]: [continue] ends the iteration, an
    exception ends the loop. *)
Fixpoint for_of {A} (xs : list A) (body : A -> M unit) : M unit :=
  match xs with
  | [] => ret tt
  | x :: rest =>
      fun env w =>
        match body x env w with
        | (Throw e, w') => (Throw e, w')
        | (_, w') => for_of rest body env w'
        end
  end.

Definition when (b : bool) (m : M unit) : M unit := if b then m else ret tt.

(* ------------------------------------------------------------------ *)
(** *** Updating the world *)

Definition set_store (st : Store) (w : World) : World :=
  mkWorld st (store_requests w) (chats w) (pushes w) (profile_fetches w)
          (random_draws w) (console w) (successCount w) (errorCount w).

Definition sent_request (w : World) : World :=
  mkWorld (store w) (S (store_requests w)) (chats w) (pushes w)
          (profile_fetches w) (random_draws w) (console w) (successCount w)
          (errorCount w).

Definition add_chat (c : ChatRequest) (w : World) : World :=
  mkWorld (store w) (store_requests w) (chats w ++ [c]) (pushes w)
          (profile_fetches w) (random_draws w) (console w) (successCount w)
          (errorCount w).

Definition add_push (p : Push) (w : World) : World :=
  mkWorld (store w) (store_requests w) (chats w) (pushes w ++ [p])
          (profile_fetches w) (random_draws w) (console w) (successCount w)
          (errorCount w).

Definition fetched_profile (w : World) : World :=
  mkWorld (store w) (store_requests w) (chats w) (pushes w)
          (S (profile_fetches w)) (random_draws w) (console w)
          (successCount w) (errorCount w).

Definition drew_random (w : World) : World :=
  mkWorld (store w) (store_requests w) (chats w) (pushes w)
          (profile_fetches w) (S (random_draws w)) (console w)
          (successCount w) (errorCount w).

Definition add_console (line : string) (w : World) : World :=
  mkWorld (store w) (store_requests w) (chats w) (pushes w)
          (profile_fetches w) (random_draws w) (console w ++ [line])
          (successCount w) (errorCount w).

Definition set_counters (s e : nat) (w : World) : World :=
  mkWorld (store w) (store_requests w) (chats w) (pushes w)
          (profile_fetches w) (random_draws w) (console w) s e.

(* ------------------------------------------------------------------ *)
(** *** The console, the clock and the random source *)

Definition console_log (line : string) : M unit :=
  fun _ w => (Normal tt, add_console ("log: " ++ line) w).

Definition console_error (line : string) : M unit :=
  fun _ w => (Normal tt, add_console ("error: " ++ line) w).

Definition Math_random : M Q :=
  fun env w => (Normal (random env (random_draws w)), drew_random w).

(** [r < 0.3] *)
Definition lt_03 (r : Q) : bool := negb (Qle_bool (3 # 10) r).

(** [getTimeOfDay()], on the hour the clock shows *)
Definition timeOfDay_at (hour : nat) : string :=
  if (5 <=? hour) && (hour <? 12) then "朝"
  else if (12 <=? hour) && (hour <? 18) then "昼"
  else "夜".

Definition getTimeOfDay : M string :=
  fun env w => (Normal (timeOfDay_at (clock_hours env)), w).

(** [getSeason()], on the month the clock shows (counted from 0) *)
Definition season_at (getMonth : nat) : string :=
  let month := getMonth + 1 in
  if (3 <=? month) && (month <=? 5) then "春"
  else if (6 <=? month) && (month <=? 8) then "夏"
  else if (9 <=? month) && (month <=? 11) then "秋"
  else "冬".

Definition getSeason : M string :=
  fun env w => (Normal (season_at (clock_month env)), w).

(* ================================================================== *)
(** ** The store (Supabase client) *)

(** What a query resolves to: [{ data, error }].  The client never throws; a
    failed request resolves with [data = null] and the error. *)
Record Response (A : Type) := mkResponse
  { data : option A; error : option string }.

Definition ok {A} (a : A) : Response A := mkResponse (Some a) None.
Definition failed {A} (msg : string) : Response A := mkResponse None (Some msg).
(** an insert without [.select()] resolves with [data = null] *)
Definition done : Response unit := mkResponse None None.

Module Supabase.

(** Modelled from the spec: the schema of the store is not part of the
    sources.  An insert that breaks a unique constraint is answered with the
    duplicate-key error of the database. *)
Definition unique_violation : string :=
  "duplicate key value violates unique constraint".

Definition no_rows : string :=
  "JSON object requested, multiple (or no) rows returned".

(** Sends one request: the store either fails it ([store_fault]) or runs it
    on the tables. *)
Definition request {A} (run : Store -> Response A * Store) : M (Response A) :=
  fun env w =>
    let w1 := sent_request w in
    match store_fault env (store_requests w) with
    | Some msg => (Normal (failed msg), w1)
    | None => let (r, st) := run (store w) in (Normal r, set_store st w1)
    end.

(** [.single()] *)
Definition single {A} (rows : list A) : Response A :=
  match rows with
  | [r] => ok r
  | _ => failed no_rows
  end.

Definition set_profiles (st : Store) (ps : list Profiles.row) : Store :=
  mkStore ps (families st) (family_members st) (conversations st)
          (daily_topics st) (S (next_id st)).
Definition set_families (st : Store) (fs : list Families.row) : Store :=
  mkStore (profiles st) fs (family_members st) (conversations st)
          (daily_topics st) (S (next_id st)).
Definition set_family_members (st : Store) (ms : list FamilyMembers.row)
  : Store :=
  mkStore (profiles st) (families st) ms (conversations st)
          (daily_topics st) (next_id st).
Definition set_conversations (st : Store) (cs : list Conversations.row)
  : Store :=
  mkStore (profiles st) (families st) (family_members st) cs
          (daily_topics st) (next_id st).
Definition set_daily_topics (st : Store) (ts : list DailyTopics.row)
  : Store :=
  mkStore (profiles st) (families st) (family_members st)
          (conversations st) ts (next_id st).

(* ---------------------------- profiles --------------------------- *)

Definition has_line_user_id (u : string) (p : Profiles.row) : bool :=
  String.eqb (Profiles.line_user_id p) u.

(** Modelled from the spec: the platform user id of a Profile is unique (the
    constraint itself is in the schema, which is not part of the sources). *)
Definition violates_profile_key (u : string) (st : Store) : bool :=
  existsb (has_line_user_id u) (profiles st).

(** [from('profiles').select(..).eq('line_user_id', u).single()] *)
Definition profile_by_line_user_id (u : string) : M (Response Profiles.row) :=
  request (fun st => (single (filter (has_line_user_id u) (profiles st)), st)).

(** [from('profiles').select('line_user_id').eq('id', i).single()] *)
Definition profile_by_id (i : Id) : M (Response Profiles.row) :=
  request (fun st =>
    (single (filter (fun p => Nat.eqb (Profiles.id p) i) (profiles st)), st)).

(** [from('profiles').insert({line_user_id, display_name, role})
      .select('id').single()] *)
Definition insert_profile (u name role : string) : M (Response Profiles.row) :=
  request (fun st =>
    if violates_profile_key u st
    then (failed unique_violation, st)
    else
      let row := Profiles.mk (next_id st) u name role in
      (ok row, set_profiles st (profiles st ++ [row]))).

(* ---------------------------- families --------------------------- *)

Definition same_group (g : option string) (h : option string) : bool :=
  match g, h with
  | Some a, Some b => String.eqb a b
  | None, None => true
  | _, _ => false
  end.

Definition in_group (g : string) (f : Families.row) : bool :=
  same_group (Families.line_group_id f) (Some g).

(** Modelled from the spec: the group-channel id of a Family is unique when
    present (the constraint itself is in the schema, which is not part of the
    sources). *)
Definition violates_family_key (g : option string) (st : Store) : bool :=
  match g with
  | Some gid => existsb (in_group gid) (families st)
  | None => false
  end.

(** [from('families').select('id, line_group_id')] *)
Definition all_families : M (Response (list Families.row)) :=
  request (fun st => (ok (families st), st)).

(** [from('families').select('id').eq('line_group_id', g).single()] *)
Definition family_by_group (g : string) : M (Response Families.row) :=
  request (fun st => (single (filter (in_group g) (families st)), st)).

(** [from('families').insert({line_group_id?, name}).select('id').single()] *)
Definition insert_family (g : option string) (name : string)
  : M (Response Families.row) :=
  request (fun st =>
    if violates_family_key g st
    then (failed unique_violation, st)
    else
      let row := Families.mk (next_id st) g name in
      (ok row, set_families st (families st ++ [row]))).

(* ------------------------- family_members ------------------------ *)

Definition is_personal (st : Store) (fid : Id) : bool :=
  existsb (fun f => Nat.eqb (Families.id f) fid
                    && same_group (Families.line_group_id f) None)
          (families st).

(** [from('family_members').select('family_id, families!inner(line_group_id)')
      .eq('user_id', p).is('families.line_group_id', null).limit(1)] *)
Definition personal_memberships (p : Id)
  : M (Response (list FamilyMembers.row)) :=
  request (fun st =>
    (ok (firstn 1
           (filter (fun m => Nat.eqb (FamilyMembers.user_id m) p
                             && is_personal st (FamilyMembers.family_id m))
                   (family_members st))), st)).

(** [from('family_members').select('profile_id').eq('family_id', f).limit(1)] *)
Definition members_of (f : Id) : M (Response (list FamilyMembers.row)) :=
  request (fun st =>
    (ok (firstn 1
           (filter (fun m => Nat.eqb (FamilyMembers.family_id m) f)
                   (family_members st))), st)).

Definition same_member (a b : FamilyMembers.row) : bool :=
  Nat.eqb (FamilyMembers.family_id a) (FamilyMembers.family_id b)
  && Nat.eqb (FamilyMembers.user_id a) (FamilyMembers.user_id b).

(** Modelled from the spec: a (family, user) pair is a member at most once
    (the constraint itself is in the schema, which is not part of the
    sources). *)
Definition violates_member_key (row : FamilyMembers.row) (st : Store) : bool :=
  existsb (same_member row) (family_members st).

(** [from('family_members').insert({family_id, user_id})] *)
Definition insert_family_member (f p : Id) : M (Response unit) :=
  request (fun st =>
    let row := FamilyMembers.mk f p in
    if violates_member_key row st
    then (failed unique_violation, st)
    else (done, set_family_members st (family_members st ++ [row]))).

(* -------------------------- conversations ------------------------ *)

(** [from('conversations').insert({sender_id, family_id, content,
      is_ai_generated})] *)
Definition insert_conversation (row : Conversations.row) : M (Response unit) :=
  request (fun st =>
    (done, set_conversations st (conversations st ++ [row]))).

Definition of_family (f : Id) (c : Conversations.row) : bool :=
  match Conversations.family_id c with
  | Some g => Nat.eqb g f
  | None => false
  end.

Definition of_sender (s : Id) (c : Conversations.row) : bool :=
  match Conversations.sender_id c with
  | Some t => Nat.eqb t s
  | None => false
  end.

(** [.order('sent_at', { ascending: false }).limit(n)] over the rows that
    pass the filter: newest first. *)
Definition newest (n : nat) (keep : Conversations.row -> bool) (st : Store)
  : list Conversations.row :=
  firstn n (rev (filter keep (conversations st))).

(** [from('conversations').select('content, is_ai_generated')
      .eq('family_id', f).order('sent_at', {ascending: false}).limit(5)] *)
Definition recent_of_family (f : Id) : M (Response (list Conversations.row)) :=
  request (fun st => (ok (newest 5 (of_family f) st), st)).

(** the same query with [.eq('sender_id', s)] *)
Definition recent_of_sender (s : Id) : M (Response (list Conversations.row)) :=
  request (fun st => (ok (newest 5 (of_sender s) st), st)).

(* --------------------------- daily_topics ------------------------ *)

(** [from('daily_topics').insert({family_id, topic, sent_to_user_id})] *)
Definition insert_daily_topic (row : DailyTopics.row) : M (Response unit) :=
  request (fun st => (done, set_daily_topics st (daily_topics st ++ [row]))).

End Supabase.

(* ================================================================== *)
(** ** The LINE client and the OpenAI client *)

Module Line.

(** [validateSignature(body, channelSecret, signature)] *)
Definition validate (body signature : string) : M bool :=
  fun env w =>
    (Normal (validateSignature env body (channelSecret env) signature), w).

(** [lineClient.getProfile(userId)] then [.displayName] *)
Definition getProfile (u : string) : M string :=
  fun env w =>
    match line_profile env (profile_fetches w) u with
    | Some name => (Normal name, fetched_profile w)
    | None => (Throw "getProfile failed", fetched_profile w)
    end.

(** [lineClient.pushMessage(to, { type: 'text', text })] *)
Definition pushMessage (to text : string) : M unit :=
  fun env w =>
    if push_ok env (length (pushes w))
    then (Normal tt, add_push (mkPush to text true) w)
    else (Throw "pushMessage failed", add_push (mkPush to text false) w).

End Line.

Module OpenAI.

(** [openai.chat.completions.create({ messages: [system, user], .. })] then
    [completion.choices[0]?.message?.content] *)
Definition create (system user : string) : M (option string) :=
  fun env w =>
    match completion env (length (chats w)) with
    | Some content => (Normal content, add_chat (mkChat system user) w)
    | None => (Throw "completion failed", add_chat (mkChat system user) w)
    end.

End OpenAI.

(** [JSON.parse(body)] then [.events] *)
Definition JSON_parse_events (body : string) : M (list WebhookEvent) :=
  fun env w =>
    match parse_events env body with
    | Some events => (Normal events, w)
    | None => (Throw "SyntaxError", w)
    end.

(** [NextResponse.json({ message }, { status })] *)
Record HttpResponse := mkHttp { status : nat; message : string }.

(** [a || b] on [string | undefined | null] values *)
Definition js_or (a b : option string) : option string :=
  if Js.truthy a then a else b.

(** [a || b] where [b] is a string *)
Definition js_or_string (a : option string) (b : string) : string :=
  match a with
  | Some (String c r) => String c r
  | _ => b
  end.

Definition is_some {A} (x : option A) : bool :=
  match x with Some _ => true | None => false end.

Definition is_nil {A} (xs : list A) : bool :=
  match xs with [] => true | _ => false end.

(* ================================================================== *)
(** ** The group-aware webhook *)

Module Webhook.

(** [getOrCreateUserProfile(userId)] *)
Definition getOrCreateUserProfile (userId : string) : M (option Id) :=
  found <- Supabase.profile_by_line_user_id userId ;;
  match data found with
  | Some profile => ret (Some (Profiles.id profile))
  | None =>
      displayName <-
        try_catch (Line.getProfile userId)
          (fun _ =>
             console_log "LINEプロフィール取得失敗(ブロック中など)" ;;
             ret "Guest") ;;
      created <- Supabase.insert_profile userId displayName "member" ;;
      match error created with
      | Some _ => console_error "Profile作成エラー:" ;; ret None
      | None =>
          match data created with
          | Some newProfile => ret (Some (Profiles.id newProfile))
          | None => throw "TypeError: newProfile is null"
          end
      end
  end.

(** [newFamily?.id || null] *)
Definition id_or_null (r : Response Families.row) : option Id :=
  option_map Families.id (data r).

(** The last block of [getOrCreateFamily]: the member registration. *)
Definition registerMember (familyId : option Id) (profileId : Id) : M unit :=
  match familyId with
  | Some fid =>
      joined <- Supabase.insert_family_member fid profileId ;;
      match error joined with
      | Some msg =>
          when (negb (Js.includes msg "duplicate"))
               (console_error "Family member登録エラー:")
      | None => ret tt
      end
  | None => ret tt
  end.

(** The first block of [getOrCreateFamily]: the family id of the group
    (A) or of the user's personal family (B). *)
Definition lookupOrCreateFamily (profileId : Id) (lineGroupId : option string)
  : M (option Id) :=
  match lineGroupId with
  | Some (String c g) =>
      let gid := String c g in
      existing <- Supabase.family_by_group gid ;;
      match data existing with
      | Some existingFamily => ret (Some (Families.id existingFamily))
      | None =>
          created <- Supabase.insert_family (Some gid) "家族グループ" ;;
          ret (id_or_null created)
      end
  | _ =>
      found <- Supabase.personal_memberships profileId ;;
      match data found with
      | Some (m :: _) => ret (Some (FamilyMembers.family_id m))
      | _ =>
          created <- Supabase.insert_family None "マイホーム" ;;
          ret (id_or_null created)
      end
  end.

(** [getOrCreateFamily(profileId, lineUserId, lineGroupId)] *)
Definition getOrCreateFamily (profileId : Id) (lineUserId : string)
    (lineGroupId : option string) : M (option Id) :=
  familyId <- lookupOrCreateFamily profileId lineGroupId ;;
  registerMember familyId profileId ;;
  ret familyId.

Definition persona : string :=
  "あなたは明るい家族のマスコットです。会話の流れを読んで、30文字以内で楽しく相槌やツッコミを入れてください。".

(** [conversations ? conversations.reverse().map(c => c.content).join('\n') : ''] *)
Definition history_of (rows : option (list Conversations.row)) : string :=
  match rows with
  | Some conversations =>
      Js.join_lines (map Conversations.content (rev conversations))
  | None => ""
  end.

(** [handleAIResponse(familyId, senderId, replyToId)] *)
Definition handleAIResponse (familyId : option Id) (senderId : Id)
    (replyToId : string) : M unit :=
  match familyId with
  | None => console_log "Family ID is null, skipping AI response"
  | Some validFamilyId =>
      recent <- Supabase.recent_of_family validFamilyId ;;
      let history := history_of (data recent) in
      content <- OpenAI.create persona history ;;
      let aiText := option_map Js.trim content in
      match aiText with
      | Some (String c t) =>
          let aiText := String c t in
          Line.pushMessage replyToId aiText ;;
          Supabase.insert_conversation
            (Conversations.mk (Some senderId) (Some validFamilyId) aiText true) ;;
          ret tt
      | _ => ret tt
      end
  end.

(** The body of the loop of [POST]. *)
Definition handleEvent (event : WebhookEvent) : M unit :=
  match event with
  | MessageEvent source (TextMessage text) =>
      let userId := userId source in
      let groupId := js_or (js_or (groupId source) (roomId source)) None in
      console_log ("受信: " ++ text) ;;
      profileId <- getOrCreateUserProfile userId ;;
      match profileId with
      | None => continue
      | Some profileId =>
          familyId <- getOrCreateFamily profileId userId groupId ;;
          saved <- Supabase.insert_conversation
                     (Conversations.mk (Some profileId) familyId text false) ;;
          when (negb (is_some (error saved)) && is_some familyId)
            (r <- Math_random ;;
             when (lt_03 r)
               (handleAIResponse familyId profileId
                  (js_or_string groupId userId)))
      end
  | _ => continue
  end.

(** [POST(req)] *)
Definition POST (req : Request) : M HttpResponse :=
  try_catch
    (let body := req_body req in
     let signature := js_or_string (x_line_signature req) "" in
     valid <- Line.validate body signature ;;
     if negb valid
     then ret (mkHttp 200 "Invalid signature")
     else
       events <- JSON_parse_events body ;;
       for_of events handleEvent ;;
       ret (mkHttp 200 "OK"))
    (fun _ => console_error "Error:" ;; ret (mkHttp 200 "Error")).

End Webhook.

(* ================================================================== *)
(** ** The 1:1-only webhook (every entry is logged without a family) *)

Module WebhookDirect.

(** Steps 4 of the loop body: the profile of the sender, created on first
    contact; [continue] when the creation fails. *)
Definition findOrCreateProfile (userId : string) : M (option Profiles.row) :=
  found <- Supabase.profile_by_line_user_id userId ;;
  match data found with
  | Some profile => ret (Some profile)
  | None =>
      console_log "新規ユーザーを作成します" ;;
      created <- Supabase.insert_profile userId "Guest" "unknown" ;;
      match error created with
      | Some _ => console_error "ユーザー作成エラー:" ;; continue
      | None => ret (data created)
      end
  end.

(** The body of the loop of [POST]. *)
Definition handleEvent (event : WebhookEvent) : M unit :=
  match event with
  | MessageEvent source (TextMessage text) =>
      let userId := userId source in
      console_log ("受信: " ++ text ++ " (from " ++ userId ++ ")") ;;
      profile <- findOrCreateProfile userId ;;
      saved <- Supabase.insert_conversation
                 (Conversations.mk (option_map Profiles.id profile) None
                                   text false) ;;
      match error saved with
      | Some _ => console_error "保存エラー:"
      | None => console_log "会話を保存しました！"
      end
  | _ => continue
  end.

(** [POST(req)] *)
Definition POST (req : Request) : M HttpResponse :=
  try_catch
    (let body := req_body req in
     let signature := js_or_string (x_line_signature req) "" in
     valid <- Line.validate body signature ;;
     if negb valid
     then
       console_error "署名検証エラー: 不正なアクセスです" ;;
       ret (mkHttp 200 "Invalid signature")
     else
       events <- JSON_parse_events body ;;
       for_of events handleEvent ;;
       ret (mkHttp 200 "OK"))
    (fun _ => console_error "サーバー内部エラー:" ;; ret (mkHttp 200 "Error")).

End WebhookDirect.

(* ================================================================== *)
(** ** The 1:1-only webhook with AI participation (sender-scoped) *)

Module WebhookDirectAI.

Definition persona : string :=
  "あなたは家族の会話を見守る陽気なマスコットです。直近の会話の流れを読み、30文字以内で楽しく反応してください。質問はせず、感想やリアクションにとどめてください。".

Definition instruction : string :=
  "以下の会話履歴を読んで、短くて明るい相槌やツッコミを1つ生成してください。"
  ++ Js.LF ++ Js.LF.

(** [conversations.filter(conv => !conv.is_ai_generated)
      .map(conv => conv.content).reverse()] *)
Definition userMessagesOf (conversations : list Conversations.row)
  : list string :=
  rev (map Conversations.content
           (filter (fun conv => negb (Conversations.is_ai_generated conv))
                   conversations)).

(** [handleAIResponse(senderId, lineUserId, supabase)] *)
Definition handleAIResponse (senderId : Id) (lineUserId : string) : M unit :=
  try_catch
    (recent <- Supabase.recent_of_sender senderId ;;
     match error recent with
     | Some _ => console_error "会話履歴取得エラー:"
     | None =>
         match data recent with
         | None | Some [] => console_log "会話履歴がありません"
         | Some conversations =>
             let userMessages := userMessagesOf conversations in
             if is_nil userMessages
             then console_log "ユーザーメッセージがありません"
             else
               let conversationHistory := Js.join_lines userMessages in
               content <- OpenAI.create persona
                            (instruction ++ conversationHistory) ;;
               match option_map Js.trim content with
               | Some (String c t) =>
                   let aiMessage := String c t in
                   Line.pushMessage lineUserId aiMessage ;;
                   console_log ("AIメッセージを送信しました: " ++ aiMessage) ;;
                   saved <- Supabase.insert_conversation
                              (Conversations.mk (Some senderId) None
                                                aiMessage true) ;;
                   match error saved with
                   | Some _ => console_error "AIメッセージ保存エラー:"
                   | None => console_log "AIメッセージを保存しました"
                   end
               | _ => console_error "AIメッセージ生成失敗"
               end
         end
     end)
    (fun e => console_error "AI参加処理エラー:" ;; throw e).

(** The body of the loop of [POST]. *)
Definition handleEvent (event : WebhookEvent) : M unit :=
  match event with
  | MessageEvent source (TextMessage text) =>
      let userId := userId source in
      console_log ("受信: " ++ text ++ " (from " ++ userId ++ ")") ;;
      profile <- WebhookDirect.findOrCreateProfile userId ;;
      saved <- Supabase.insert_conversation
                 (Conversations.mk (option_map Profiles.id profile) None
                                   text false) ;;
      match error saved with
      | Some _ => console_error "保存エラー:"
      | None =>
          console_log "会話を保存しました！" ;;
          r <- Math_random ;;
          when (lt_03 r)
            (try_catch
               (match profile with
                | Some p => handleAIResponse (Profiles.id p) userId
                | None => throw "TypeError: profile is null"
                end)
               (fun _ => console_error "AI参加処理エラー:"))
      end
  | _ => continue
  end.

(** [POST(req)] *)
Definition POST (req : Request) : M HttpResponse :=
  try_catch
    (let body := req_body req in
     let signature := js_or_string (x_line_signature req) "" in
     valid <- Line.validate body signature ;;
     if negb valid
     then
       console_error "署名検証エラー: 不正なアクセスです" ;;
       ret (mkHttp 200 "Invalid signature")
     else
       events <- JSON_parse_events body ;;
       for_of events handleEvent ;;
       ret (mkHttp 200 "OK"))
    (fun _ => console_error "サーバー内部エラー:" ;; ret (mkHttp 200 "Error")).

End WebhookDirectAI.

(* ================================================================== *)
(** ** The scheduled broadcast *)

(** The JSON bodies the broadcast answers with. *)
Inductive BroadcastBody :=
| ErrorBody (error details : string)
| NothingToDo                                   (* { message: 'OK', processed: 0 } *)
| Summary (processed success errors : nat).     (* { message: 'OK', processed, success, errors } *)

Record BroadcastResponse := mkBroadcast
  { b_status : nat; b_body : BroadcastBody }.

(** [successCount++] and [errorCount++] *)
Definition incr_success : M unit :=
  fun _ w => (Normal tt, set_counters (S (successCount w)) (errorCount w) w).
Definition incr_error : M unit :=
  fun _ w => (Normal tt, set_counters (successCount w) (S (errorCount w)) w).
Definition reset_counters : M unit :=
  fun _ w => (Normal tt, set_counters 0 0 w).
Definition read_counters : M (nat * nat) :=
  fun _ w => (Normal (successCount w, errorCount w), w).

Definition host : string :=
  "あなたは家族の会話を盛り上げる話題を提供する司会者です。季節や時間帯に合わせた、ユニークで具体的な話題を1つだけ生成してください。".

Definition topic_prompt (season timeOfDay : string) : string :=
  "現在は" ++ season ++ "の" ++ timeOfDay
  ++ "です。家族の会話が盛り上がる、季節や時間帯に合った話題を1つ考えてください。質問形式でも、話題提供でも構いません。".

(** *** [src/app/api/cron/daily-topic/route.ts] *)
Module DailyTopic.

(** [getFamilyMemberLineUserId(familyId)] *)
Definition getFamilyMemberLineUserId (familyId : Id) : M (option string) :=
  try_catch
    (members <- Supabase.members_of familyId ;;
     match error members, data members with
     | None, Some (member :: _) =>
         let profileId := FamilyMembers.user_id member in
         found <- Supabase.profile_by_id profileId ;;
         match error found, data found with
         | None, Some profile =>
             if Js.nonempty (Profiles.line_user_id profile)
             then ret (Some (Profiles.line_user_id profile))
             else console_error "プロフィール取得エラー" ;; ret None
         | _, _ => console_error "プロフィール取得エラー" ;; ret None
         end
     | _, _ => console_error "メンバー取得エラー" ;; ret None
     end)
    (fun _ => console_error "ユーザーID取得エラー" ;; ret None).

(** Step 4 of the loop body: the delivery, to the group or to one member. *)
Definition deliver (family : Families.row) (topic : string) : M unit :=
  match Families.line_group_id family with
  | Some (String c g) =>
      let line_group_id := String c g in
      try_catch
        (Line.pushMessage line_group_id topic ;;
         console_log ("話題をグループに送信しました: " ++ topic))
        (fun _ =>
           console_error "グループ送信エラー" ;;
           fallbackUserId <- getFamilyMemberLineUserId (Families.id family) ;;
           match fallbackUserId with
           | Some (String d u) =>
               try_catch
                 (Line.pushMessage (String d u) topic ;;
                  console_log
                    ("話題を個人に送信しました（フォールバック）: " ++ topic))
                 (fun _ =>
                    console_error "フォールバック送信エラー" ;;
                    incr_error ;;
                    continue)
           | _ => incr_error ;; continue
           end)
  | _ =>
      lineUserId <- getFamilyMemberLineUserId (Families.id family) ;;
      match lineUserId with
      | Some (String d u) =>
          try_catch
            (Line.pushMessage (String d u) topic ;;
             console_log ("話題を個人に送信しました: " ++ topic))
            (fun _ =>
               console_error "個人送信エラー" ;;
               incr_error ;;
               continue)
      | _ =>
          console_error "送信先のユーザーが見つかりません" ;;
          incr_error ;;
          continue
      end
  end.

(** The body of the loop of [GET]. *)
Definition handleFamily (season timeOfDay : string) (family : Families.row)
  : M unit :=
  try_catch
    (let prompt := topic_prompt season timeOfDay in
     content <- OpenAI.create host prompt ;;
     match option_map Js.trim content with
     | Some (String c t) =>
         let topic := String c t in
         let sentToUserId : option Id := None in
         deliver family topic ;;
         saved <- Supabase.insert_daily_topic
                    (DailyTopics.mk (Some (Families.id family)) topic
                                    sentToUserId) ;;
         match error saved with
         | Some _ => console_error "daily_topics保存エラー"
         | None => console_log "daily_topicsに保存しました"
         end ;;
         incr_success
     | _ =>
         console_error "話題生成失敗" ;;
         incr_error ;;
         continue
     end)
    (fun _ => console_error "処理エラー" ;; incr_error).

(** [GET()] *)
Definition GET : M BroadcastResponse :=
  try_catch
    (fetched <- Supabase.all_families ;;
     match error fetched with
     | Some msg =>
         console_error "families取得エラー:" ;;
         ret (mkBroadcast 500 (ErrorBody "Failed to fetch families" msg))
     | None =>
         match data fetched with
         | None | Some [] =>
             console_log "家族グループが見つかりません" ;;
             ret (mkBroadcast 200 NothingToDo)
         | Some families =>
             timeOfDay <- getTimeOfDay ;;
             season <- getSeason ;;
             reset_counters ;;
             for_of families (handleFamily season timeOfDay) ;;
             counts <- read_counters ;;
             ret (mkBroadcast 200
                    (Summary (length families) (fst counts) (snd counts)))
         end
     end)
    (fun e =>
       console_error "サーバー内部エラー:" ;;
       ret (mkBroadcast 500 (ErrorBody "Internal server error" e))).

End DailyTopic.

(** *** The variant that also writes the topic to the conversation log *)
Module DailyTopicLogged.

(** [getFamilyMemberInfo(familyId)]: [{ lineUserId, profileId }] *)
Definition getFamilyMemberInfo (familyId : Id) : M (option (string * Id)) :=
  try_catch
    (members <- Supabase.members_of familyId ;;
     match error members, data members with
     | None, Some (member :: _) =>
         let profileId := FamilyMembers.user_id member in
         found <- Supabase.profile_by_id profileId ;;
         match error found, data found with
         | None, Some profile =>
             if Js.nonempty (Profiles.line_user_id profile)
             then ret (Some (Profiles.line_user_id profile, profileId))
             else ret None
         | _, _ => ret None
         end
     | _, _ => ret None
     end)
    (fun _ => console_error "メンバー情報取得エラー:" ;; ret None).

(** Step 5 of the loop body: the delivery. *)
Definition deliver (family : Families.row) (lineUserId topic : string)
  : M unit :=
  match Families.line_group_id family with
  | Some (String c g) =>
      try_catch
        (Line.pushMessage (String c g) topic ;;
         console_log ("話題をグループ送信: " ++ topic))
        (fun _ =>
           console_error "グループ送信エラー:" ;;
           try_catch
             (Line.pushMessage lineUserId topic ;;
              console_log ("個人へフォールバック送信: " ++ topic))
             (fun _ =>
                console_error "フォールバック失敗:" ;;
                incr_error ;;
                continue))
  | _ =>
      try_catch
        (Line.pushMessage lineUserId topic ;;
         console_log ("話題を個人送信: " ++ topic))
        (fun _ =>
           console_error "個人送信エラー:" ;;
           incr_error ;;
           continue)
  end.

(** The body of the loop of [GET]. *)
Definition handleFamily (season timeOfDay : string) (family : Families.row)
  : M unit :=
  try_catch
    (let prompt := topic_prompt season timeOfDay in
     content <- OpenAI.create host prompt ;;
     match option_map Js.trim content with
     | Some (String c t) =>
         let topic := String c t in
         memberInfo <- getFamilyMemberInfo (Families.id family) ;;
         match memberInfo with
         | None =>
             console_error "メンバーが見つかりません" ;;
             incr_error ;;
             continue
         | Some (lineUserId, profileId) =>
             deliver family lineUserId topic ;;
             Supabase.insert_daily_topic
               (DailyTopics.mk (Some (Families.id family)) topic
                               (Some profileId)) ;;
             logged <- Supabase.insert_conversation
                         (Conversations.mk (Some profileId)
                            (Some (Families.id family)) topic true) ;;
             match error logged with
             | Some _ => console_error "会話ログ保存エラー:"
             | None => console_log "会話ログに保存しました"
             end ;;
             incr_success
         end
     | _ =>
         console_error "話題生成失敗" ;;
         incr_error ;;
         continue
     end)
    (fun _ => console_error "処理エラー" ;; incr_error).

(** [GET()] *)
Definition GET : M BroadcastResponse :=
  try_catch
    (fetched <- Supabase.all_families ;;
     match error fetched with
     | Some msg =>
         console_error "families取得エラー:" ;;
         ret (mkBroadcast 500 (ErrorBody "Failed to fetch families" msg))
     | None =>
         match data fetched with
         | None | Some [] =>
             console_log "家族グループが見つかりません" ;;
             ret (mkBroadcast 200 NothingToDo)
         | Some families =>
             timeOfDay <- getTimeOfDay ;;
             season <- getSeason ;;
             reset_counters ;;
             for_of families (handleFamily season timeOfDay) ;;
             counts <- read_counters ;;
             ret (mkBroadcast 200
                    (Summary (length families) (fst counts) (snd counts)))
         end
     end)
    (fun e =>
       console_error "サーバー内部エラー:" ;;
       ret (mkBroadcast 500 (ErrorBody "Internal server error" e))).

End DailyTopicLogged.


(* ================================================================== *)
(** ** The on-demand broadcast ("gacha") *)

Module Gacha.

(** [{ profileId, familyId, lineUserId, lineGroupId }] *)
Record MemberInfo := mkInfo
  { profileId : Id; familyId : Id; lineUserId : string;
    lineGroupId : option string }.

(** What [req.json()] gives: [None] when it throws, else the [lineUserId]
    field of the body ([None] when the body has none). *)
Record Request := mkRequest { json : option (option string) }.

(** The JSON bodies the route answers with. *)
Inductive Body :=
| ErrorBody (error : string)      (* { error } *)
| TopicBody (topic : string).     (* { topic } *)

Record Reply := mkReply { status : nat; body : Body }.

(** The families a membership is joined to by [families!inner(..)]. *)
Definition joined_families (st : Store) (m : FamilyMembers.row)
  : list Families.row :=
  filter (fun f => Nat.eqb (Families.id f) (FamilyMembers.family_id m))
         (families st).

(** The memberships of a profile that the inner join keeps. *)
Definition joined_member (st : Store) (p : Id) (m : FamilyMembers.row) : bool :=
  Nat.eqb (FamilyMembers.user_id m) p
  && negb (is_nil (joined_families st m)).

(** What [member.families] holds: PostgREST answers an embedded resource as
    an object when the relationship is to-one, as an array when it is
    to-many. *)
Inductive Embedded :=
| EmbeddedObject (family : Families.row)
| EmbeddedArray (families : list Families.row).

(** [families && families.length > 0 ? families[0].line_group_id : null]:
    an object has no [length], and [undefined > 0] is false. *)
Definition lineGroupId_of (families : option Embedded) : option string :=
  match families with
  | Some (EmbeddedArray (f :: _)) => Families.line_group_id f
  | Some (EmbeddedArray []) => None
  | Some (EmbeddedObject _) => None
  | None => None
  end.

(** Modelled from the spec: the schema is not under src/.  A membership
    refers to one family by its [family_id], so the embedding of [families]
    in [family_members] is to-one, and the family comes as an object. *)
Definition embedded_family (st : Store) (m : FamilyMembers.row)
  : option Embedded :=
  match joined_families st m with
  | f :: _ => Some (EmbeddedObject f)
  | [] => None
  end.

(** [from('family_members').select('family_id, families!inner(line_group_id)')
      .eq('user_id', p).limit(1).single()]: the first membership of the user
    that is joined to a family, with that family. *)
Definition first_membership (p : Id)
  : M (Response (FamilyMembers.row * option Embedded)) :=
  Supabase.request (fun st =>
    (Supabase.single
       (firstn 1
          (map (fun m => (m, embedded_family st m))
               (filter (joined_member st p) (family_members st)))), st)).

(** [getUserFamilyInfo(lineUserId)] *)
Definition getUserFamilyInfo (lineUserId : string) : M (option MemberInfo) :=
  found <- Supabase.profile_by_line_user_id lineUserId ;;
  match data found with
  | None => ret None
  | Some profile =>
      joined <- first_membership (Profiles.id profile) ;;
      match data joined with
      | None => ret None
      | Some (member, families) =>
          let lineGroupId := lineGroupId_of families in
          ret (Some (mkInfo (Profiles.id profile)
                            (FamilyMembers.family_id member)
                            lineUserId lineGroupId))
      end
  end.

Definition host : string :=
  "あなたは家族の会話を盛り上げる陽気な司会者です。今この瞬間に家族で話せる、ユニークで具体的な話題を1つ提供してください。「ガチャ」で引いたようなワクワクする質問が良いです。質問のみを返してください。".

(** The text that is pushed: the topic between its banner and brackets. *)
Definition announcement (topic : string) : string :=
  "💊 話題ガチャが出ました！" ++ Js.LF ++ Js.LF ++ "「" ++ topic ++ "」".

(** [req.json()] then [.lineUserId] *)
Definition read_lineUserId (req : Request) : M (option string) :=
  fun _ w =>
    match json req with
    | Some lineUserId => (Normal lineUserId, w)
    | None => (Throw "SyntaxError", w)
    end.

(** [POST(req)] *)
Definition POST (req : Request) : M Reply :=
  try_catch
    (lineUserId <- read_lineUserId req ;;
     match lineUserId with
     | Some (String c u) =>
         let lineUserId := String c u in
         memberInfo <- getUserFamilyInfo lineUserId ;;
         match memberInfo with
         | None => ret (mkReply 404 (ErrorBody "Family not found"))
         | Some memberInfo =>
             content <- OpenAI.create host "話題ガチャを回します！" ;;
             match option_map Js.trim content with
             | Some (String d t) =>
                 let topic := String d t in
                 let targetId :=
                   js_or_string (Gacha.lineGroupId memberInfo)
                                (Gacha.lineUserId memberInfo) in
                 Line.pushMessage targetId (announcement topic) ;;
                 Supabase.insert_conversation
                   (Conversations.mk (Some (profileId memberInfo))
                      (Some (familyId memberInfo))
                      ("話題ガチャ: " ++ topic) true) ;;
                 Supabase.insert_daily_topic
                   (DailyTopics.mk (Some (familyId memberInfo)) topic
                                   (Some (profileId memberInfo))) ;;
                 ret (mkReply 200 (TopicBody topic))
             | _ => throw "Topic generation failed"
             end
         end
     | _ => ret (mkReply 400 (ErrorBody "User ID is required"))
     end)
    (fun e => console_error "ガチャエラー:" ;; ret (mkReply 500 (ErrorBody e))).

End Gacha.

(* ================================================================== *)
(** ** The single-user broadcast (the newest profile only) *)

Module SingleTopic.

(** The JSON bodies the route answers with. *)
Inductive Body :=
| ErrorBody (error : string) (details : option string) (topic : option string)
| SentBody (topic : string) (user_id : Id) (line_user_id : string).

Record Reply := mkReply { status : nat; body : Body }.

(** [from('profiles').select('id, line_user_id')
      .order('created_at', { ascending: false }).limit(1)]; the profiles are
    kept in insertion order, which is the order of [created_at]. *)
Definition newest_profile : M (Response (list Profiles.row)) :=
  Supabase.request (fun st => (ok (firstn 1 (rev (profiles st))), st)).

Definition host : string :=
  "あなたは家族の会話を盛り上げる話題を提供する司会者です。ユニークで具体的な質問を1つだけ生成してください。".

Definition prompt : string :=
  "あなたは陽気な司会者です。今日の天気に絡めた質問や、最近のニュースに関する質問など、家族が答えやすい話題を1つ考えてください。質問のみを返答してください。".

(** Steps 3 to 5 of [GET], once the topic is there. *)
Definition send (profile : Profiles.row) (topic : string) : M Reply :=
  let lineUserId := Profiles.line_user_id profile in
  refused <-
    try_catch
      (Line.pushMessage lineUserId topic ;;
       console_log ("話題を送信しました: " ++ topic) ;;
       ret None)
      (fun e =>
         console_error "LINE送信エラー:" ;;
         ret (Some (mkReply 500
                      (ErrorBody "Failed to send message via LINE" (Some e)
                                 (Some topic))))) ;;
  match refused with
  | Some reply => ret reply
  | None =>
      saved <- Supabase.insert_daily_topic
                 (DailyTopics.mk None topic (Some (Profiles.id profile))) ;;
      match error saved with
      | Some _ => console_error "daily_topics保存エラー:"
      | None => console_log "daily_topicsに保存しました"
      end ;;
      ret (mkReply 200 (SentBody topic (Profiles.id profile) lineUserId))
  end.

(** [GET()] *)
Definition GET : M Reply :=
  try_catch
    (fetched <- newest_profile ;;
     match error fetched with
     | Some msg =>
         console_error "プロファイル取得エラー:" ;;
         ret (mkReply 500 (ErrorBody "Failed to fetch profile" (Some msg) None))
     | None =>
         match data fetched with
         | None | Some [] =>
             ret (mkReply 404 (ErrorBody "No profiles found" None None))
         | Some (profile :: _) =>
             if negb (Js.nonempty (Profiles.line_user_id profile))
             then ret (mkReply 400
                         (ErrorBody "User does not have line_user_id" None None))
             else
               content <- OpenAI.create host prompt ;;
               match option_map Js.trim content with
               | Some (String c t) => send profile (String c t)
               | _ =>
                   ret (mkReply 500
                          (ErrorBody "Failed to generate topic" None None))
               end
         end
     end)
    (fun e =>
       console_error "サーバー内部エラー:" ;;
       ret (mkReply 500 (ErrorBody "Internal server error" (Some e) None))).

End SingleTopic.

(* ================================================================== *)
(** ** The conversation history page: grouping by date *)

Module Page.

(** A conversation as the page reads it. *)
Record Conversation := mkConversation
  { id : Id; content : string; sent_at : string; sender_id : Id }.

Record ConversationGroup := mkGroup
  { date : string; conversations : list Conversation }.

(** [groups[key].push(conv)], after [if (!groups[key]) groups[key] = []].
    [groups] is an object used as a map; its keys are kept in the order they
    were added (the keys are formatted dates, never array indices nor names
    of [Object.prototype]). *)
Fixpoint push (key : string) (conv : Conversation)
    (groups : list (string * list Conversation))
  : list (string * list Conversation) :=
  match groups with
  | [] => [(key, [conv])]
  | (k, convs) :: rest =>
      if String.eqb k key
      then (k, convs ++ [conv]) :: rest
      else (k, convs) :: push key conv rest
  end.

Section Grouping.

(** [new Date(sent_at).toLocaleDateString('ja-JP', { year: 'numeric',
      month: 'long', day: 'numeric' })], which depends on the time zone of
    the browser. *)
Variable dateKey : string -> string.

(** [groupConversationsByDate(conversations)] *)
Definition groupConversationsByDate (conversations : list Conversation)
  : list ConversationGroup :=
  let groups :=
    fold_left (fun groups conv => push (dateKey (sent_at conv)) conv groups)
              conversations [] in
  map (fun entry => mkGroup (fst entry) (snd entry)) groups.

End Grouping.

End Page.
(* ================================================================== *)
(** * Properties *)

Unset Implicit Arguments.

(** ** Observations on a world *)

(** The number of pushes that reached their target. *)
Definition delivered (w : World) : nat :=
  length (filter push_delivered (pushes w)).

(** A run never leaves with an exception. *)
Definition no_throw {A} (r : Res A) : Prop :=
  match r with Throw _ => False | _ => True end.

(** An iteration of the broadcast loop that counted a success: one more
    success, and one more push that reached its target. *)
Definition counted_success (w w' : World) : Prop :=
  successCount w' = S (successCount w) /\ errorCount w' = errorCount w
  /\ delivered w' = S (delivered w).

(** An iteration that counted an error: one more error, nothing delivered. *)
Definition counted_error (w w' : World) : Prop :=
  successCount w' = successCount w /\ errorCount w' = S (errorCount w)
  /\ delivered w' = delivered w.

(** [topic] is the non-empty topic the next generation call yields. *)
Definition topic_of (env : Env) (w : World) (topic : string) : Prop :=
  exists content, completion env (length (chats w)) = Some (Some content)
                  /\ Js.trim content = topic /\ topic <> "".

(** The state of the broadcast loop after [k] iterations started in [w0]:
    every iteration was counted once, made one generation call, and the
    successes are the pushes that were delivered. *)
Definition after_iterations (w0 : World) (k : nat) (w : World) : Prop :=
  successCount w + errorCount w = k + (successCount w0 + errorCount w0)
  /\ length (chats w) = length (chats w0) + k
  /\ families (store w) = families (store w0)
  /\ delivered w + successCount w0 = delivered w0 + successCount w.

(** An AI-generated conversation entry is linked to a family. *)
Definition linked_if_ai (c : Conversations.row) : Prop :=
  Conversations.is_ai_generated c = true -> Conversations.family_id c <> None.

(** A step that calls no collaborator but the store, and leaves the
    conversations and the topics alone. *)
Definition resolves_only (w w' : World) : Prop :=
  conversations (store w') = conversations (store w)
  /\ daily_topics (store w') = daily_topics (store w)
  /\ chats w' = chats w
  /\ pushes w' = pushes w.

(** What one event of the group-aware webhook adds to the conversation log:
    either no generation call is made and at most the human entry is logged,
    or the human entry was logged with a family and the AI took part. *)
Inductive event_effect (ev : WebhookEvent) (w w' : World) : Prop :=
| NoParticipation (human : list Conversations.row) :
    chats w' = chats w ->
    pushes w' = pushes w ->
    conversations (store w') = conversations (store w) ++ human ->
    Forall (fun c => Conversations.is_ai_generated c = false) human ->
    event_effect ev w w'
| Participation (src : Source) (text : string) (pid fid : Id)
                (reply : list Conversations.row) :
    ev = MessageEvent src (TextMessage text) ->
    length (chats w') = S (length (chats w)) ->
    conversations (store w')
    = conversations (store w)
        ++ Conversations.mk (Some pid) (Some fid) text false :: reply ->
    Forall (fun c => Conversations.family_id c = Some fid) reply ->
    event_effect ev w w'.

(** The conversation log only grows, and by entries that are linked to a
    family when they are AI-generated. *)
Definition grows_linked (w w' : World) : Prop :=
  exists added,
    conversations (store w') = conversations (store w) ++ added
    /\ Forall linked_if_ai added.

(** The member filter of the personal branch of [getOrCreateFamily]. *)
Definition personal_member (st : Store) (p : Id) (m : FamilyMembers.row) : bool :=
  Nat.eqb (FamilyMembers.user_id m) p
  && Supabase.is_personal st (FamilyMembers.family_id m).

(* ------------------------------------------------------------------ *)
(** ** Sample worlds *)

Module Sample.

(** Collaborators: the signature ["valid"] is the only one accepted, the
    body is parsed by [events], every generation call answers with
    [generated n], and [Math.random] always yields [r]. *)
Definition env_of (events : string -> option (list WebhookEvent))
    (faults : nat -> option string) (delivers : nat -> bool)
    (generated : nat -> option (option string)) (r : Q) : Env :=
  mkEnv "secret" (fun _ _ signature => String.eqb signature "valid")
        events faults (fun _ _ => Some "Alice") delivers generated
        (fun _ => r) 7 3.

Definition no_fault : nat -> option string := fun _ => None.
Definition fault_at (k : nat) (msg : string) : nat -> option string :=
  fun n => if Nat.eqb n k then Some msg else None.

Definition world_of (st : Store) : World := mkWorld st 0 [] [] 0 0 [] 0 0.

Definition alice : Profiles.row := Profiles.mk 1 "U-alice" "Alice" "member".
Definition bob : Profiles.row := Profiles.mk 2 "U-bob" "Bob" "member".
Definition carol : Profiles.row := Profiles.mk 3 "U-carol" "Carol" "member".

(** Three group families, one member each. *)
Definition family_a : Families.row := Families.mk 11 (Some "G-a") "A".
Definition family_b : Families.row := Families.mk 12 (Some "G-b") "B".
Definition family_c : Families.row := Families.mk 13 (Some "G-c") "C".

Definition three_families : World :=
  world_of
    (mkStore [alice; bob; carol] [family_a; family_b; family_c]
             [FamilyMembers.mk 11 1; FamilyMembers.mk 12 2;
              FamilyMembers.mk 13 3]
             [] [] 100).

(** The generation fails for the second family only. *)
Definition second_generation_fails : Env :=
  env_of (fun _ => None) no_fault (fun _ => true)
         (fun n => if Nat.eqb n 1 then None else Some (Some "今日の晩ごはんは？"))
         (1 # 2).

(** One group family; LINE refuses every push. *)
Definition one_family : World :=
  world_of (mkStore [alice] [family_a] [FamilyMembers.mk 11 1] [] [] 100).

Definition every_push_fails : Env :=
  env_of (fun _ => None) no_fault (fun _ => false)
         (fun _ => Some (Some "今日の晩ごはんは？")) (1 # 2).

Definition all_goes_well : Env :=
  env_of (fun _ => None) no_fault (fun _ => true)
         (fun _ => Some (Some "今日の晩ごはんは？")) (1 # 2).

(** Webhook deliveries. *)
Definition from_alice_in_group : WebhookEvent :=
  MessageEvent (mkSource "U-alice" (Some "G-a") None) (TextMessage "ただいま").

Definition from_dave : WebhookEvent :=
  MessageEvent (mkSource "U-dave" None None) (TextMessage "はじめまして").

Definition signed : Request := mkRequest "body" (Some "valid").
Definition forged : Request := mkRequest "body" (Some "forged").

(** The AI takes part (the draw is below 0.3) and answers. *)
Definition ai_takes_part : Env :=
  env_of (fun _ => Some [from_alice_in_group]) no_fault (fun _ => true)
         (fun _ => Some (Some " おかえり！ ")) (1 # 10).

(** A first event of an unseen user whose profile insert is answered with
    the duplicate-key error (a concurrent request created the profile). *)
Definition nobody_yet : World := world_of (mkStore [] [] [] [] [] 100).

Definition insert_loses_race : Env :=
  env_of (fun _ => Some [from_dave]) (fault_at 1 Supabase.unique_violation)
         (fun _ => true) (fun _ => Some (Some "おかえり！")) (1 # 10).

(** The profile exists, the lookup fails for a reason of the store's. *)
Definition lookup_fails : Env :=
  env_of (fun _ => Some [from_alice_in_group]) (fault_at 0 "fetch failed")
         (fun _ => true) (fun _ => Some (Some "おかえり！")) (1 # 10).

(** Alice talks to the bot 1:1 and has her personal family. *)
Definition home : Families.row := Families.mk 21 None "マイホーム".

Definition alice_at_home : World :=
  world_of (mkStore [alice] [family_a; home]
                    [FamilyMembers.mk 11 1; FamilyMembers.mk 21 1] [] [] 100).

(** Five entries of family 11 (three human, two AI) among others. *)
Definition five_entries : list Conversations.row :=
  [Conversations.mk (Some 1) (Some 11) "ただいま" false;
   Conversations.mk (Some 1) (Some 11) "おかえり！" true;
   Conversations.mk (Some 1) (Some 11) "今日は寒いね" false;
   Conversations.mk (Some 1) (Some 11) "あったかくしてね" true;
   Conversations.mk (Some 1) (Some 11) "鍋にしよう" false].

Definition family_with_history : World :=
  world_of (mkStore [alice; bob] [family_a; family_b]
                    [FamilyMembers.mk 11 1; FamilyMembers.mk 12 2]
                    (Conversations.mk (Some 2) (Some 12) "おはよう" false
                     :: five_entries)
                    [] 100).

(** The last five entries of Alice are all AI-generated (1:1-only mode). *)
Definition only_ai_entries : World :=
  world_of (mkStore [alice] [] []
                    [Conversations.mk (Some 1) None "こんにちは" false;
                     Conversations.mk (Some 1) None "やあ！" true;
                     Conversations.mk (Some 1) None "いいね！" true;
                     Conversations.mk (Some 1) None "すごい！" true;
                     Conversations.mk (Some 1) None "なるほど！" true;
                     Conversations.mk (Some 1) None "たのしいね！" true]
                    [] 100).

(** The store refuses the membership insert for a reason of its own. *)
Definition membership_insert_fails : Env :=
  env_of (fun _ => Some [from_alice_in_group]) (fault_at 1 "permission denied")
         (fun _ => true) (fun _ => Some (Some "おかえり！")) (1 # 2).

(** Two events in one delivery; the generation call throws. *)
Definition generation_throws : Env :=
  env_of (fun _ => Some [from_alice_in_group; from_dave]) no_fault
         (fun _ => true) (fun _ => None) (1 # 10).

(** The generation answers with white space only. *)
Definition blank_generation : Env :=
  env_of (fun _ => Some [from_alice_in_group]) no_fault (fun _ => true)
         (fun _ => Some (Some "   ")) (1 # 10).

(** Seven entries of family 11, two older than the five of [five_entries]. *)
Definition long_history : World :=
  world_of (mkStore [alice] [family_a] [FamilyMembers.mk 11 1]
                    (Conversations.mk (Some 1) (Some 11) "おはよう" false
                     :: Conversations.mk (Some 1) (Some 11) "おはよう！" true
                     :: five_entries)
                    [] 100).

(** What the history page reads: three conversations of two days, the
    second day in between; the day is the date part of the time stamp. *)
Definition day_of (sent_at : string) : string := substring 0 10 sent_at.

Definition morning : Page.Conversation :=
  Page.mkConversation 1 "おはよう" "2024-05-01T07:00:00Z" 1.
Definition next_day : Page.Conversation :=
  Page.mkConversation 2 "ただいま" "2024-05-02T18:00:00Z" 1.
Definition evening : Page.Conversation :=
  Page.mkConversation 3 "おやすみ" "2024-05-01T22:00:00Z" 2.

(** The generation answers with full-width spaces (U+3000) only. *)
Definition wide_blank_generation : Env :=
  env_of (fun _ => Some [from_alice_in_group]) no_fault (fun _ => true)
         (fun _ => Some (Some "　　")) (1 # 10).

(** Seven 1:1 entries of Alice, human and AI-generated ones in turn. *)
Definition mixed_entries : World :=
  world_of (mkStore [alice] [] []
                    [Conversations.mk (Some 1) None "こんにちは" false;
                     Conversations.mk (Some 1) None "やあ！" true;
                     Conversations.mk (Some 1) None "今日は寒いね" false;
                     Conversations.mk (Some 1) None "いいね！" true;
                     Conversations.mk (Some 1) None "鍋にしよう" false;
                     Conversations.mk (Some 1) None "たのしいね！" true;
                     Conversations.mk (Some 1) None "おやすみ" false]
                    [] 100).

End Sample.

(* ------------------------------------------------------------------ *)
(** ** What the other routes are observed to do *)

(** What a delivery of a 1:1-only webhook does to the store: it leaves the
    families, the memberships and the topics alone, and adds entries without
    a family to the conversation log, of which the AI-generated ones are no
    more than the pushes that were delivered meanwhile. *)
Definition direct_effect (w w' : World) : Prop :=
  families (store w') = families (store w)
  /\ family_members (store w') = family_members (store w)
  /\ daily_topics (store w') = daily_topics (store w)
  /\ exists added,
      conversations (store w') = conversations (store w) ++ added
      /\ Forall (fun c => Conversations.family_id c = None) added
      /\ delivered w + length (filter Conversations.is_ai_generated added)
         <= delivered w'.

(** The display name a new profile gets: the one LINE gives, or the
    placeholder when the fetch throws. *)
Definition display_name_for (env : Env) (w : World) (u : string) : string :=
  match line_profile env (profile_fetches w) u with
  | Some name => name
  | None => "Guest"
  end.

(** How [getOrCreateUserProfile] ends: the profile was found, it was
    created, or its creation failed. *)
Inductive profile_outcome (env : Env) (u : string) (w : World)
  : Res (option Id) -> World -> Prop :=
| ProfileFound p w1 :
    filter (Supabase.has_line_user_id u) (profiles (store w)) = [p] ->
    store w1 = store w ->
    store_requests w1 = S (store_requests w) ->
    profile_outcome env u w (Normal (Some (Profiles.id p))) w1
| ProfileCreated w1 :
    existsb (Supabase.has_line_user_id u) (profiles (store w)) = false ->
    store w1
    = Supabase.set_profiles (store w)
        (profiles (store w)
         ++ [Profiles.mk (next_id (store w)) u (display_name_for env w u)
                         "member"]) ->
    store_requests w1 = 2 + store_requests w ->
    profile_outcome env u w (Normal (Some (next_id (store w)))) w1
| ProfileFailed w1 :
    store w1 = store w ->
    store_requests w1 = 2 + store_requests w ->
    profile_outcome env u w (Normal None) w1.

(** How the family of a group is determined: found, created, or not. *)
Inductive group_outcome (g : string) (w : World)
  : option Id -> World -> Prop :=
| GroupFound f w1 :
    filter (Supabase.in_group g) (families (store w)) = [f] ->
    store w1 = store w ->
    group_outcome g w (Some (Families.id f)) w1
| GroupCreated w1 :
    existsb (Supabase.in_group g) (families (store w)) = false ->
    store w1
    = Supabase.set_families (store w)
        (families (store w)
         ++ [Families.mk (next_id (store w)) (Some g) "家族グループ"]) ->
    group_outcome g w (Some (next_id (store w))) w1
| GroupFailed w1 :
    store w1 = store w ->
    group_outcome g w None w1.

(** [u] is the platform user id of the profile [pid], a member of the
    family [f]. *)
Definition member_line_id (st : Store) (f : Id) (u : string) (pid : Id) : Prop :=
  exists m p,
    In m (family_members st) /\ FamilyMembers.family_id m = f
    /\ FamilyMembers.user_id m = pid
    /\ In p (profiles st) /\ Profiles.id p = pid
    /\ Profiles.line_user_id p = u /\ u <> "".

(** [to] is where a topic of the family may go: its group, or one of its
    members. *)
Definition in_family (st : Store) (family : Families.row) (to : string) : Prop :=
  Families.line_group_id family = Some to
  \/ exists pid, member_line_id st (Families.id family) to pid.

(** The pushes go into the families [fams]. *)
Definition pushed_within (st : Store) (fams : list Families.row)
    (new : list Push) : Prop :=
  Forall (fun p => exists f, In f fams /\ in_family st f (push_to p)) new.

(** The entries are AI-generated, linked to one of the families [fams] and
    attributed to one of its members. *)
Definition authored_within (st : Store) (fams : list Families.row)
    (added : list Conversations.row) : Prop :=
  Forall (fun c =>
            Conversations.is_ai_generated c = true
            /\ exists f u pid,
                In f fams
                /\ Conversations.family_id c = Some (Families.id f)
                /\ Conversations.sender_id c = Some pid
                /\ member_line_id st (Families.id f) u pid)
         added.

(** The topic rows belong to the families [fams]. *)
Definition topics_within (fams : list Families.row)
    (topics : list DailyTopics.row) : Prop :=
  Forall (fun t => exists f,
              In f fams /\ DailyTopics.family_id t = Some (Families.id f))
         topics.

(** What a run of the broadcast over the families [fams] may do to the world:
    it leaves profiles, families and memberships alone; it pushes only into
    these families; the conversation entries it writes are AI-generated,
    linked to one of these families and attributed to one of its members; the
    topic rows it writes belong to these families. *)
Definition broadcast_effect (fams : list Families.row) (a b : World) : Prop :=
  profiles (store b) = profiles (store a)
  /\ families (store b) = families (store a)
  /\ family_members (store b) = family_members (store a)
  /\ (exists new,
         pushes b = pushes a ++ new /\ pushed_within (store a) fams new)
  /\ (exists added,
         conversations (store b) = conversations (store a) ++ added
         /\ authored_within (store a) fams added)
  /\ (exists topics,
         daily_topics (store b) = daily_topics (store a) ++ topics
         /\ topics_within fams topics).

(** What [getUserFamilyInfo] found is in the store: the profile of the
    platform user, a membership of that profile, and the family of that
    membership; the group id it gives is null. *)
Definition info_in_store (st : Store) (u : string) (info : Gacha.MemberInfo)
  : Prop :=
  Gacha.lineUserId info = u
  /\ (exists p, In p (profiles st) /\ Profiles.id p = Gacha.profileId info
                /\ Profiles.line_user_id p = u)
  /\ In (FamilyMembers.mk (Gacha.familyId info) (Gacha.profileId info))
        (family_members st)
  /\ (exists f, In f (families st) /\ Families.id f = Gacha.familyId info)
  /\ Gacha.lineGroupId info = None.

(** The conversations of the date [k], in the order they came. *)
Definition dated (dateKey : string -> string) (k : string)
    (convs : list Page.Conversation) : list Page.Conversation :=
  filter (fun c => String.eqb (dateKey (Page.sent_at c)) k) convs.

(** The dates of the conversations, each once, in the order of their first
    occurrence. *)
Definition dates_of (dateKey : string -> string)
    (convs : list Page.Conversation) : list string :=
  rev (nodup string_dec
         (rev (map (fun c => dateKey (Page.sent_at c)) convs))).
(* ------------------------------------------------------------------ *)
(** ** Symbolic execution of a handler *)

(** Unfolds the monad, the clients and the store requests, and reads the
    fields of the worlds that were built. *)
Ltac run_delta :=
  cbv beta iota zeta delta
    [bind ret throw continue try_catch when
     console_log console_error Math_random getSeason getTimeOfDay
     incr_success incr_error reset_counters read_counters
     Supabase.request Supabase.single
     Supabase.profile_by_line_user_id Supabase.profile_by_id
     Supabase.insert_profile Supabase.all_families Supabase.family_by_group
     Supabase.insert_family Supabase.personal_memberships Supabase.members_of
     Supabase.insert_family_member Supabase.insert_conversation
     Supabase.recent_of_family Supabase.recent_of_sender
     Supabase.insert_daily_topic
     Supabase.violates_profile_key Supabase.violates_family_key
     Supabase.violates_member_key
     Line.pushMessage Line.validate Line.getProfile OpenAI.create
     JSON_parse_events
     ok failed done data error
     fst snd option_map is_some is_nil
     Webhook.id_or_null Webhook.history_of] in *;
  cbn [negb andb
       store store_requests chats pushes profile_fetches random_draws console
       successCount errorCount profiles families family_members conversations
       daily_topics next_id
       set_store sent_request add_chat add_push fetched_profile drew_random
       add_console set_counters
       Supabase.set_profiles Supabase.set_families Supabase.set_family_members
       Supabase.set_conversations Supabase.set_daily_topics] in *.

(** Splits on the innermost scrutinee the run is stuck on. *)
Ltac split_match :=
  match goal with
  | |- context [match ?x with _ => _ end] =>
      lazymatch x with
      | context [match _ with _ => _ end] => fail
      | _ => destruct x eqn:?
      end
  end.

Ltac run := run_delta; repeat (split_match; run_delta).

Ltac finish :=
  intros;
  repeat match goal with
    | H : (_, _) = (_, _) |- _ =>
        apply pair_equal_spec in H; destruct H; subst
    end.

(** Reads the fields of the final world. *)
Ltac project :=
  cbn [store store_requests chats pushes profile_fetches random_draws console
       successCount errorCount profiles families family_members conversations
       daily_topics next_id push_delivered
       set_store sent_request add_chat add_push fetched_profile drew_random
       add_console set_counters
       Supabase.set_profiles Supabase.set_families Supabase.set_family_members
       Supabase.set_conversations Supabase.set_daily_topics].

(** Reads the observations off the final world. *)
Ltac observe :=
  unfold counted_success, counted_error, delivered, no_throw;
  project;
  rewrite ?filter_app, ?length_app; cbn [filter length push_delivered app pred].

Ltac name_topic :=
  match goal with
  | H : Js.trim ?s = ?t |- _ =>
      exists t; split;
      [exists s; repeat split; [assumption | assumption | discriminate] |]
  end.

(* ------------------------------------------------------------------ *)
(** ** The monad *)

Lemma bind_normal {A B} (m : M A) (k : A -> M B) env w a w1 :
  m env w = (Normal a, w1) -> bind m k env w = k a env w1.
Proof. intros H; unfold bind; rewrite H; reflexivity. Qed.

Lemma bind_inv {A B} (m : M A) (k : A -> M B) env w r w' :
  bind m k env w = (r, w') ->
  (exists a w1, m env w = (Normal a, w1) /\ k a env w1 = (r, w'))
  \/ (exists e, m env w = (Throw e, w') /\ r = Throw e)
  \/ (m env w = (Continue, w') /\ r = Continue).
Proof.
  unfold bind; destruct (m env w) as [[a | e |] w1]; intros H.
  - left; eauto.
  - inversion H; subst; right; left; eauto.
  - inversion H; subst; right; right; eauto.
Qed.

(** A loop ends normally unless one of its iterations throws. *)
Lemma for_of_invariant {A} (I : nat -> World -> Prop) (body : A -> M unit) env :
  (forall x k w r w', body x env w = (r, w') -> I k w ->
                      no_throw r /\ I (S k) w') ->
  forall xs k w, I k w ->
    exists w', for_of xs body env w = (Normal tt, w') /\ I (length xs + k) w'.
Proof.
  intros Hbody xs; induction xs as [|x rest IH]; intros k w Hw.
  - exists w; split; [reflexivity | exact Hw].
  - simpl for_of.
    destruct (body x env w) as [r w1] eqn:Hx.
    destruct (Hbody _ _ _ _ _ Hx Hw) as [Hr Hw1].
    destruct (IH _ _ Hw1) as [w' [Hfor Hw']].
    exists w'; split.
    + destruct r; [exact Hfor | contradiction | exact Hfor].
    + simpl length. replace (S (length rest) + k) with (length rest + S k) by lia.
      exact Hw'.
Qed.

(** What is left of a loop after its first iterations is run from the world
    they leave. *)
Lemma for_of_app {A} (body : A -> M unit) env xs ys w w1 :
  for_of xs body env w = (Normal tt, w1) ->
  for_of (xs ++ ys) body env w = for_of ys body env w1.
Proof.
  revert w; induction xs as [|x rest IH]; intros w H; simpl in *.
  - inversion H; reflexivity.
  - destruct (body x env w) as [[[] | e |] w2]; try discriminate; eauto.
Qed.

(* ------------------------------------------------------------------ *)
(** ** One iteration of the broadcast loop *)

(** [route.ts]: an iteration never throws, makes one generation call, and
    either counts a success (a push was delivered, and the topic row was sent
    to the store) or counts an error (nothing delivered, no topic row). *)
Lemma DailyTopic_iteration season tod family env w r w' :
  DailyTopic.handleFamily season tod family env w = (r, w') ->
  no_throw r
  /\ length (chats w') = S (length (chats w))
  /\ families (store w') = families (store w)
  /\ ((counted_success w w'
       /\ exists topic, topic_of env w topic
          /\ (daily_topics (store w')
              = daily_topics (store w)
                  ++ [DailyTopics.mk (Some (Families.id family)) topic None]
              \/ (daily_topics (store w') = daily_topics (store w)
                  /\ store_fault env (pred (store_requests w')) <> None)))
      \/ (counted_error w w'
          /\ daily_topics (store w') = daily_topics (store w))).
Proof.
  unfold DailyTopic.handleFamily, DailyTopic.deliver,
    DailyTopic.getFamilyMemberLineUserId.
  run.
  all: finish; observe.
  all: repeat split; auto; try lia.
  all: try (right; repeat split; auto; lia).
  all: left; repeat split; auto; try lia.
  all: name_topic.
  all: first [left; reflexivity | right; split; [reflexivity | congruence]].
Qed.

(** The variant with the conversation log: the same, and the topic is also
    logged as an AI-generated entry of the family when a push was delivered. *)
Lemma DailyTopicLogged_iteration season tod family env w r w' :
  DailyTopicLogged.handleFamily season tod family env w = (r, w') ->
  no_throw r
  /\ length (chats w') = S (length (chats w))
  /\ families (store w') = families (store w)
  /\ ((counted_success w w'
       /\ exists topic, topic_of env w topic
          /\ exists member,
              (daily_topics (store w')
               = daily_topics (store w)
                   ++ [DailyTopics.mk (Some (Families.id family)) topic
                                      (Some member)]
               \/ (daily_topics (store w') = daily_topics (store w)
                   /\ store_fault env (pred (pred (store_requests w')))
                      <> None)))
      \/ (counted_error w w'
          /\ daily_topics (store w') = daily_topics (store w)
          /\ conversations (store w') = conversations (store w))).
Proof.
  unfold DailyTopicLogged.handleFamily, DailyTopicLogged.deliver,
    DailyTopicLogged.getFamilyMemberInfo.
  run.
  all: finish; observe.
  all: repeat split; auto; try lia.
  all: try (right; repeat split; auto; lia).
  all: left; repeat split; auto; try lia.
  all: name_topic.
  all: first [ eexists; left; reflexivity
             | exists 0; right; split; [reflexivity | congruence] ].
Qed.

(* ------------------------------------------------------------------ *)
(** ** The broadcast loop *)

Section BroadcastLoop.

Variable env : Env.
Variable body : Families.row -> M unit.

(** What both variants of the loop body guarantee. *)
Hypothesis body_counts_once :
  forall family w r w',
    body family env w = (r, w') ->
    no_throw r
    /\ length (chats w') = S (length (chats w))
    /\ families (store w') = families (store w)
    /\ (counted_success w w' \/ counted_error w w').

Lemma broadcast_loop fams w0 :
  exists w',
    for_of fams body env w0 = (Normal tt, w')
    /\ successCount w' + errorCount w'
       = length fams + (successCount w0 + errorCount w0)
    /\ length (chats w') = length (chats w0) + length fams
    /\ families (store w') = families (store w0)
    /\ delivered w' + successCount w0 = delivered w0 + successCount w'.
Proof.
  destruct (for_of_invariant (after_iterations w0) body env) with (xs := fams) (k := 0) (w := w0)
    as [w' [Hrun Hafter]].
  - intros x k w r w1 Hx (Hsum & Hchats & Hfams & Hdel).
    destruct (body_counts_once _ _ _ _ Hx) as (Hr & Hc & Hf & Hcount).
    split; [exact Hr|].
    unfold after_iterations, counted_success, counted_error in *.
    repeat split; try lia; try congruence.
    all: destruct Hcount as [(? & ? & ?) | (? & ? & ?)]; lia.
  - unfold after_iterations; repeat split; lia.
  - exists w'; split; [exact Hrun|].
    unfold after_iterations in Hafter; rewrite Nat.add_0_r in Hafter.
    exact Hafter.
Qed.


End BroadcastLoop.

Lemma DailyTopic_body_counts_once env season tod family w r w' :
  DailyTopic.handleFamily season tod family env w = (r, w') ->
  no_throw r
  /\ length (chats w') = S (length (chats w))
  /\ families (store w') = families (store w)
  /\ (counted_success w w' \/ counted_error w w').
Proof.
  intros H; apply DailyTopic_iteration in H.
  destruct H as (? & ? & ? & [[? _] | [? _]]); auto.
Qed.


(** The three ways [GET] of [route.ts] ends. *)
Lemma DailyTopic_GET_cases env w :
  match store_fault env (store_requests w) with
  | Some msg =>
      exists w', DailyTopic.GET env w
                 = (Normal (mkBroadcast 500
                              (ErrorBody "Failed to fetch families" msg)), w')
  | None =>
      match families (store w) with
      | [] => exists w', DailyTopic.GET env w
                         = (Normal (mkBroadcast 200 NothingToDo), w')
      | fams =>
          exists s e w',
            DailyTopic.GET env w
            = (Normal (mkBroadcast 200 (Summary (length fams) s e)), w')
            /\ s + e = length fams
            /\ length (chats w') = length (chats w) + length fams
            /\ delivered w' = delivered w + s
      end
  end.
Proof.
  unfold DailyTopic.GET.
  destruct (store_fault env (store_requests w)) as [msg|] eqn:Hfault.
  - run_delta. rewrite Hfault. eauto.
  - destruct (families (store w)) as [|f fs] eqn:Hfams.
    + run_delta. rewrite Hfault, Hfams. eauto.
    + run_delta. rewrite Hfault, Hfams.
      destruct (broadcast_loop env
                  (DailyTopic.handleFamily (season_at (clock_month env)) (timeOfDay_at (clock_hours env)))
                  (DailyTopic_body_counts_once env (season_at (clock_month env))
                     (timeOfDay_at (clock_hours env)))
                  (f :: fs)
                  (set_counters 0 0 (set_store (store w) (sent_request w))))
        as (w' & Hrun & Hsum & Hchats & _ & Hdel).
      rewrite Hrun.
      exists (successCount w'), (errorCount w'), w'.
      revert Hsum Hchats Hdel; observe; intros.
      repeat split; lia.
Qed.


(* ================================================================== *)
(** ** The scheduled broadcast: claims *)

(** C10.  When [GET] of [route.ts] answers with its summary, the counts
    partition the batch: [success + errors = processed], [processed] is the
    number of family rows that were fetched (and there is at least one), and
    every iteration of the loop increments exactly one of the two counters. *)
Theorem summary_counts_partition_the_batch env w resp w' p s e :
  DailyTopic.GET env w = (Normal resp, w') ->
  b_body resp = Summary p s e ->
  b_status resp = 200
  /\ s + e = p
  /\ p = length (families (store w))
  /\ 0 < p
  /\ forall season tod family w1 r w2,
       DailyTopic.handleFamily season tod family env w1 = (r, w2) ->
       (successCount w2 = S (successCount w1)
        /\ errorCount w2 = errorCount w1)
       \/ (successCount w2 = successCount w1
           /\ errorCount w2 = S (errorCount w1)).
Proof.
  intros Hget Hbody.
  pose proof (DailyTopic_GET_cases env w) as Hcases.
  destruct (store_fault env (store_requests w)).
  - destruct Hcases as [w1 H1]; rewrite H1 in Hget.
    inversion Hget; subst; discriminate.
  - destruct (families (store w)) as [|f fs].
    + destruct Hcases as [w1 H1]; rewrite H1 in Hget.
      inversion Hget; subst; discriminate.
    + destruct Hcases as (s1 & e1 & w1 & H1 & Hsum & _).
      rewrite H1 in Hget; inversion Hget; subst.
      simpl in Hbody; inversion Hbody; subst.
      split; [reflexivity|].
      split; [exact Hsum|].
      split; [reflexivity|].
      split; [simpl; lia|].
      intros season tod family w2 r w3 Hstep.
      apply DailyTopic_body_counts_once in Hstep.
      destruct Hstep as (_ & _ & _ & [(? & ? & _) | (? & ? & _)]); auto.
Qed.

Lemma summary_counts_partition_the_batch_witness :
  exists w',
    DailyTopic.GET Sample.second_generation_fails Sample.three_families
    = (Normal (mkBroadcast 200 (Summary 3 2 1)), w')
    /\ 2 + 1 = 3
    /\ 3 = length (families (store Sample.three_families)).
Proof.
  eexists; split; [vm_compute; reflexivity|].
  destruct (summary_counts_partition_the_batch
              Sample.second_generation_fails Sample.three_families
              (mkBroadcast 200 (Summary 3 2 1)) _ 3 2 1
              ltac:(vm_compute; reflexivity) eq_refl)
    as (_ & Hsum & Hlen & _).
  split; assumption.
Defined.



(** The scenario of the spec: three families, the generation fails for the
    second one; the summary is 3 / 2 / 1 and the first and the third family
    receive the topic. *)
Example broadcast_three_families :
  let (r, w') :=
    DailyTopic.GET Sample.second_generation_fails Sample.three_families in
  r = Normal (mkBroadcast 200 (Summary 3 2 1))
  /\ pushes w' = [mkPush "G-a" "今日の晩ごはんは？" true;
                  mkPush "G-c" "今日の晩ごはんは？" true]
  /\ length (daily_topics (store w')) = 2.
Proof. vm_compute. repeat split. Qed.

Example broadcast_three_families_logged :
  let (r, w') :=
    DailyTopicLogged.GET Sample.second_generation_fails Sample.three_families in
  r = Normal (mkBroadcast 200 (Summary 3 2 1))
  /\ pushes w' = [mkPush "G-a" "今日の晩ごはんは？" true;
                  mkPush "G-c" "今日の晩ごはんは？" true]
  /\ map Conversations.family_id (conversations (store w')) = [Some 11; Some 13].
Proof. vm_compute. repeat split. Qed.

Lemma topic_of_unique env w t1 t2 :
  topic_of env w t1 -> topic_of env w t2 -> t1 = t2.
Proof.
  intros (c1 & H1 & T1 & _) (c2 & H2 & T2 & _).
  rewrite H1 in H2; inversion H2; subst; reflexivity.
Qed.

(** C2, as the code has it.  For a family for which a non-empty topic was
    generated, the topic row follows the delivery: when no push is delivered
    (the group push and its fallback both fail, the direct push fails, or no
    recipient is found) the family is counted as an error and no topic row is
    recorded; when a push is delivered the family is counted as a success and
    the topic row is sent to the store, best-effort (it is recorded unless
    the store fails that request).  Both variants of the broadcast agree. *)
Theorem topic_row_follows_delivery env season tod family w topic :
  topic_of env w topic ->
  (forall r w',
      DailyTopic.handleFamily season tod family env w = (r, w') ->
      (delivered w' = delivered w
       /\ errorCount w' = S (errorCount w)
       /\ successCount w' = successCount w
       /\ daily_topics (store w') = daily_topics (store w))
      \/ (delivered w' = S (delivered w)
          /\ successCount w' = S (successCount w)
          /\ errorCount w' = errorCount w
          /\ (daily_topics (store w')
              = daily_topics (store w)
                  ++ [DailyTopics.mk (Some (Families.id family)) topic None]
              \/ (daily_topics (store w') = daily_topics (store w)
                  /\ store_fault env (pred (store_requests w')) <> None))))
  /\ (forall r w',
         DailyTopicLogged.handleFamily season tod family env w = (r, w') ->
         (delivered w' = delivered w
          /\ errorCount w' = S (errorCount w)
          /\ successCount w' = successCount w
          /\ daily_topics (store w') = daily_topics (store w))
         \/ (delivered w' = S (delivered w)
             /\ successCount w' = S (successCount w)
             /\ errorCount w' = errorCount w
             /\ exists member,
                 (daily_topics (store w')
                  = daily_topics (store w)
                      ++ [DailyTopics.mk (Some (Families.id family)) topic
                                         (Some member)]
                  \/ (daily_topics (store w') = daily_topics (store w)
                      /\ store_fault env (pred (pred (store_requests w')))
                         <> None)))).
Proof.
  intros Htopic; split; intros r w' Hrun.
  - apply DailyTopic_iteration in Hrun.
    destruct Hrun as (_ & _ & _ & [[(Hs & He & Hd) (t & Ht & Hrow)]
                                  | [(Hs & He & Hd) Hrow]]).
    + right. rewrite (topic_of_unique _ _ _ _ Htopic Ht). auto.
    + left. auto.
  - apply DailyTopicLogged_iteration in Hrun.
    destruct Hrun as (_ & _ & _ & [[(Hs & He & Hd) (t & Ht & m & Hrow)]
                                  | [(Hs & He & Hd) [Hrow _]]]).
    + right. rewrite (topic_of_unique _ _ _ _ Htopic Ht). eauto.
    + left. auto.
Qed.


Lemma topic_row_follows_delivery_witness :
  topic_of Sample.every_push_fails Sample.one_family "今日の晩ごはんは？"
  /\ forall r w',
      DailyTopic.handleFamily "春" "朝" Sample.family_a
        Sample.every_push_fails Sample.one_family = (r, w') ->
      (delivered w' = delivered Sample.one_family
       /\ errorCount w' = S (errorCount Sample.one_family)
       /\ successCount w' = successCount Sample.one_family
       /\ daily_topics (store w') = daily_topics (store Sample.one_family))
      \/ (delivered w' = S (delivered Sample.one_family)
          /\ successCount w' = S (successCount Sample.one_family)
          /\ errorCount w' = errorCount Sample.one_family
          /\ (daily_topics (store w')
              = daily_topics (store Sample.one_family)
                  ++ [DailyTopics.mk (Some (Families.id Sample.family_a))
                        "今日の晩ごはんは？" None]
              \/ (daily_topics (store w')
                  = daily_topics (store Sample.one_family)
                  /\ store_fault Sample.every_push_fails
                       (pred (store_requests w')) <> None))).
Proof.
  assert (Ht : topic_of Sample.every_push_fails Sample.one_family
                 "今日の晩ごはんは？")
    by (exists "今日の晩ごはんは？"; repeat split; discriminate).
  split; [exact Ht|].
  exact (proj1 (topic_row_follows_delivery Sample.every_push_fails
                  "春" "朝" Sample.family_a Sample.one_family
                  "今日の晩ごはんは？" Ht)).
Defined.

(** C2 as stated fails: a topic is generated for the family, the group push
    and the fallback to its member both fail, and no topic row is recorded
    (the insert is not even sent: the store saw only the fetch of the
    families and the two requests of the member lookup). *)
Lemma topic_row_skipped_when_delivery_fails :
  let (r, w') := DailyTopic.GET Sample.every_push_fails Sample.one_family in
  topic_of Sample.every_push_fails Sample.one_family "今日の晩ごはんは？"
  /\ r = Normal (mkBroadcast 200 (Summary 1 0 1))
  /\ pushes w' = [mkPush "G-a" "今日の晩ごはんは？" false;
                  mkPush "U-alice" "今日の晩ごはんは？" false]
  /\ daily_topics (store w') = []
  /\ store_requests w' = 3.
Proof.
  vm_compute.
  split; [|repeat split].
  eexists; repeat split; discriminate.
Qed.

(* ================================================================== *)
(** ** The group-aware webhook *)

Lemma getOrCreateUserProfile_frame u env w r w' :
  Webhook.getOrCreateUserProfile u env w = (r, w') ->
  (exists p, r = Normal p) /\ resolves_only w w'.
Proof.
  unfold Webhook.getOrCreateUserProfile.
  run.
  all: finish; unfold resolves_only; observe; eauto 10.
Qed.

Lemma getOrCreateFamily_frame p u g env w r w' :
  Webhook.getOrCreateFamily p u g env w = (r, w') ->
  (exists f, r = Normal f) /\ resolves_only w w'.
Proof.
  unfold Webhook.getOrCreateFamily, Webhook.lookupOrCreateFamily,
    Webhook.registerMember.
  run.
  all: finish; unfold resolves_only; observe; eauto 10.
Qed.

Tactic Notation "bind_step" hyp(H) "as" ident(a) ident(w1) ident(H1) :=
  let e := fresh "e" in
  apply bind_inv in H;
  destruct H as [(a & w1 & H1 & H) | [(e & H1 & ->) | (H1 & ->)]].

Lemma handleEvent_effect ev env w r w' :
  Webhook.handleEvent ev env w = (r, w') -> event_effect ev w w'.
Proof.
  intros H.
  assert (Hnone : forall v, v = w' -> w' = w -> event_effect ev w v).
  { intros v -> ->. apply NoParticipation with (human := []); auto.
    now rewrite app_nil_r. }
  destruct ev as [src [text | ty] | ty]; unfold Webhook.handleEvent in H;
    try (inversion H; subst; auto; fail).
  clear Hnone.
  bind_step H as u0 w0 Hlog; try discriminate.
  inversion Hlog; subst; clear Hlog.
  bind_step H as profileId w1 Hprofile.
  2,3: apply getOrCreateUserProfile_frame in Hprofile;
       destruct Hprofile as [[p Hp] _]; discriminate.
  apply getOrCreateUserProfile_frame in Hprofile.
  destruct Hprofile as [_ (Hc1 & _ & Hch1 & Hp1)].
  destruct profileId as [pid|].
  2: { inversion H; subst. apply NoParticipation with (human := []); auto.
       now rewrite app_nil_r. }
  bind_step H as familyId w2 Hfamily.
  2,3: apply getOrCreateFamily_frame in Hfamily;
       destruct Hfamily as [[p Hp] _]; discriminate.
  apply getOrCreateFamily_frame in Hfamily.
  destruct Hfamily as [_ (Hc2 & _ & Hch2 & Hp2)].
  revert H. unfold Webhook.handleAIResponse.
  cbn [console add_console] in *.
  run.
  all: finish.
  all: first
    [ solve [ apply NoParticipation with (human := []); observe;
              rewrite ?app_nil_r; auto; congruence ]
    | solve [ eapply NoParticipation with (human := [_]); observe;
              [ congruence | congruence
              | rewrite Hc2, Hc1; reflexivity
              | repeat constructor ] ]
    | solve [ eapply Participation with (reply := []); observe;
              [ reflexivity
              | rewrite ?Hch2, ?Hch1; lia
              | rewrite Hc2, Hc1; reflexivity
              | constructor ] ]
    | solve [ eapply Participation with (reply := [_]); observe;
              [ reflexivity
              | rewrite ?Hch2, ?Hch1; lia
              | rewrite Hc2, Hc1, <- app_assoc; reflexivity
              | repeat constructor ] ]
    ].
Qed.

Lemma grows_linked_refl w : grows_linked w w.
Proof. exists []; split; [now rewrite app_nil_r | constructor]. Qed.

Lemma grows_linked_trans a b c :
  grows_linked a b -> grows_linked b c -> grows_linked a c.
Proof.
  intros (x & Hx & Fx) (y & Hy & Fy).
  exists (x ++ y); split.
  - rewrite Hy, Hx, app_assoc; reflexivity.
  - apply Forall_app; split; assumption.
Qed.

Lemma event_effect_linked ev w w' : event_effect ev w w' -> grows_linked w w'.
Proof.
  intros [human _ _ Hc Hh | src text pid fid reply _ _ Hc Hr].
  - exists human; split; [exact Hc|].
    eapply Forall_impl; [|exact Hh].
    intros c Hc' Hai; congruence.
  - eexists; split; [exact Hc|].
    constructor.
    + intros _; discriminate.
    + eapply Forall_impl; [|exact Hr].
      intros c Hc' _; congruence.
Qed.

Lemma for_of_preserves {A} (R : World -> World -> Prop) (body : A -> M unit) env :
  (forall w, R w w) ->
  (forall a b c, R a b -> R b c -> R a c) ->
  (forall x w r w', body x env w = (r, w') -> R w w') ->
  forall xs w r w', for_of xs body env w = (r, w') -> R w w'.
Proof.
  intros Hrefl Htrans Hbody xs; induction xs as [|x rest IH]; intros w r w' H.
  - inversion H; subst; apply Hrefl.
  - simpl in H. destruct (body x env w) as [r1 w1] eqn:Hx.
    apply Hbody in Hx.
    destruct r1; try (inversion H; subst; assumption).
    all: eapply Htrans; [exact Hx | eapply IH; exact H].
Qed.

Lemma for_of_no_continue {A} (body : A -> M unit) env xs w r w' :
  for_of xs body env w = (r, w') -> r <> Continue.
Proof.
  revert w; induction xs as [|x rest IH]; intros w H; simpl in H.
  - inversion H; discriminate.
  - destruct (body x env w) as [[[] | e |] w1]; eauto.
    inversion H; discriminate.
Qed.

Lemma POST_grows_linked req env w r w' :
  Webhook.POST req env w = (r, w') -> grows_linked w w'.
Proof.
  assert (Hsame : forall v, conversations (store v) = conversations (store w) ->
                            grows_linked w v).
  { intros v Hv; exists []; split; [now rewrite app_nil_r | constructor]. }
  unfold Webhook.POST.
  run_delta.
  destruct (negb _).
  - intros H; inversion H; subst; auto.
  - destruct (parse_events env (req_body req)) as [events|].
    + destruct (for_of events Webhook.handleEvent env w) as [r1 w1] eqn:Hloop.
      assert (Hl : grows_linked w w1).
      { eapply for_of_preserves; [apply grows_linked_refl
                                 | apply grows_linked_trans | | exact Hloop].
        intros x w0 r0 w0' Hx. eapply event_effect_linked, handleEvent_effect, Hx. }
      destruct r1; intros H; inversion H; subst; auto.
    + intros H; inversion H; subst; auto.
Qed.

Lemma POST_always_200 req env w :
  exists msg w', Webhook.POST req env w = (Normal (mkHttp 200 msg), w').
Proof.
  unfold Webhook.POST.
  run_delta.
  destruct (negb _); [eauto|].
  destruct (parse_events env (req_body req)) as [events|]; [|eauto].
  destruct (for_of events Webhook.handleEvent env w) as [r1 w1] eqn:Hloop.
  pose proof (for_of_no_continue _ _ _ _ _ _ Hloop) as Hr.
  destruct r1 as [[] | e |]; eauto; contradiction.
Qed.

(* ------------------------------------------------------------------ *)
(** ** [String.prototype.trim] *)

Lemma drop_prefix_length p s r :
  Js.drop_prefix p s = Some r -> String.length s = length p + String.length r.
Proof.
  revert s. induction p as [|n p IH]; intros s H.
  - injection H as <-. reflexivity.
  - destruct s as [|c s]; [discriminate|]. cbn [Js.drop_prefix] in H.
    destruct (Nat.eqb (nat_of_ascii c) n); [|discriminate].
    apply IH in H. cbn [String.length length]. lia.
Qed.

Lemma strip_one_shorter table s r :
  Forall (fun p => p <> []) table ->
  Js.strip_one table s = Some r -> String.length r < String.length s.
Proof.
  induction table as [|p rest IH]; intros Hne H; [discriminate|].
  inversion Hne as [|? ? Hp Hrest]; subst.
  cbn [Js.strip_one] in H.
  destruct (Js.drop_prefix p s) as [r'|] eqn:Hd.
  - injection H as ->. apply drop_prefix_length in Hd.
    destruct p; [contradiction|]. cbn [length] in Hd. lia.
  - apply IH; assumption.
Qed.

(** The fuel is enough: what [strip] leaves starts with no sequence of the
    table. *)
Lemma strip_done table fuel s :
  Forall (fun p => p <> []) table ->
  String.length s <= fuel ->
  Js.strip_one table (Js.strip table fuel s) = None.
Proof.
  intros Hne. revert s. induction fuel as [|fuel IH]; intros s Hlen.
  - destruct s; [|cbn in Hlen; lia]. cbn [Js.strip].
    destruct (Js.strip_one table "") eqn:H; [|reflexivity].
    apply strip_one_shorter in H; [cbn in H; lia | exact Hne].
  - cbn [Js.strip]. destruct (Js.strip_one table s) as [r|] eqn:H.
    + apply IH. apply strip_one_shorter in H; [lia | exact Hne].
    + exact H.
Qed.

Lemma white_space_nonempty :
  Forall (fun p : list nat => p <> []) Js.white_space
  /\ Forall (fun p : list nat => p <> []) (map (@rev nat) Js.white_space).
Proof.
  split; repeat constructor; discriminate.
Qed.

(** [trimStart] leaves no white space at the start, [trimEnd] none at the
    end. *)
Lemma trim_is_complete s :
  Js.strip_one Js.white_space (Js.trimStart s) = None
  /\ Js.strip_one (map (@rev nat) Js.white_space)
                  (Js.reverse (Js.trimEnd s)) = None.
Proof.
  split.
  - apply strip_done; [apply white_space_nonempty | lia].
  - unfold Js.trimEnd, Js.reverse.
    rewrite list_ascii_of_string_of_list_ascii, rev_involutive,
      string_of_list_ascii_of_string.
    apply strip_done; [apply white_space_nonempty|].
    clear. set (l := list_ascii_of_string s).
    assert (H : forall l, String.length (string_of_list_ascii l) = length l).
    { induction l0; cbn; auto. }
    rewrite H, length_rev. subst l. clear H.
    induction s; cbn; lia.
Qed.

Example trim_strips_unicode_white_space :
  Js.trim " 　おかえり！　 " = "おかえり！"
  /\ Js.trim "　　" = ""
  /\ Js.trim "お か" = "お か".
Proof. vm_compute. repeat split. Qed.

(* ================================================================== *)
(** ** The webhooks: claims *)

(** C9.  In the group-aware webhook every conversation entry written with
    [is_ai_generated = true] has a family id: whatever a delivery adds to the
    conversation log is linked to a family when it is AI-generated; an event
    makes a generation call only after its human message was logged with a
    family id; and [handleAIResponse] with a null family id only logs that it
    skips, without generating, delivering or inserting anything. *)
Theorem ai_entries_have_a_family req env w r w' :
  Webhook.POST req env w = (r, w') ->
  (exists added,
      conversations (store w') = conversations (store w) ++ added
      /\ Forall linked_if_ai added)
  /\ (forall ev w1 r2 w2,
         Webhook.handleEvent ev env w1 = (r2, w2) ->
         chats w2 <> chats w1 ->
         exists src text pid fid reply,
           ev = MessageEvent src (TextMessage text)
           /\ conversations (store w2)
              = conversations (store w1)
                  ++ Conversations.mk (Some pid) (Some fid) text false :: reply)
  /\ (forall senderId replyToId w1,
         Webhook.handleAIResponse None senderId replyToId env w1
         = (Normal tt,
            add_console "log: Family ID is null, skipping AI response" w1)).
Proof.
  intros Hpost.
  split; [exact (POST_grows_linked _ _ _ _ _ Hpost)|].
  split; [|reflexivity].
  intros ev w1 r2 w2 Hev Hchats.
  destruct (handleEvent_effect _ _ _ _ _ Hev)
    as [human Hsame _ _ _ | src text pid fid reply Hev' _ Hconv _].
  - contradiction.
  - exists src, text, pid, fid, reply; auto.
Qed.

Lemma ai_entries_have_a_family_witness :
  exists w',
    Webhook.POST Sample.signed Sample.ai_takes_part Sample.one_family
    = (Normal (mkHttp 200 "OK"), w')
    /\ exists added,
        conversations (store w')
        = conversations (store Sample.one_family) ++ added
        /\ Forall linked_if_ai added.
Proof.
  eexists; split; [vm_compute; reflexivity|].
  exact (proj1 (ai_entries_have_a_family Sample.signed Sample.ai_takes_part
                  Sample.one_family _ _ ltac:(vm_compute; reflexivity))).
Defined.

Example ai_takes_part_in_group :
  let (r, w') :=
    Webhook.POST Sample.signed Sample.ai_takes_part Sample.one_family in
  r = Normal (mkHttp 200 "OK")
  /\ conversations (store w')
     = [Conversations.mk (Some 1) (Some 11) "ただいま" false;
        Conversations.mk (Some 1) (Some 11) "おかえり！" true]
  /\ pushes w' = [mkPush "G-a" "おかえり！" true].
Proof. vm_compute. repeat split. Qed.

(** C7.  A delivery whose signature fails verification is answered with 200
    and nothing else happens: the group-aware webhook leaves the world as it
    is, the 1:1-only webhooks only write a line to the console.  No request
    is sent to the store, no generation call and no push is made. *)
Theorem invalid_signature_changes_nothing req env w :
  validateSignature env (req_body req) (channelSecret env)
    (js_or_string (x_line_signature req) "") = false ->
  Webhook.POST req env w = (Normal (mkHttp 200 "Invalid signature"), w)
  /\ (exists w',
         WebhookDirect.POST req env w
         = (Normal (mkHttp 200 "Invalid signature"), w')
         /\ store w' = store w
         /\ store_requests w' = store_requests w
         /\ chats w' = chats w
         /\ pushes w' = pushes w)
  /\ (exists w',
         WebhookDirectAI.POST req env w
         = (Normal (mkHttp 200 "Invalid signature"), w')
         /\ store w' = store w
         /\ store_requests w' = store_requests w
         /\ chats w' = chats w
         /\ pushes w' = pushes w).
Proof.
  intros Hsig; split; [|split].
  - unfold Webhook.POST. run_delta. rewrite Hsig. reflexivity.
  - unfold WebhookDirect.POST. run_delta. rewrite Hsig.
    eexists; repeat split.
  - unfold WebhookDirectAI.POST. run_delta. rewrite Hsig.
    eexists; repeat split.
Qed.

Lemma invalid_signature_changes_nothing_witness :
  Webhook.POST Sample.forged Sample.ai_takes_part Sample.one_family
  = (Normal (mkHttp 200 "Invalid signature"), Sample.one_family).
Proof.
  exact (proj1 (invalid_signature_changes_nothing Sample.forged
                  Sample.ai_takes_part Sample.one_family eq_refl)).
Defined.

(** C1, as the code has it.  When the profile of an unseen user cannot be
    inserted (for any reason, the duplicate-key error of a concurrent
    creation included), [getOrCreateUserProfile] logs the error and returns
    null after its two requests, without reading the profile again; [POST]
    skips that event (nothing is logged, generated or pushed for it) and goes
    on with the events that follow; the answer is 200 all the same. *)
Theorem failed_profile_insert_skips_the_event env w src text msg :
  filter (Supabase.has_line_user_id (userId src)) (profiles (store w)) = [] ->
  store_fault env (S (store_requests w)) = Some msg ->
  (exists w1,
      Webhook.getOrCreateUserProfile (userId src) env w = (Normal None, w1)
      /\ store w1 = store w
      /\ store_requests w1 = 2 + store_requests w)
  /\ (exists w2,
         Webhook.handleEvent (MessageEvent src (TextMessage text)) env w
         = (Continue, w2)
         /\ store w2 = store w /\ chats w2 = chats w /\ pushes w2 = pushes w
         /\ forall rest,
             for_of (MessageEvent src (TextMessage text) :: rest)
                    Webhook.handleEvent env w
             = for_of rest Webhook.handleEvent env w2)
  /\ (forall req, exists m w3,
         Webhook.POST req env w = (Normal (mkHttp 200 m), w3)).
Proof.
  intros Hunseen Hfault.
  assert (Hprofile : forall v, store v = store w ->
            store_requests v = store_requests w ->
            exists w1,
              Webhook.getOrCreateUserProfile (userId src) env v
              = (Normal None, w1)
              /\ store w1 = store w
              /\ store_requests w1 = 2 + store_requests w
              /\ chats w1 = chats v /\ pushes w1 = pushes v).
  { intros v Hstore Hreq.
    rewrite <- Hstore in Hunseen. rewrite <- Hreq in Hfault.
    unfold Webhook.getOrCreateUserProfile.
    run; try congruence.
    all: eexists; repeat split; observe; auto; lia. }
  split; [|split].
  - destruct (Hprofile w eq_refl eq_refl) as (w1 & H1 & H2 & H3 & _). eauto.
  - destruct (Hprofile (add_console ("log: " ++ "受信: " ++ text) w) eq_refl eq_refl)
      as (w1 & H1 & H2 & H3 & H4 & H5).
    assert (Hev : Webhook.handleEvent (MessageEvent src (TextMessage text)) env w
                  = (Continue, w1)).
    { unfold Webhook.handleEvent.
      rewrite (bind_normal _ _ _ _ _ _ (eq_refl : console_log _ env w = _)).
      rewrite (bind_normal _ _ _ _ _ _ H1). reflexivity. }
    exists w1. repeat split; auto.
    intros rest. cbn [for_of]. rewrite Hev. reflexivity.
  - intros req. apply POST_always_200.
Qed.

Lemma failed_profile_insert_skips_the_event_witness :
  exists w1,
    Webhook.getOrCreateUserProfile "U-dave" Sample.insert_loses_race
      Sample.nobody_yet = (Normal None, w1)
    /\ store w1 = store Sample.nobody_yet
    /\ store_requests w1 = 2 + store_requests Sample.nobody_yet.
Proof.
  exact (proj1 (failed_profile_insert_skips_the_event
                  Sample.insert_loses_race Sample.nobody_yet
                  (mkSource "U-dave" None None) "はじめまして"
                  Supabase.unique_violation eq_refl eq_refl)).
Defined.

(** C1 as stated fails.  First run: the user is unseen when the profile is
    looked up and the insert is answered with the duplicate-key error; the
    resolution returns null after two requests and the delivery logs nothing
    for the event.  Second run: the profile exists but its lookup fails, the
    store answers the insert with the duplicate-key error, and the resolution
    still returns null although reading the profile again finds it. *)
Lemma unique_violation_is_not_retried :
  (let (r, w') :=
     Webhook.getOrCreateUserProfile "U-dave" Sample.insert_loses_race
       Sample.nobody_yet in
   r = Normal None /\ store_requests w' = 2)
  /\ (let (r, w') :=
        Webhook.POST Sample.signed Sample.insert_loses_race Sample.nobody_yet in
      r = Normal (mkHttp 200 "OK")
      /\ conversations (store w') = [] /\ profiles (store w') = [])
  /\ (let (r, w') :=
        Webhook.getOrCreateUserProfile "U-alice" Sample.lookup_fails
          Sample.one_family in
      r = Normal None
      /\ store_requests w' = 2
      /\ fst (Supabase.profile_by_line_user_id "U-alice" Sample.lookup_fails w')
         = Normal (ok Sample.alice)).
Proof. vm_compute. repeat split. Qed.

Lemma is_personal_ext st1 st2 fid :
  families st1 = families st2 ->
  Supabase.is_personal st1 fid = Supabase.is_personal st2 fid.
Proof. unfold Supabase.is_personal; intros ->; reflexivity. Qed.

Lemma member_is_duplicate m p ms :
  In m ms -> FamilyMembers.user_id m = p ->
  existsb (Supabase.same_member (FamilyMembers.mk (FamilyMembers.family_id m) p))
          ms = true.
Proof.
  intros Hin Hp. apply existsb_exists. exists m; split; [exact Hin|].
  unfold Supabase.same_member; simpl.
  rewrite Hp, !Nat.eqb_refl. reflexivity.
Qed.

(** C3, as the code has it.  A user who has a personal family (a membership
    joined to a family without a group id) is resolved to one and the same
    family id by every 1:1 event whose membership query is answered: the
    resolution returns that id and leaves the families and the memberships as
    they are, so no second personal family is created.  The resolution never
    reads the error of that query: a query that fails counts as "no personal
    family". *)
Theorem personal_family_is_reused env w profileId m :
  In m (family_members (store w)) ->
  FamilyMembers.user_id m = profileId ->
  Supabase.is_personal (store w) (FamilyMembers.family_id m) = true ->
  exists fid,
    In (FamilyMembers.mk fid profileId) (family_members (store w))
    /\ Supabase.is_personal (store w) fid = true
    /\ forall lineUserId lineGroupId w2,
        Js.truthy lineGroupId = false ->
        families (store w2) = families (store w) ->
        family_members (store w2) = family_members (store w) ->
        store_fault env (store_requests w2) = None ->
        exists w3,
          Webhook.getOrCreateFamily profileId lineUserId lineGroupId env w2
          = (Normal (Some fid), w3)
          /\ families (store w3) = families (store w)
          /\ family_members (store w3) = family_members (store w).
Proof.
  intros Hin Huser Hpersonal.
  destruct (filter (personal_member (store w) profileId)
                   (family_members (store w))) as [|m0 rest] eqn:Hfilter.
  { assert (Hm : In m (filter (personal_member (store w) profileId)
                              (family_members (store w)))).
    { apply filter_In; split; [exact Hin|].
      unfold personal_member.
      rewrite Huser, Nat.eqb_refl, Hpersonal; reflexivity. }
    rewrite Hfilter in Hm; destruct Hm. }
  assert (Hm0 : In m0 (filter (personal_member (store w) profileId)
                              (family_members (store w))))
    by (rewrite Hfilter; left; reflexivity).
  apply filter_In in Hm0; destruct Hm0 as [Hin0 Hp0].
  unfold personal_member in Hp0; apply andb_prop in Hp0.
  destruct Hp0 as [Hu0 Hf0]; apply Nat.eqb_eq in Hu0.
  exists (FamilyMembers.family_id m0).
  split; [|split; [exact Hf0|]].
  { destruct m0 as [f u]; simpl in *; subst; exact Hin0. }
  intros lineUserId lineGroupId w2 Hgroup Hfams Hmembers Hfault.
  pose proof (member_is_duplicate m0 profileId _ Hin0 Hu0) as Hdup.
  assert (Hquery :
            filter (fun m1 => Nat.eqb (FamilyMembers.user_id m1) profileId
                              && Supabase.is_personal (store w2)
                                   (FamilyMembers.family_id m1))
                   (family_members (store w2)) = m0 :: rest).
  { rewrite Hmembers, <- Hfilter. apply filter_ext.
    intros m1; unfold personal_member.
    rewrite (is_personal_ext (store w2) (store w)); auto. }
  rewrite <- Hmembers in Hdup.
  assert (Hbranch :
            Webhook.lookupOrCreateFamily profileId lineGroupId env w2
            = (Normal (Some (FamilyMembers.family_id m0)),
               set_store (store w2) (sent_request w2))).
  { unfold Webhook.lookupOrCreateFamily.
    destruct lineGroupId as [[|c g]|]; try discriminate.
    all: run_delta; rewrite Hfault, Hquery; reflexivity. }
  unfold Webhook.getOrCreateFamily.
  rewrite (bind_normal _ _ _ _ _ _ Hbranch).
  unfold Webhook.registerMember.
  run_delta.
  destruct (store_fault env (S (store_requests w2))) as [msg|].
  - destruct (Js.includes msg "duplicate"); run_delta;
      eexists; repeat split; observe; auto.
  - rewrite Hdup. run_delta. eexists; repeat split; observe; auto.
Qed.

Lemma personal_family_is_reused_witness :
  exists fid,
    In (FamilyMembers.mk fid 1) (family_members (store Sample.alice_at_home))
    /\ Supabase.is_personal (store Sample.alice_at_home) fid = true
    /\ forall lineUserId lineGroupId w2,
        Js.truthy lineGroupId = false ->
        families (store w2) = families (store Sample.alice_at_home) ->
        family_members (store w2) = family_members (store Sample.alice_at_home) ->
        store_fault Sample.all_goes_well (store_requests w2) = None ->
        exists w3,
          Webhook.getOrCreateFamily 1 lineUserId lineGroupId
            Sample.all_goes_well w2
          = (Normal (Some fid), w3)
          /\ families (store w3) = families (store Sample.alice_at_home)
          /\ family_members (store w3)
             = family_members (store Sample.alice_at_home).
Proof.
  apply (personal_family_is_reused Sample.all_goes_well Sample.alice_at_home 1
           (FamilyMembers.mk 21 1)).
  - right; left; reflexivity.
  - reflexivity.
  - reflexivity.
Defined.

(** C3 as stated fails.  Alice has the personal family 21; the membership
    query of her next 1:1 event fails; the resolution takes her for a user
    without a personal family, creates a second one and returns its id. *)
Lemma failed_query_creates_a_second_home :
  In (FamilyMembers.mk 21 1) (family_members (store Sample.alice_at_home))
  /\ Supabase.is_personal (store Sample.alice_at_home) 21 = true
  /\ let env :=
       Sample.env_of (fun _ => None) (Sample.fault_at 0 "fetch failed")
                     (fun _ => true) (fun _ => None) (1 # 2) in
     let (r, w') :=
       Webhook.getOrCreateFamily 1 "U-alice" None env Sample.alice_at_home in
     r = Normal (Some 100)
     /\ families (store w')
        = [Sample.family_a; Sample.home; Families.mk 100 None "マイホーム"].
Proof. vm_compute. repeat split. right; left; reflexivity. Qed.

(** Two 1:1 events of Alice in a row: both are logged under her personal
    family 21 and no family is created. *)
Example second_event_same_family :
  let env :=
    Sample.env_of
      (fun _ => Some [MessageEvent (mkSource "U-alice" None None)
                        (TextMessage "ただいま");
                      MessageEvent (mkSource "U-alice" None None)
                        (TextMessage "おなかすいた")])
      Sample.no_fault (fun _ => true) (fun _ => Some (Some "おかえり！"))
      (1 # 2) in
  let (r, w') := Webhook.POST Sample.signed env Sample.alice_at_home in
  map Conversations.family_id (conversations (store w')) = [Some 21; Some 21]
  /\ families (store w') = families (store Sample.alice_at_home)
  /\ family_members (store w') = family_members (store Sample.alice_at_home).
Proof. vm_compute. repeat split. Qed.

Lemma newest_all n keep st :
  length (filter keep (conversations st)) <= n ->
  rev (Supabase.newest n keep st) = filter keep (conversations st).
Proof.
  intros Hlen. unfold Supabase.newest.
  rewrite firstn_all2 by (rewrite length_rev; exact Hlen).
  apply rev_involutive.
Qed.

(** C4, as the code has it.  Family-scoped participation: with five prior
    entries of the family (human and AI alike) and a generated text that is
    not empty once trimmed, when the store answers the history query, LINE
    accepts the push and the store accepts the insert, the history sent to
    the generation is the five contents in chronological order, the reply is
    pushed to the reply target, and exactly one entry is appended, with
    [is_ai_generated = true] and the same family id. *)
Theorem ai_reply_uses_whole_family_history
    env w fid senderId replyToId prior content c t :
  filter (Supabase.of_family fid) (conversations (store w)) = prior ->
  length prior = 5 ->
  completion env (length (chats w)) = Some (Some content) ->
  Js.trim content = String c t ->
  store_fault env (store_requests w) = None ->
  push_ok env (length (pushes w)) = true ->
  store_fault env (S (store_requests w)) = None ->
  exists w',
    Webhook.handleAIResponse (Some fid) senderId replyToId env w
    = (Normal tt, w')
    /\ chats w'
       = chats w
           ++ [mkChat Webhook.persona
                      (Js.join_lines (map Conversations.content prior))]
    /\ pushes w' = pushes w ++ [mkPush replyToId (String c t) true]
    /\ conversations (store w')
       = conversations (store w)
           ++ [Conversations.mk (Some senderId) (Some fid) (String c t) true].
Proof.
  intros Hprior Hlen Hgen Htrim Hquery Hpush Hinsert.
  unfold Webhook.handleAIResponse.
  run_delta. rewrite Hquery. run_delta. rewrite Hgen. run_delta.
  rewrite Htrim. run_delta. rewrite Hpush. run_delta. rewrite Hinsert.
  eexists; split; [reflexivity|]. observe.
  rewrite newest_all by (rewrite Hprior; lia).
  rewrite Hprior. repeat split.
Qed.

Lemma ai_reply_uses_whole_family_history_witness :
  exists w',
    Webhook.handleAIResponse (Some 11) 1 "G-a" Sample.ai_takes_part
      Sample.family_with_history = (Normal tt, w')
    /\ chats w'
       = [mkChat Webhook.persona
            (Js.join_lines
               ["ただいま"; "おかえり！"; "今日は寒いね"; "あったかくしてね";
                "鍋にしよう"])]
    /\ pushes w' = [mkPush "G-a" "おかえり！" true]
    /\ conversations (store w')
       = conversations (store Sample.family_with_history)
           ++ [Conversations.mk (Some 1) (Some 11) "おかえり！" true].
Proof.
  exact (ai_reply_uses_whole_family_history Sample.ai_takes_part
           Sample.family_with_history 11 1 "G-a" Sample.five_entries
           " おかえり！ " _ _
           eq_refl eq_refl eq_refl eq_refl eq_refl eq_refl eq_refl).
Defined.

(** C4 as stated fails.  The family has five prior entries and the
    generation answers with a non-empty text; LINE refuses the push: the
    policy throws, nothing is delivered and no entry is appended.  And when
    the store does not answer the history query, the generation is called
    with an empty history. *)
Lemma reply_is_lost_when_the_push_is_refused :
  length (filter (Supabase.of_family 11)
                 (conversations (store Sample.family_with_history))) = 5
  /\ completion Sample.every_push_fails
       (length (chats Sample.family_with_history))
     = Some (Some "今日の晩ごはんは？")
  /\ (let (r, w') :=
        Webhook.handleAIResponse (Some 11) 1 "G-a" Sample.every_push_fails
          Sample.family_with_history in
      (exists e, r = Throw e)
      /\ delivered w' = 0
      /\ conversations (store w')
         = conversations (store Sample.family_with_history))
  /\ (let (r, w') :=
        Webhook.handleAIResponse (Some 11) 1 "G-a" Sample.lookup_fails
          Sample.family_with_history in
      chats w' = [mkChat Webhook.persona ""]).
Proof. vm_compute. repeat split. eexists; reflexivity. Qed.

Lemma userMessagesOf_newest keep st :
  WebhookDirectAI.userMessagesOf (Supabase.newest 5 keep st)
  = map Conversations.content
        (filter (fun conv => negb (Conversations.is_ai_generated conv))
                (skipn (length (filter keep (conversations st)) - 5)
                       (filter keep (conversations st)))).
Proof.
  unfold WebhookDirectAI.userMessagesOf, Supabase.newest.
  rewrite firstn_rev, filter_rev, map_rev, rev_involutive. reflexivity.
Qed.

(** C5.  Sender-scoped (1:1-only) participation.  Of the five newest entries
    of the sender, the AI-generated ones are filtered out; when a human entry
    remains (and the history query was answered), exactly one generation call
    is made, with the contents of the human entries alone, in chronological
    order, one per line, after the instruction; when no human entry remains
    (all the retrieved entries are AI-generated) or the query failed, no
    generation call is made, nothing is pushed and the store is left as it
    is. *)
Theorem degraded_policy_filters_and_aborts
    env w senderId lineUserId r w' prior human :
  WebhookDirectAI.handleAIResponse senderId lineUserId env w = (r, w') ->
  prior = filter (Supabase.of_sender senderId) (conversations (store w)) ->
  human = filter (fun conv => negb (Conversations.is_ai_generated conv))
                 (skipn (length prior - 5) prior) ->
  chats w'
  = chats w
      ++ match store_fault env (store_requests w), human with
         | None, _ :: _ =>
             [mkChat WebhookDirectAI.persona
                (WebhookDirectAI.instruction
                 ++ Js.join_lines (map Conversations.content human))]
         | _, _ => []
         end
  /\ (store_fault env (store_requests w) <> None \/ human = [] ->
      r = Normal tt
      /\ store w' = store w /\ chats w' = chats w /\ pushes w' = pushes w).
Proof.
  intros Hrun -> ->.
  pose proof (userMessagesOf_newest (Supabase.of_sender senderId) (store w))
    as Hhuman.
  revert Hrun Hhuman.
  unfold WebhookDirectAI.handleAIResponse.
  run.
  all: finish; project.
  all: try (cbv [WebhookDirectAI.userMessagesOf] in Hhuman;
            cbn [filter map rev] in Hhuman; discriminate Hhuman).
  all: try rewrite <- Hhuman.
  all: split;
    [ rewrite ?app_nil_r; reflexivity
    | intros [Hfault | Hnone];
      first [ solve [repeat split]
            | exfalso; apply Hfault; reflexivity
            | discriminate Hnone ] ].
Qed.

Lemma degraded_policy_filters_and_aborts_witness :
  exists r w',
    WebhookDirectAI.handleAIResponse 1 "U-alice" Sample.ai_takes_part
      Sample.mixed_entries = (r, w')
    /\ chats w'
       = [mkChat WebhookDirectAI.persona
            (WebhookDirectAI.instruction
             ++ Js.join_lines ["今日は寒いね"; "鍋にしよう"; "おやすみ"])].
Proof.
  eexists; eexists; split; [vm_compute; reflexivity|].
  exact (proj1 (degraded_policy_filters_and_aborts Sample.ai_takes_part
                  Sample.mixed_entries 1 "U-alice" _ _ _ _
                  ltac:(vm_compute; reflexivity) eq_refl eq_refl)).
Defined.

(** All of the five newest entries are AI-generated: nothing is generated,
    pushed or written, although an older human entry exists. *)
Example only_ai_entries_abort :
  let (r, w') :=
    WebhookDirectAI.handleAIResponse 1 "U-alice" Sample.ai_takes_part
      Sample.only_ai_entries in
  r = Normal tt
  /\ store w' = store Sample.only_ai_entries
  /\ chats w' = [] /\ pushes w' = [].
Proof. vm_compute. repeat split. Qed.

Lemma lookupOrCreateFamily_normal p g env w :
  exists familyId w1,
    Webhook.lookupOrCreateFamily p g env w = (Normal familyId, w1).
Proof.
  unfold Webhook.lookupOrCreateFamily.
  run; eauto.
Qed.

(** Once the sender and the family are resolved, the event is logged under
    the family id that was returned. *)
Lemma handleEvent_logs_under_resolved_family
    src text env w r w' pid wa familyId wb :
  Webhook.handleEvent (MessageEvent src (TextMessage text)) env w = (r, w') ->
  Webhook.getOrCreateUserProfile (userId src) env
    (add_console ("log: " ++ "受信: " ++ text) w) = (Normal (Some pid), wa) ->
  Webhook.getOrCreateFamily pid (userId src)
    (js_or (js_or (groupId src) (roomId src)) None) env wa
  = (Normal familyId, wb) ->
  store_fault env (store_requests wb) = None ->
  exists reply,
    conversations (store w')
    = conversations (store wb)
        ++ Conversations.mk (Some pid) familyId text false :: reply.
Proof.
  intros Hev Hprofile Hfamily Hfault.
  unfold Webhook.handleEvent in Hev.
  rewrite (bind_normal _ _ _ _ _ _ (eq_refl : console_log _ env w = _)) in Hev.
  rewrite (bind_normal _ _ _ _ _ _ Hprofile) in Hev.
  rewrite (bind_normal _ _ _ _ _ _ Hfamily) in Hev.
  revert Hev. unfold Webhook.handleAIResponse.
  run; try congruence.
  all: finish; project.
  all: rewrite <- ?app_assoc; eexists; reflexivity.
Qed.

(** C8.  The membership insert at the end of the family resolution neither
    changes the family id that is returned nor aborts the caller:
    [getOrCreateFamily] returns normally the id that the first part of the
    resolution determined.  A duplicate-key failure (the pair exists already,
    or any error whose message contains "duplicate") is swallowed: only the
    request is counted.  Any other failure of the insert is only logged.  And
    the webhook then logs the conversation entry under the returned id. *)
Theorem membership_insert_never_aborts env w profileId lineUserId lineGroupId :
  (exists familyId w1 w',
      Webhook.lookupOrCreateFamily profileId lineGroupId env w
      = (Normal familyId, w1)
      /\ Webhook.getOrCreateFamily profileId lineUserId lineGroupId env w
         = (Normal familyId, w')
      /\ match familyId with
         | None => w' = w1
         | Some fid =>
             match store_fault env (store_requests w1) with
             | Some msg =>
                 w' = if Js.includes msg "duplicate"
                      then sent_request w1
                      else add_console "error: Family member登録エラー:"
                             (sent_request w1)
             | None =>
                 if existsb (Supabase.same_member
                               (FamilyMembers.mk fid profileId))
                            (family_members (store w1))
                 then w' = sent_request w1
                 else w' = set_store
                             (Supabase.set_family_members (store w1)
                                (family_members (store w1)
                                 ++ [FamilyMembers.mk fid profileId]))
                             (sent_request w1)
             end
         end)
  /\ (forall src text w0 r w' pid wa familyId wb,
         Webhook.handleEvent (MessageEvent src (TextMessage text)) env w0
         = (r, w') ->
         Webhook.getOrCreateUserProfile (userId src) env
           (add_console ("log: " ++ "受信: " ++ text) w0)
         = (Normal (Some pid), wa) ->
         Webhook.getOrCreateFamily pid (userId src)
           (js_or (js_or (groupId src) (roomId src)) None) env wa
         = (Normal familyId, wb) ->
         store_fault env (store_requests wb) = None ->
         exists reply,
           conversations (store w')
           = conversations (store wb)
               ++ Conversations.mk (Some pid) familyId text false :: reply).
Proof.
  split; [|intros; eapply handleEvent_logs_under_resolved_family; eauto].
  destruct (lookupOrCreateFamily_normal profileId lineGroupId env w)
    as (familyId & w1 & Hlookup).
  exists familyId, w1.
  unfold Webhook.getOrCreateFamily.
  rewrite (bind_normal _ _ _ _ _ _ Hlookup).
  unfold Webhook.registerMember.
  destruct familyId as [fid|].
  - run_delta.
    destruct (store_fault env (store_requests w1)) as [msg|].
    + run_delta.
      destruct (Js.includes msg "duplicate"); run_delta;
        eexists; (split; [exact Hlookup | split; reflexivity]).
    + destruct (existsb _ (family_members (store w1))); run_delta;
        eexists; (split; [exact Hlookup | split; reflexivity]).
  - run_delta. eexists; (split; [exact Hlookup | split; reflexivity]).
Qed.

Lemma membership_insert_never_aborts_witness :
  exists w',
    Webhook.getOrCreateFamily 1 "U-alice" (Some "G-a")
      Sample.membership_insert_fails Sample.one_family
    = (Normal (Some 11), w')
    /\ console w' = ["error: Family member登録エラー:"]
    /\ family_members (store w') = family_members (store Sample.one_family).
Proof.
  destruct (proj1 (membership_insert_never_aborts
                     Sample.membership_insert_fails Sample.one_family
                     1 "U-alice" (Some "G-a")))
    as (familyId & w1 & w' & Hlookup & Hresolve & Hinsert).
  vm_compute in Hlookup.
  apply pair_equal_spec in Hlookup; destruct Hlookup as [Hid Hw1].
  injection Hid as Hid; subst familyId w1.
  exists w'; split; [exact Hresolve|].
  vm_compute in Hinsert; subst w'.
  split; reflexivity.
Defined.

(** The three outcomes of the membership insert leave the event logged under
    the family of the group: the pair is new, the pair exists, the store
    fails the insert (its third request of the delivery). *)
Example membership_outcomes :
  let logged faults w :=
    let env :=
      Sample.env_of (fun _ => Some [Sample.from_alice_in_group]) faults
                    (fun _ => true) (fun _ => Some (Some "おかえり！")) (1 # 2) in
    let w' := snd (Webhook.POST Sample.signed env w) in
    (map Conversations.family_id (conversations (store w')),
     family_members (store w'), console w') in
  logged Sample.no_fault
         (Sample.world_of
            (mkStore [Sample.alice] [Sample.family_a] [] [] [] 100))
  = ([Some 11], [FamilyMembers.mk 11 1], ["log: 受信: ただいま"])
  /\ logged Sample.no_fault Sample.one_family
     = ([Some 11], [FamilyMembers.mk 11 1], ["log: 受信: ただいま"])
  /\ logged (Sample.fault_at 2 "permission denied")
            (Sample.world_of
               (mkStore [Sample.alice] [Sample.family_a] [] [] [] 100))
     = ([Some 11], [],
        ["log: 受信: ただいま"; "error: Family member登録エラー:"]).
Proof. vm_compute. repeat split. Qed.

Lemma direct_effect_refl w : direct_effect w w.
Proof.
  repeat split; exists []; rewrite app_nil_r; repeat split; simpl; auto; lia.
Qed.

Lemma direct_effect_trans a b c :
  direct_effect a b -> direct_effect b c -> direct_effect a c.
Proof.
  intros (F1 & M1 & T1 & x & Hx & Fx & Dx) (F2 & M2 & T2 & y & Hy & Fy & Dy).
  repeat split; try congruence.
  exists (x ++ y); repeat split.
  - rewrite Hy, Hx, app_assoc; reflexivity.
  - apply Forall_app; split; assumption.
  - rewrite filter_app, length_app; lia.
Qed.

Lemma findOrCreateProfile_frame u env w r w' :
  WebhookDirect.findOrCreateProfile u env w = (r, w') ->
  no_throw r
  /\ families (store w') = families (store w)
  /\ family_members (store w') = family_members (store w)
  /\ resolves_only w w'.
Proof.
  unfold WebhookDirect.findOrCreateProfile.
  run.
  all: finish; unfold resolves_only; observe; auto 10.
Qed.

Lemma direct_handleAIResponse_effect s u env w r w' :
  WebhookDirectAI.handleAIResponse s u env w = (r, w') -> direct_effect w w'.
Proof.
  unfold WebhookDirectAI.handleAIResponse.
  run.
  all: finish; unfold direct_effect; observe.
  all: repeat split; auto.
  all: first
    [ solve [ exists []; rewrite app_nil_r; repeat split; simpl; auto; lia ]
    | solve [ eexists [_]; repeat split;
              [ repeat constructor | simpl; lia ] ] ].
Qed.

Lemma direct_effect_human w v row :
  conversations (store v) = conversations (store w) ++ [row] ->
  Conversations.family_id row = None ->
  Conversations.is_ai_generated row = false ->
  families (store v) = families (store w) ->
  family_members (store v) = family_members (store w) ->
  daily_topics (store v) = daily_topics (store w) ->
  delivered v = delivered w ->
  direct_effect w v.
Proof.
  intros C Hf Ha F M T D. repeat split; auto.
  exists [row]; repeat split; auto.
  simpl. rewrite Ha. simpl. lia.
Qed.

Lemma direct_effect_same w v :
  families (store v) = families (store w) ->
  family_members (store v) = family_members (store w) ->
  daily_topics (store v) = daily_topics (store w) ->
  conversations (store v) = conversations (store w) ->
  delivered v = delivered w ->
  direct_effect w v.
Proof.
  intros F M T C D. repeat split; auto.
  exists []; rewrite app_nil_r; repeat split; simpl; auto; lia.
Qed.

Lemma WebhookDirect_handleEvent_effect ev env w r w' :
  WebhookDirect.handleEvent ev env w = (r, w') ->
  no_throw r /\ direct_effect w w' /\ chats w' = chats w /\ pushes w' = pushes w.
Proof.
  unfold WebhookDirect.handleEvent, WebhookDirect.findOrCreateProfile.
  run.
  all: finish; split; [exact I|]; split; [|split; reflexivity].
  all: first
    [ solve [ apply direct_effect_same; reflexivity ]
    | solve [ eapply direct_effect_human; reflexivity ] ].
Qed.

Lemma WebhookDirectAI_handleEvent_effect ev env w r w' :
  WebhookDirectAI.handleEvent ev env w = (r, w') ->
  no_throw r /\ direct_effect w w'.
Proof.
  unfold WebhookDirectAI.handleEvent, WebhookDirect.findOrCreateProfile.
  run.
  all: finish; split; [exact I|].
  all: try match goal with
         | H : WebhookDirectAI.handleAIResponse _ _ _ _ = _ |- _ =>
             apply direct_handleAIResponse_effect in H;
             eapply direct_effect_trans; [|first [exact H | eapply direct_effect_trans; [exact H|]]]
         end.
  all: first
    [ solve [ apply direct_effect_same; reflexivity ]
    | solve [ eapply direct_effect_human; reflexivity ] ].
Qed.

Lemma no_ai_when_nothing_delivered (added : list Conversations.row) :
  length (filter Conversations.is_ai_generated added) = 0 ->
  Forall (fun c => Conversations.is_ai_generated c = false) added.
Proof.
  induction added as [|c rest IH]; intros H; constructor.
  - simpl in H. destruct (Conversations.is_ai_generated c); [discriminate | reflexivity].
  - apply IH. simpl in H.
    destruct (Conversations.is_ai_generated c); [discriminate | exact H].
Qed.

Lemma Direct_POST_always_200 req env w :
  exists msg w', WebhookDirect.POST req env w = (Normal (mkHttp 200 msg), w').
Proof.
  unfold WebhookDirect.POST.
  run_delta.
  destruct (negb _); [eauto|].
  destruct (parse_events env (req_body req)) as [events|]; [|eauto].
  destruct (for_of events WebhookDirect.handleEvent env w) as [r1 w1] eqn:Hloop.
  pose proof (for_of_no_continue _ _ _ _ _ _ Hloop) as Hr.
  destruct r1 as [[] | e |]; eauto; contradiction.
Qed.

Lemma DirectAI_POST_always_200 req env w :
  exists msg w', WebhookDirectAI.POST req env w = (Normal (mkHttp 200 msg), w').
Proof.
  unfold WebhookDirectAI.POST.
  run_delta.
  destruct (negb _); [eauto|].
  destruct (parse_events env (req_body req)) as [events|]; [|eauto].
  destruct (for_of events WebhookDirectAI.handleEvent env w) as [r1 w1] eqn:Hloop.
  pose proof (for_of_no_continue _ _ _ _ _ _ Hloop) as Hr.
  destruct r1 as [[] | e |]; eauto; contradiction.
Qed.

(** X1.  Whatever LINE delivers and whatever the collaborators answer, each
    of the three webhook handlers returns normally with status 200: a bad
    signature, a body that does not parse, a store or LINE failure and an
    exception of the AI step all end in a 200 answer, so that LINE never
    retries a delivery. *)
Theorem webhooks_always_answer_200 req env w :
  (exists msg w', Webhook.POST req env w = (Normal (mkHttp 200 msg), w'))
  /\ (exists msg w',
         WebhookDirect.POST req env w = (Normal (mkHttp 200 msg), w'))
  /\ (exists msg w',
         WebhookDirectAI.POST req env w = (Normal (mkHttp 200 msg), w')).
Proof.
  split; [apply POST_always_200|].
  split; [apply Direct_POST_always_200 | apply DirectAI_POST_always_200].
Qed.

Lemma Direct_loop_effect env events w r w' :
  for_of events WebhookDirect.handleEvent env w = (r, w') ->
  direct_effect w w' /\ chats w' = chats w /\ pushes w' = pushes w.
Proof.
  apply (for_of_preserves
           (fun a b => direct_effect a b /\ chats b = chats a
                       /\ pushes b = pushes a)).
  - intros v; split; [apply direct_effect_refl | auto].
  - intros a b c (H1 & C1 & P1) (H2 & C2 & P2).
    split; [eapply direct_effect_trans; eauto | split; congruence].
  - intros x v r0 v' Hx.
    apply WebhookDirect_handleEvent_effect in Hx. tauto.
Qed.

(** X2.  The 1:1-only webhook without AI participation only logs: a
    delivery never calls the text generation and never pushes a message; it
    leaves families, memberships and topics alone; and every conversation
    entry it adds has no family and is not AI-generated. *)
Theorem direct_webhook_only_logs req env w r w' :
  WebhookDirect.POST req env w = (r, w') ->
  chats w' = chats w
  /\ pushes w' = pushes w
  /\ families (store w') = families (store w)
  /\ family_members (store w') = family_members (store w)
  /\ daily_topics (store w') = daily_topics (store w)
  /\ exists added,
      conversations (store w') = conversations (store w) ++ added
      /\ Forall (fun c => Conversations.family_id c = None
                          /\ Conversations.is_ai_generated c = false) added.
Proof.
  assert (Hgoal : forall v,
            direct_effect w v /\ chats v = chats w /\ pushes v = pushes w ->
            chats v = chats w
            /\ pushes v = pushes w
            /\ families (store v) = families (store w)
            /\ family_members (store v) = family_members (store w)
            /\ daily_topics (store v) = daily_topics (store w)
            /\ exists added,
                conversations (store v) = conversations (store w) ++ added
                /\ Forall (fun c => Conversations.family_id c = None
                                    /\ Conversations.is_ai_generated c = false)
                          added).
  { intros v ((F & M & T & added & C & Hfam & Hdel) & Hc & Hp).
    repeat split; auto.
    exists added; split; [exact C|].
    assert (Hnone : length (filter Conversations.is_ai_generated added) = 0).
    { unfold delivered in Hdel. rewrite Hp in Hdel. lia. }
    apply no_ai_when_nothing_delivered in Hnone.
    rewrite Forall_forall in *. intros c Hin. split; auto. }
  assert (Hhere : direct_effect w w /\ chats w = chats w /\ pushes w = pushes w)
    by (split; [apply direct_effect_refl | auto]).
  unfold WebhookDirect.POST.
  run_delta.
  destruct (negb _).
  - intros H; finish. apply (Hgoal _ Hhere).
  - destruct (parse_events env (req_body req)) as [events|].
    + destruct (for_of events WebhookDirect.handleEvent env w) as [r1 w1] eqn:Hloop.
      apply Direct_loop_effect in Hloop.
      destruct r1; intros H; finish; apply (Hgoal _ Hloop).
    + intros H; finish. apply (Hgoal _ Hhere).
Qed.

(** X3.  The 1:1-only webhook with AI participation confines the failures
    of its AI step: for a signed delivery whose body parses, every event is
    processed and the answer is 200 "OK" (never "Error"), whatever the store,
    LINE and the generation answer; the entries it adds have no family, and
    the AI-generated ones among them are no more than the pushes that were
    delivered. *)
Theorem direct_ai_webhook_contains_ai_failures req env w events :
  validateSignature env (req_body req) (channelSecret env)
    (js_or_string (x_line_signature req) "") = true ->
  parse_events env (req_body req) = Some events ->
  exists w',
    WebhookDirectAI.POST req env w = (Normal (mkHttp 200 "OK"), w')
    /\ direct_effect w w'.
Proof.
  intros Hsig Hparse.
  destruct (for_of_invariant (fun _ v => direct_effect w v)
              WebhookDirectAI.handleEvent env) with (xs := events) (k := 0) (w := w)
    as (w' & Hloop & Heffect).
  - intros x k v r v' Hx Hv.
    apply WebhookDirectAI_handleEvent_effect in Hx.
    destruct Hx as [Hr He]. split; [exact Hr|].
    eapply direct_effect_trans; eauto.
  - apply direct_effect_refl.
  - exists w'. split; [|exact Heffect].
    unfold WebhookDirectAI.POST. run_delta.
    rewrite Hsig. run_delta. rewrite Hparse, Hloop. reflexivity.
Qed.

Lemma direct_webhook_only_logs_witness :
  exists r w',
    WebhookDirect.POST Sample.signed Sample.ai_takes_part Sample.one_family
    = (r, w')
    /\ chats w' = chats Sample.one_family
    /\ pushes w' = pushes Sample.one_family.
Proof.
  eexists; eexists; split; [vm_compute; reflexivity|].
  destruct (direct_webhook_only_logs Sample.signed Sample.ai_takes_part
              Sample.one_family _ _ ltac:(vm_compute; reflexivity))
    as (Hchats & Hpushes & _).
  split; [exact Hchats | exact Hpushes].
Defined.

Lemma direct_ai_webhook_contains_ai_failures_witness :
  exists w',
    WebhookDirectAI.POST Sample.signed Sample.generation_throws
      Sample.one_family
    = (Normal (mkHttp 200 "OK"), w')
    /\ direct_effect Sample.one_family w'.
Proof.
  exact (direct_ai_webhook_contains_ai_failures Sample.signed
           Sample.generation_throws Sample.one_family
           [Sample.from_alice_in_group; Sample.from_dave] eq_refl eq_refl).
Defined.

(** An event of the group-aware webhook only throws from its AI step: the
    human entry is in the log, linked to a family; no push was delivered and
    no AI entry was written. *)
Lemma handleEvent_throws_after_log ev env w e w' :
  Webhook.handleEvent ev env w = (Throw e, w') ->
  exists src text pid fid,
    ev = MessageEvent src (TextMessage text)
    /\ conversations (store w')
       = conversations (store w)
           ++ [Conversations.mk (Some pid) (Some fid) text false]
    /\ length (chats w') = S (length (chats w))
    /\ delivered w' = delivered w.
Proof.
  intros H.
  destruct ev as [src [text | ty] | ty]; unfold Webhook.handleEvent in H;
    try discriminate.
  remember (@Throw unit e) as r eqn:Hr in H.
  bind_step H as u0 w0 Hlog; try discriminate.
  apply pair_equal_spec in Hlog; destruct Hlog as [_ <-].
  bind_step H as profileId w1 Hprofile.
  2,3: apply getOrCreateUserProfile_frame in Hprofile;
       destruct Hprofile as [[p Hp] _]; discriminate.
  apply getOrCreateUserProfile_frame in Hprofile.
  destruct Hprofile as [_ (Hc1 & _ & Hch1 & Hp1)].
  destruct profileId as [pid|]; [|unfold continue in H; congruence].
  bind_step H as familyId w2 Hfamily.
  2,3: apply getOrCreateFamily_frame in Hfamily;
       destruct Hfamily as [[p Hp] _]; discriminate.
  apply getOrCreateFamily_frame in Hfamily.
  destruct Hfamily as [_ (Hc2 & _ & Hch2 & Hp2)].
  cbn [chats pushes store add_console] in *.
  subst r. revert H. unfold Webhook.handleAIResponse.
  run; try discriminate.
  all: finish.
  all: eexists src, text, pid, _; split; [reflexivity|]; observe.
  all: rewrite ?Hc2, ?Hc1, ?Hch2, ?Hch1, ?Hp2, ?Hp1.
  all: repeat split; try reflexivity; try lia.
Qed.

(** X4.  In the group-aware webhook an exception of the AI step is not
    contained: when the handling of an event throws (the generation call or
    the push of the reply failed), the human message of that event is already
    in the log with its family, nothing was delivered for it, the events that
    follow in the same delivery are not processed at all, and the answer is
    200 "Error". *)
Theorem ai_failure_ends_the_delivery req env w before ev rest w1 e w2 :
  validateSignature env (req_body req) (channelSecret env)
    (js_or_string (x_line_signature req) "") = true ->
  parse_events env (req_body req) = Some (before ++ ev :: rest) ->
  for_of before Webhook.handleEvent env w = (Normal tt, w1) ->
  Webhook.handleEvent ev env w1 = (Throw e, w2) ->
  Webhook.POST req env w
  = (Normal (mkHttp 200 "Error"), add_console "error: Error:" w2)
  /\ exists src text pid fid,
      ev = MessageEvent src (TextMessage text)
      /\ conversations (store w2)
         = conversations (store w1)
             ++ [Conversations.mk (Some pid) (Some fid) text false]
      /\ delivered w2 = delivered w1.
Proof.
  intros Hsig Hparse Hbefore Hev.
  split.
  - unfold Webhook.POST. run_delta. rewrite Hsig. run_delta. rewrite Hparse.
    rewrite (for_of_app _ _ _ _ _ _ Hbefore).
    cbn [for_of]. rewrite Hev. reflexivity.
  - destruct (handleEvent_throws_after_log _ _ _ _ _ Hev)
      as (src & text & pid & fid & H1 & H2 & _ & H4).
    exists src, text, pid, fid. auto.
Qed.

Lemma ai_failure_ends_the_delivery_witness :
  exists e w2,
    Webhook.handleEvent Sample.from_alice_in_group Sample.generation_throws
      Sample.one_family = (Throw e, w2)
    /\ Webhook.POST Sample.signed Sample.generation_throws Sample.one_family
       = (Normal (mkHttp 200 "Error"), add_console "error: Error:" w2)
    /\ conversations (store w2)
       = [Conversations.mk (Some 1) (Some 11) "ただいま" false].
Proof.
  eexists; eexists; split; [vm_compute; reflexivity|].
  split; [|vm_compute; reflexivity].
  exact (proj1 (ai_failure_ends_the_delivery Sample.signed
                  Sample.generation_throws Sample.one_family
                  [] Sample.from_alice_in_group [Sample.from_dave]
                  Sample.one_family _ _ eq_refl eq_refl eq_refl
                  ltac:(vm_compute; reflexivity))).
Defined.

Lemma existsb_false_filter {A} (f : A -> bool) l :
  existsb f l = false -> filter f l = [].
Proof.
  induction l as [|x rest IH]; simpl; [reflexivity|].
  destruct (f x); simpl; [discriminate | exact IH].
Qed.

Lemma getOrCreateUserProfile_outcome u env w r w1 :
  Webhook.getOrCreateUserProfile u env w = (r, w1) ->
  profile_outcome env u w r w1.
Proof.
  unfold Webhook.getOrCreateUserProfile.
  run.
  all: finish.
  all: first
    [ solve [ eapply ProfileFound; [eassumption | reflexivity | reflexivity] ]
    | solve [ apply ProfileFailed; reflexivity ]
    | solve [ apply ProfileCreated;
              [ assumption
              | unfold display_name_for; cbn [profile_fetches sent_request set_store];
                match goal with H : line_profile _ _ _ = _ |- _ => rewrite H end;
                reflexivity
              | reflexivity ] ] ].
Qed.

(** X5.  Profile resolution is idempotent: once [getOrCreateUserProfile]
    has returned an id for a platform user, a profile with that id and that
    platform user id is in the store, and resolving the same user again (the
    lookup not failing) returns the same id and leaves the store as it is:
    no second profile is created. *)
Theorem profile_resolution_is_idempotent env w u id w1 :
  Webhook.getOrCreateUserProfile u env w = (Normal (Some id), w1) ->
  store_fault env (store_requests w1) = None ->
  (exists p, In p (profiles (store w1))
             /\ Profiles.id p = id /\ Profiles.line_user_id p = u)
  /\ exists w2,
      Webhook.getOrCreateUserProfile u env w1 = (Normal (Some id), w2)
      /\ store w2 = store w1.
Proof.
  intros Hfirst Hfault.
  apply getOrCreateUserProfile_outcome in Hfirst.
  assert (Hagain : forall p,
            filter (Supabase.has_line_user_id u) (profiles (store w1)) = [p] ->
            (exists q, In q (profiles (store w1))
                       /\ Profiles.id q = Profiles.id p
                       /\ Profiles.line_user_id q = u)
            /\ exists w2,
                Webhook.getOrCreateUserProfile u env w1
                = (Normal (Some (Profiles.id p)), w2)
                /\ store w2 = store w1).
  { intros p Hp. split.
    - exists p.
      assert (Hin : In p (filter (Supabase.has_line_user_id u)
                                 (profiles (store w1))))
        by (rewrite Hp; left; reflexivity).
      apply filter_In in Hin. destruct Hin as [Hin Hu].
      repeat split; auto. apply String.eqb_eq; exact Hu.
    - unfold Webhook.getOrCreateUserProfile. run_delta.
      rewrite Hfault, Hp. run_delta. eexists; split; reflexivity. }
  inversion Hfirst as [p w' Hp Hstore _ Hid Hw | w' Hnone Hstore _ Hid Hw |]; subst.
  - apply Hagain. rewrite Hstore; exact Hp.
  - apply (Hagain (Profiles.mk (next_id (store w)) u
                               (display_name_for env w u) "member")).
    rewrite Hstore. cbn [profiles Supabase.set_profiles].
    rewrite filter_app, (existsb_false_filter _ _ Hnone).
    cbn [filter app Supabase.has_line_user_id Profiles.line_user_id].
    unfold Supabase.has_line_user_id; cbn [Profiles.line_user_id].
    rewrite String.eqb_refl. reflexivity.
Qed.

(** X6.  First contact: for a platform user without a profile (the insert
    not failing), the group-aware resolution appends exactly one profile with
    the next id, the role "member" and the display name LINE gives ("Guest"
    when that fetch throws), even when the lookup itself failed; the 1:1-only
    resolution appends one profile named "Guest" with the role "unknown" and
    never asks LINE for the display name. *)
Theorem first_contact_creates_the_profile env w u :
  existsb (Supabase.has_line_user_id u) (profiles (store w)) = false ->
  store_fault env (S (store_requests w)) = None ->
  (exists w1,
      Webhook.getOrCreateUserProfile u env w
      = (Normal (Some (next_id (store w))), w1)
      /\ profiles (store w1)
         = profiles (store w)
             ++ [Profiles.mk (next_id (store w)) u
                   (match line_profile env (profile_fetches w) u with
                    | Some name => name
                    | None => "Guest"
                    end) "member"]
      /\ profile_fetches w1 = S (profile_fetches w))
  /\ (exists w1,
         WebhookDirect.findOrCreateProfile u env w
         = (Normal (Some (Profiles.mk (next_id (store w)) u "Guest" "unknown")),
            w1)
         /\ profiles (store w1)
            = profiles (store w)
                ++ [Profiles.mk (next_id (store w)) u "Guest" "unknown"]
         /\ profile_fetches w1 = profile_fetches w).
Proof.
  intros Hnew Hfault.
  pose proof (existsb_false_filter _ _ Hnew) as Hnone.
  split.
  - unfold Webhook.getOrCreateUserProfile.
    run; try congruence.
    all: eexists; repeat split.
  - unfold WebhookDirect.findOrCreateProfile.
    run; try congruence.
    all: eexists; repeat split.
Qed.

Lemma profile_resolution_is_idempotent_witness :
  exists w1,
    Webhook.getOrCreateUserProfile "U-dave" Sample.all_goes_well
      Sample.nobody_yet = (Normal (Some 100), w1)
    /\ exists w2,
        Webhook.getOrCreateUserProfile "U-dave" Sample.all_goes_well w1
        = (Normal (Some 100), w2)
        /\ store w2 = store w1.
Proof.
  eexists; split; [vm_compute; reflexivity|].
  exact (proj2 (profile_resolution_is_idempotent Sample.all_goes_well
                  Sample.nobody_yet "U-dave" 100 _
                  ltac:(vm_compute; reflexivity) eq_refl)).
Defined.

Lemma first_contact_creates_the_profile_witness :
  exists w1,
    WebhookDirect.findOrCreateProfile "U-dave" Sample.all_goes_well
      Sample.nobody_yet
    = (Normal (Some (Profiles.mk (next_id (store Sample.nobody_yet)) "U-dave"
                                 "Guest" "unknown")), w1)
    /\ profiles (store w1)
       = profiles (store Sample.nobody_yet)
           ++ [Profiles.mk (next_id (store Sample.nobody_yet)) "U-dave"
                           "Guest" "unknown"]
    /\ profile_fetches w1 = profile_fetches Sample.nobody_yet.
Proof.
  exact (proj2 (first_contact_creates_the_profile Sample.all_goes_well
                  Sample.nobody_yet "U-dave" eq_refl eq_refl)).
Defined.

(** The member registration leaves everything but the memberships and the
    console alone, and never throws. *)
Lemma registerMember_frame familyId p env w :
  exists w1,
    Webhook.registerMember familyId p env w = (Normal tt, w1)
    /\ families (store w1) = families (store w)
    /\ profiles (store w1) = profiles (store w)
    /\ next_id (store w1) = next_id (store w)
    /\ (family_members (store w1) = family_members (store w)
        \/ exists fid, familyId = Some fid
                       /\ family_members (store w1)
                          = family_members (store w)
                              ++ [FamilyMembers.mk fid p])
    /\ forall fid, familyId = Some fid ->
                   store_requests w1 = S (store_requests w)
                   /\ (store_fault env (store_requests w) = None ->
                       In (FamilyMembers.mk fid p) (family_members (store w1))).
Proof.
  unfold Webhook.registerMember.
  destruct familyId as [fid|].
  2: { eexists; split; [reflexivity|]. repeat (split; auto). all: discriminate. }
  run.
  all: eexists; split; [reflexivity|]; project.
  all: repeat split; auto.
  all: try (right; eexists; split; reflexivity).
  all: intros Hok; try discriminate.
  all: match goal with Hf : Some _ = Some _ |- _ => injection Hf as <- end.
  all: first
    [ apply in_or_app; right; left; reflexivity
    | match goal with
      | H : existsb _ _ = true |- _ =>
          apply existsb_exists in H; destruct H as (m & Hin & Hsame);
          unfold Supabase.same_member in Hsame; apply andb_prop in Hsame;
          destruct Hsame as [H1 H2]; apply Nat.eqb_eq in H1, H2;
          destruct m as [mf mu]; simpl in *; subst; exact Hin
      end ].
Qed.

Lemma lookupOrCreateFamily_group p c g env w :
  exists r w1,
    Webhook.lookupOrCreateFamily p (Some (String c g)) env w = (Normal r, w1)
    /\ group_outcome (String c g) w r w1.
Proof.
  unfold Webhook.lookupOrCreateFamily.
  run.
  all: eexists; eexists; split; [reflexivity|].
  all: first
    [ solve [ eapply GroupFound; [eassumption | reflexivity] ]
    | solve [ apply GroupFailed; reflexivity ]
    | solve [ apply GroupCreated; [assumption | reflexivity] ] ].
Qed.

(** X7.  Group family resolution is idempotent and shared: once
    [getOrCreateFamily] has returned a family id for a group, a family with
    that id and that group id is in the store, and resolving the same group
    again for any user (the lookup not failing) returns the same id without
    creating a family, and registers that user as a member of it when the
    membership insert does not fail. *)
Theorem group_family_resolution_is_idempotent env w p u c g fid w1 :
  Webhook.getOrCreateFamily p u (Some (String c g)) env w
  = (Normal (Some fid), w1) ->
  store_fault env (store_requests w1) = None ->
  (exists f, In f (families (store w1))
             /\ Families.id f = fid
             /\ Families.line_group_id f = Some (String c g))
  /\ forall p' u',
      exists w2,
        Webhook.getOrCreateFamily p' u' (Some (String c g)) env w1
        = (Normal (Some fid), w2)
        /\ families (store w2) = families (store w1)
        /\ (store_fault env (S (store_requests w1)) = None ->
            In (FamilyMembers.mk fid p') (family_members (store w2))).
Proof.
  intros Hfirst Hfault.
  unfold Webhook.getOrCreateFamily in Hfirst.
  destruct (lookupOrCreateFamily_group p c g env w) as (r & wa & Hlookup & Hout).
  rewrite (bind_normal _ _ _ _ _ _ Hlookup) in Hfirst.
  destruct (registerMember_frame r p env wa)
    as (wb & Hreg & Hfams & _ & _ & _ & _).
  rewrite (bind_normal _ _ _ _ _ _ Hreg) in Hfirst.
  unfold ret in Hfirst. apply pair_equal_spec in Hfirst.
  destruct Hfirst as [Hr <-]. injection Hr as ->.
  assert (Hone : exists f,
             filter (Supabase.in_group (String c g)) (families (store wb)) = [f]
             /\ Families.id f = fid).
  { rewrite Hfams.
    inversion Hout as [f w' Hf Hstore Hid Hw | w' Hnone Hstore Hid Hw |]; subst.
    - exists f; rewrite Hstore; auto.
    - exists (Families.mk (next_id (store w)) (Some (String c g)) "家族グループ").
      split; [|reflexivity].
      rewrite Hstore. cbn [families Supabase.set_families].
      rewrite filter_app, (existsb_false_filter _ _ Hnone).
      cbn [filter app]. unfold Supabase.in_group at 1.
      cbn [Families.line_group_id Supabase.same_group].
      rewrite String.eqb_refl. reflexivity. }
  destruct Hone as (f & Hf & Hid).
  split.
  - exists f.
    assert (Hin : In f (filter (Supabase.in_group (String c g))
                               (families (store wb))))
      by (rewrite Hf; left; reflexivity).
    apply filter_In in Hin. destruct Hin as [Hin Hg].
    repeat split; auto.
    unfold Supabase.in_group, Supabase.same_group in Hg.
    destruct (Families.line_group_id f) as [h|]; [|discriminate].
    apply String.eqb_eq in Hg. congruence.
  - intros p' u'.
    assert (Hlook2 : Webhook.lookupOrCreateFamily p' (Some (String c g)) env wb
                     = (Normal (Some fid), set_store (store wb) (sent_request wb))).
    { unfold Webhook.lookupOrCreateFamily. run_delta.
      rewrite Hfault, Hf. run_delta. rewrite Hid. reflexivity. }
    unfold Webhook.getOrCreateFamily.
    rewrite (bind_normal _ _ _ _ _ _ Hlook2).
    destruct (registerMember_frame (Some fid) p' env
                (set_store (store wb) (sent_request wb)))
      as (w2 & Hreg2 & Hfams2 & _ & _ & _ & Hmem).
    rewrite (bind_normal _ _ _ _ _ _ Hreg2).
    exists w2. split; [reflexivity|]. split; [exact Hfams2|].
    intros Hok. destruct (Hmem fid eq_refl) as [_ Hin]. apply Hin. exact Hok.
Qed.

(** X8.  First 1:1 contact: for a user without a personal family (the two
    inserts not failing), [getOrCreateFamily] appends exactly one family
    named "マイホーム" without a group id, returns its id and registers the
    user as its member; resolving again (the lookup not failing) returns that
    same family and creates nothing. *)
Theorem first_personal_contact_creates_one_home env w p u g :
  Js.truthy g = false ->
  filter (personal_member (store w) p) (family_members (store w)) = [] ->
  store_fault env (S (store_requests w)) = None ->
  store_fault env (S (S (store_requests w))) = None ->
  exists w1,
    Webhook.getOrCreateFamily p u g env w
    = (Normal (Some (next_id (store w))), w1)
    /\ families (store w1)
       = families (store w)
           ++ [Families.mk (next_id (store w)) None "マイホーム"]
    /\ In (FamilyMembers.mk (next_id (store w)) p) (family_members (store w1))
    /\ (store_fault env (store_requests w1) = None ->
        exists w2,
          Webhook.getOrCreateFamily p u g env w1
          = (Normal (Some (next_id (store w))), w2)
          /\ families (store w2) = families (store w1)).
Proof.
  intros Hgroup Hnone Hfam Hmem.
  set (fid := next_id (store w)).
  assert (Hlookup : exists wa,
             Webhook.lookupOrCreateFamily p g env w = (Normal (Some fid), wa)
             /\ store wa
                = Supabase.set_families (store w)
                    (families (store w) ++ [Families.mk fid None "マイホーム"])
             /\ store_requests wa = S (S (store_requests w))).
  { unfold Webhook.lookupOrCreateFamily, personal_member in *.
    destruct g as [[|c g]|]; try discriminate.
    all: run; try congruence.
    all: try (match goal with
              | H : firstn 1 _ = _ :: _ |- _ => rewrite Hnone in H; discriminate
              end).
    all: eexists; repeat split. }
  destruct Hlookup as (wa & Hlookup & Hstore & Hreq).
  destruct (registerMember_frame (Some fid) p env wa)
    as (w1 & Hreg & Hfams & _ & _ & Hmembers & Hin).
  destruct (Hin fid eq_refl) as [Hreq1 Hin1].
  rewrite Hreq in Hin1. specialize (Hin1 Hmem).
  exists w1.
  assert (Hfamilies : families (store w1)
                      = families (store w) ++ [Families.mk fid None "マイホーム"])
    by (rewrite Hfams, Hstore; reflexivity).
  split; [|split; [exact Hfamilies | split; [exact Hin1|]]].
  { unfold Webhook.getOrCreateFamily.
    rewrite (bind_normal _ _ _ _ _ _ Hlookup), (bind_normal _ _ _ _ _ _ Hreg).
    reflexivity. }
  intros Hfault.
  (* the memberships of the user that are personal now all lead to [fid] *)
  assert (Hpersonal : forall x,
             Supabase.is_personal (store w1) x
             = Supabase.is_personal (store w) x || Nat.eqb fid x).
  { intros x. unfold Supabase.is_personal. rewrite Hfamilies.
    rewrite existsb_app. cbn [existsb Families.id Families.line_group_id
                                Supabase.same_group].
    rewrite orb_false_r, andb_true_r. reflexivity. }
  assert (Hold : forall m, In m (family_members (store wa)) ->
                           personal_member (store w1) p m = true ->
                           FamilyMembers.family_id m = fid).
  { intros m Hm Hpm. unfold personal_member in Hpm.
    apply andb_prop in Hpm. destruct Hpm as [Hu Hp].
    rewrite Hpersonal in Hp. apply orb_prop in Hp. destruct Hp as [Hp | Hp].
    - exfalso.
      assert (Hm' : In m (filter (personal_member (store w) p)
                                 (family_members (store w)))).
      { apply filter_In. split.
        - rewrite Hstore in Hm. exact Hm.
        - unfold personal_member. rewrite Hu, Hp. reflexivity. }
      rewrite Hnone in Hm'. destruct Hm'.
    - apply Nat.eqb_eq in Hp. auto. }
  assert (Hall : forall m, In m (filter (personal_member (store w1) p)
                                        (family_members (store w1))) ->
                           FamilyMembers.family_id m = fid).
  { intros m Hm. apply filter_In in Hm. destruct Hm as [Hm Hpm].
    destruct Hmembers as [Hsame | (f & Hf & Happ)].
    - rewrite Hsame in Hm. auto.
    - injection Hf as <-. rewrite Happ in Hm. apply in_app_or in Hm.
      destruct Hm as [Hm | [<- | []]]; auto. }
  assert (Hsome : In (FamilyMembers.mk fid p)
                     (filter (personal_member (store w1) p)
                             (family_members (store w1)))).
  { apply filter_In. split; [exact Hin1|].
    unfold personal_member. cbn [FamilyMembers.user_id FamilyMembers.family_id].
    rewrite Hpersonal, !Nat.eqb_refl, orb_true_r. reflexivity. }
  destruct (filter (personal_member (store w1) p) (family_members (store w1)))
    as [|m0 rest] eqn:Hfilter; [destruct Hsome|].
  assert (Hm0 : FamilyMembers.family_id m0 = fid)
    by (apply Hall; left; reflexivity).
  assert (Hlook2 : Webhook.lookupOrCreateFamily p g env w1
                   = (Normal (Some fid), set_store (store w1) (sent_request w1))).
  { unfold Webhook.lookupOrCreateFamily, personal_member in *.
    destruct g as [[|c g]|]; try discriminate.
    all: run_delta; rewrite Hfault, Hfilter; cbn [firstn]; run_delta;
      rewrite Hm0; reflexivity. }
  destruct (registerMember_frame (Some fid) p env
              (set_store (store w1) (sent_request w1)))
    as (w2 & Hreg2 & Hfams2 & _).
  exists w2. split; [|exact Hfams2].
  unfold Webhook.getOrCreateFamily.
  rewrite (bind_normal _ _ _ _ _ _ Hlook2), (bind_normal _ _ _ _ _ _ Hreg2).
  reflexivity.
Qed.

Lemma group_family_resolution_is_idempotent_witness :
  exists w1,
    Webhook.getOrCreateFamily 1 "U-alice" (Some "G-new") Sample.all_goes_well
      Sample.one_family = (Normal (Some 100), w1)
    /\ forall p' u',
        exists w2,
          Webhook.getOrCreateFamily p' u' (Some "G-new") Sample.all_goes_well
            w1 = (Normal (Some 100), w2)
          /\ families (store w2) = families (store w1)
          /\ (store_fault Sample.all_goes_well (S (store_requests w1)) = None ->
              In (FamilyMembers.mk 100 p') (family_members (store w2))).
Proof.
  eexists; split; [vm_compute; reflexivity|].
  exact (proj2 (group_family_resolution_is_idempotent Sample.all_goes_well
                  Sample.one_family 1 "U-alice" "G"%char "-new" 100 _
                  ltac:(vm_compute; reflexivity) eq_refl)).
Defined.

Lemma first_personal_contact_creates_one_home_witness :
  exists w1,
    Webhook.getOrCreateFamily 1 "U-alice" None Sample.all_goes_well
      Sample.one_family = (Normal (Some 100), w1)
    /\ families (store w1)
       = [Sample.family_a; Families.mk 100 None "マイホーム"].
Proof.
  destruct (first_personal_contact_creates_one_home Sample.all_goes_well
              Sample.one_family 1 "U-alice" None
              eq_refl eq_refl eq_refl eq_refl)
    as (w1 & Hrun & Hfamilies & _).
  exists w1. split; [exact Hrun | exact Hfamilies].
Defined.

(** X9.  The AI step of the group-aware webhook always makes exactly one
    generation call, with the persona as system message and, as user
    message, the contents of the last five entries of the family (fewer when
    the family has fewer), oldest first, one per line, human and AI entries
    alike; when the history query fails, the call is still made, with an
    empty history. *)
Theorem family_history_is_the_last_five env w fid senderId replyToId r w'
    prior :
  Webhook.handleAIResponse (Some fid) senderId replyToId env w = (r, w') ->
  prior = filter (Supabase.of_family fid) (conversations (store w)) ->
  chats w'
  = chats w
      ++ [mkChat Webhook.persona
            (match store_fault env (store_requests w) with
             | None =>
                 Js.join_lines
                   (map Conversations.content
                        (skipn (length prior - 5) prior))
             | Some _ => ""
             end)].
Proof.
  intros Hrun ->. revert Hrun.
  unfold Webhook.handleAIResponse, Supabase.newest.
  run.
  all: finish; project.
  all: unfold Supabase.newest; rewrite ?firstn_rev, ?rev_involutive;
    reflexivity.
Qed.

(** X10.  When the generation answers with nothing (null, the empty
    string, or white space only, as [String.prototype.trim] understands it:
    the full-width space and the other Unicode spaces included), the AI step
    of either webhook returns normally without pushing anything and without
    touching the store. *)
Theorem empty_generation_aborts_silently env w content :
  completion env (length (chats w)) = Some content ->
  Js.truthy (option_map Js.trim content) = false ->
  (forall fid senderId replyToId r w',
      Webhook.handleAIResponse (Some fid) senderId replyToId env w = (r, w') ->
      r = Normal tt /\ pushes w' = pushes w /\ store w' = store w)
  /\ (forall senderId lineUserId r w',
         WebhookDirectAI.handleAIResponse senderId lineUserId env w = (r, w') ->
         r = Normal tt /\ pushes w' = pushes w /\ store w' = store w).
Proof.
  intros Hgen Hempty. split.
  - intros fid senderId replyToId r w'.
    unfold Webhook.handleAIResponse.
    run; try congruence.
    all: try (rewrite Hgen in *;
              match goal with H : Some _ = Some _ |- _ => injection H as <- end;
              cbn [option_map] in Hempty;
              match goal with H : Js.trim _ = _ |- _ => rewrite H in Hempty end;
              discriminate).
    all: finish; repeat split.
  - intros senderId lineUserId r w'.
    unfold WebhookDirectAI.handleAIResponse.
    run; try congruence.
    all: try (rewrite Hgen in *;
              match goal with H : Some _ = Some _ |- _ => injection H as <- end;
              cbn [option_map] in Hempty;
              match goal with H : Js.trim _ = _ |- _ => rewrite H in Hempty end;
              discriminate).
    all: finish; repeat split.
Qed.

Lemma family_history_is_the_last_five_witness :
  exists r w',
    Webhook.handleAIResponse (Some 11) 1 "G-a" Sample.ai_takes_part
      Sample.long_history = (r, w')
    /\ chats w'
       = [mkChat Webhook.persona
            (Js.join_lines
               ["ただいま"; "おかえり！"; "今日は寒いね"; "あったかくしてね";
                "鍋にしよう"])].
Proof.
  eexists; eexists; split; [vm_compute; reflexivity|].
  exact (family_history_is_the_last_five Sample.ai_takes_part
           Sample.long_history 11 1 "G-a" _ _
           (Conversations.mk (Some 1) (Some 11) "おはよう" false
            :: Conversations.mk (Some 1) (Some 11) "おはよう！" true
            :: Sample.five_entries)
           ltac:(vm_compute; reflexivity) eq_refl).
Defined.

Lemma empty_generation_aborts_silently_witness :
  exists w',
    Webhook.handleAIResponse (Some 11) 1 "G-a" Sample.wide_blank_generation
      Sample.long_history = (Normal tt, w')
    /\ pushes w' = pushes Sample.long_history
    /\ store w' = store Sample.long_history.
Proof.
  eexists; split; [vm_compute; reflexivity|].
  destruct (proj1 (empty_generation_aborts_silently
                     Sample.wide_blank_generation Sample.long_history
                     (Some "　　") eq_refl eq_refl)
              11 1 "G-a" _ _ ltac:(vm_compute; reflexivity))
    as (_ & Hpushes & Hstore).
  split; [exact Hpushes | exact Hstore].
Defined.

(** The same with ASCII blanks, and in the 1:1-only variant. *)
Example blank_generation_aborts :
  (let (r, w') :=
     Webhook.handleAIResponse (Some 11) 1 "G-a" Sample.blank_generation
       Sample.long_history in
   r = Normal tt /\ pushes w' = [] /\ store w' = store Sample.long_history)
  /\ (let (r, w') :=
        WebhookDirectAI.handleAIResponse 1 "U-alice"
          Sample.wide_blank_generation Sample.mixed_entries in
      r = Normal tt /\ pushes w' = [] /\ store w' = store Sample.mixed_entries).
Proof. vm_compute. repeat split. Qed.
Lemma member_found st f m rest p :
  firstn 1 (filter (fun m => Nat.eqb (FamilyMembers.family_id m) f)
                   (family_members st)) = m :: rest ->
  filter (fun q => Nat.eqb (Profiles.id q) (FamilyMembers.user_id m))
         (profiles st) = [p] ->
  Js.nonempty (Profiles.line_user_id p) = true ->
  member_line_id st f (Profiles.line_user_id p) (FamilyMembers.user_id m).
Proof.
  intros Hm Hp Hu.
  assert (Hin : In m (filter (fun m => Nat.eqb (FamilyMembers.family_id m) f)
                             (family_members st))).
  { destruct (filter _ (family_members st)) as [|x l]; [discriminate|].
    simpl in Hm. injection Hm as <- _. left; reflexivity. }
  apply filter_In in Hin. destruct Hin as [Hin Hf]. apply Nat.eqb_eq in Hf.
  assert (Hq : In p (filter (fun q => Nat.eqb (Profiles.id q)
                                               (FamilyMembers.user_id m))
                            (profiles st)))
    by (rewrite Hp; left; reflexivity).
  apply filter_In in Hq. destruct Hq as [Hq Hid]. apply Nat.eqb_eq in Hid.
  exists m, p. repeat split; auto.
  intros He. rewrite He in Hu. discriminate.
Qed.

(** X11.  The member lookup of the broadcast (both variants) is a pure read
    that never throws: it changes neither the store nor what was sent to
    OpenAI and LINE; what it returns is the non-empty platform user id of the
    profile of a member of that family (in the logging variant together with
    that profile's id); and it returns null for a family without members. *)
Theorem member_lookup_is_sound env w f :
  (forall r w',
      DailyTopic.getFamilyMemberLineUserId f env w = (r, w') ->
      store w' = store w /\ chats w' = chats w /\ pushes w' = pushes w
      /\ exists found,
          r = Normal found
          /\ (forall u, found = Some u ->
                        exists pid, member_line_id (store w) f u pid)
          /\ ((forall m, In m (family_members (store w)) ->
                         FamilyMembers.family_id m <> f) ->
              found = None))
  /\ (forall r w',
         DailyTopicLogged.getFamilyMemberInfo f env w = (r, w') ->
         store w' = store w /\ chats w' = chats w /\ pushes w' = pushes w
         /\ exists found,
             r = Normal found
             /\ (forall u pid, found = Some (u, pid) ->
                               member_line_id (store w) f u pid)
             /\ ((forall m, In m (family_members (store w)) ->
                            FamilyMembers.family_id m <> f) ->
                 found = None)).
Proof.
  assert (Hnobody : forall m rest,
             firstn 1 (filter (fun m => Nat.eqb (FamilyMembers.family_id m) f)
                              (family_members (store w))) = m :: rest ->
             (forall m, In m (family_members (store w)) ->
                        FamilyMembers.family_id m <> f) -> False).
  { intros m rest Hm Hno.
    destruct (filter _ (family_members (store w))) as [|x l] eqn:Hf;
      [discriminate|].
    assert (Hin : In x (filter (fun m => Nat.eqb (FamilyMembers.family_id m) f)
                               (family_members (store w))))
      by (rewrite Hf; left; reflexivity).
    apply filter_In in Hin. destruct Hin as [Hin Hx].
    apply Nat.eqb_eq in Hx. exact (Hno _ Hin Hx). }
  split; intros r w'.
  - unfold DailyTopic.getFamilyMemberLineUserId.
    run.
    all: finish;
      (split; [reflexivity | split; [reflexivity | split; [reflexivity|]]]).
    all: eexists; split; [reflexivity|]; split.
    all: try (intros u Hu; discriminate).
    all: try (intros _; reflexivity).
    all: try (intros Hno; exfalso; eapply Hnobody;
              [first [reflexivity | eassumption] | eassumption]).
    all: intros u Hu; injection Hu as <-; eexists;
      eapply member_found; try eassumption.
    all: match goal with H : Profiles.line_user_id _ = _ |- _ => rewrite H end;
      assumption.
  - unfold DailyTopicLogged.getFamilyMemberInfo.
    run.
    all: finish;
      (split; [reflexivity | split; [reflexivity | split; [reflexivity|]]]).
    all: eexists; split; [reflexivity|]; split.
    all: try (intros u pid Hu; discriminate).
    all: try (intros _; reflexivity).
    all: try (intros Hno; exfalso; eapply Hnobody;
              [first [reflexivity | eassumption] | eassumption]).
    all: intros u pid Hu; injection Hu as <- <-;
      eapply member_found; try eassumption.
    all: match goal with H : Profiles.line_user_id _ = _ |- _ => rewrite H end;
      assumption.
Qed.

Lemma member_line_id_ext st1 st2 f u pid :
  profiles st2 = profiles st1 ->
  family_members st2 = family_members st1 ->
  member_line_id st1 f u pid -> member_line_id st2 f u pid.
Proof.
  intros Hp Hm (m & p & H). exists m, p. rewrite Hp, Hm. exact H.
Qed.

Lemma broadcast_effect_refl fams w : broadcast_effect fams w w.
Proof.
  unfold broadcast_effect, pushed_within, authored_within, topics_within.
  repeat split; exists []; rewrite app_nil_r; split; auto.
Qed.

Lemma broadcast_effect_same fams w v :
  store v = store w -> pushes v = pushes w -> broadcast_effect fams w v.
Proof.
  intros Hs Hp.
  unfold broadcast_effect, pushed_within, authored_within, topics_within.
  rewrite Hs, Hp.
  repeat split; exists []; rewrite app_nil_r; split; auto.
Qed.

Lemma broadcast_effect_trans fams a b c :
  broadcast_effect fams a b -> broadcast_effect fams b c ->
  broadcast_effect fams a c.
Proof.
  unfold broadcast_effect, pushed_within, authored_within, topics_within.
  intros (P1 & F1 & M1 & (n1 & Hn1 & Fn1) & (a1 & Ha1 & Fa1) & (t1 & Ht1 & Ft1))
         (P2 & F2 & M2 & (n2 & Hn2 & Fn2) & (a2 & Ha2 & Fa2) & (t2 & Ht2 & Ft2)).
  repeat split; try congruence.
  - exists (n1 ++ n2); split; [rewrite Hn2, Hn1, app_assoc; reflexivity|].
    apply Forall_app; split; [exact Fn1|].
    eapply Forall_impl; [|exact Fn2].
    intros p (f & Hf & [Hg | (pid & Hm)]); exists f; split; auto.
    + left; exact Hg.
    + right; exists pid. eapply member_line_id_ext; [| |exact Hm]; congruence.
  - exists (a1 ++ a2); split; [rewrite Ha2, Ha1, app_assoc; reflexivity|].
    apply Forall_app; split; [exact Fa1|].
    eapply Forall_impl; [|exact Fa2].
    intros x (Hai & f & u & pid & Hf & Hfam & Hs & Hm).
    split; [exact Hai|]. exists f, u, pid. repeat split; auto.
    eapply member_line_id_ext; [| |exact Hm]; congruence.
  - exists (t1 ++ t2); split; [rewrite Ht2, Ht1, app_assoc; reflexivity|].
    apply Forall_app; split; assumption.
Qed.

(** A loop keeps what each of its iterations keeps, the items taken from
    the list it runs over. *)
Lemma for_of_preserves_in {A} (R : World -> World -> Prop) (body : A -> M unit)
    env xs :
  (forall w, R w w) ->
  (forall a b c, R a b -> R b c -> R a c) ->
  (forall x, In x xs -> forall w r w', body x env w = (r, w') -> R w w') ->
  forall w r w', for_of xs body env w = (r, w') -> R w w'.
Proof.
  intros Hrefl Htrans. induction xs as [|x rest IH]; intros Hbody w r w' H.
  - apply pair_equal_spec in H; destruct H as [_ <-]. apply Hrefl.
  - cbn [for_of] in H. destruct (body x env w) as [r1 w1] eqn:Hx.
    apply (Hbody x (or_introl eq_refl)) in Hx.
    assert (Hrest : forall v r' v', for_of rest body env v = (r', v') -> R v v').
    { apply IH. intros y Hy. apply Hbody. right; exact Hy. }
    destruct r1.
    + eapply Htrans; [exact Hx | eapply Hrest; exact H].
    + apply pair_equal_spec in H; destruct H as [_ <-]. exact Hx.
    + eapply Htrans; [exact Hx | eapply Hrest; exact H].
Qed.

Ltac member_evidence :=
  first
    [ eapply member_found; eassumption
    | match goal with
      | Hl : Profiles.line_user_id ?p = ?s |- member_line_id _ _ ?s _ =>
          rewrite <- Hl; eapply member_found;
          [ eassumption | eassumption
          | rewrite Hl; first [assumption | reflexivity] ]
      end ].

Ltac recipient family :=
  exists family; split; [assumption|];
  first [ left; eassumption | right; eexists; member_evidence ].

Ltac grown tac :=
  first
    [ exists []; rewrite app_nil_r; split; [reflexivity | constructor]
    | rewrite <- ?app_assoc; cbn [app]; eexists; split; [reflexivity|];
      repeat (constructor; [tac|]); constructor ].

Lemma DailyTopic_iteration_effect fams season tod family env w r w' :
  In family fams ->
  DailyTopic.handleFamily season tod family env w = (r, w') ->
  broadcast_effect fams w w' /\ conversations (store w') = conversations (store w).
Proof.
  intros Hin.
  unfold DailyTopic.handleFamily, DailyTopic.deliver,
    DailyTopic.getFamilyMemberLineUserId.
  run.
  all: finish; (split; [|reflexivity]).
  all: unfold broadcast_effect, pushed_within, authored_within, topics_within;
    project.
  all: split; [reflexivity | split; [reflexivity | split; [reflexivity|]]].
  all: split; [|split].
  all: try solve [grown ltac:(recipient family)].
  all: try solve [grown ltac:(exists family; split; [assumption | reflexivity])].
  all: try solve [grown idtac].
Qed.

Ltac authored family :=
  split; [reflexivity|];
  exists family; eexists; eexists;
  split; [assumption | split; [reflexivity | split; [reflexivity|]]];
  member_evidence.

Lemma DailyTopicLogged_iteration_effect fams season tod family env w r w' :
  In family fams ->
  DailyTopicLogged.handleFamily season tod family env w = (r, w') ->
  broadcast_effect fams w w'.
Proof.
  intros Hin.
  unfold DailyTopicLogged.handleFamily, DailyTopicLogged.deliver,
    DailyTopicLogged.getFamilyMemberInfo.
  run.
  all: finish.
  all: unfold broadcast_effect, pushed_within, authored_within, topics_within;
    project.
  all: split; [reflexivity | split; [reflexivity | split; [reflexivity|]]].
  all: split; [|split].
  all: try solve [grown ltac:(recipient family)].
  all: try solve [grown ltac:(authored family)].
  all: try solve [grown ltac:(exists family; split; [assumption | reflexivity])].
Qed.

Lemma DailyTopic_GET_effect env w r w' :
  DailyTopic.GET env w = (r, w') ->
  broadcast_effect (families (store w)) w w'
  /\ conversations (store w') = conversations (store w).
Proof.
  assert (Hhere : forall v, store v = store w -> pushes v = pushes w ->
            broadcast_effect (families (store w)) w v
            /\ conversations (store v) = conversations (store w)).
  { intros v Hs Hp. split; [|rewrite Hs; reflexivity].
    apply broadcast_effect_same; assumption. }
  unfold DailyTopic.GET.
  run_delta.
  destruct (store_fault env (store_requests w)) as [msg|].
  { run_delta. intros H; finish. apply Hhere; reflexivity. }
  destruct (families (store w)) as [|f fs] eqn:Hfams.
  { run_delta. intros H; finish. apply Hhere; reflexivity. }
  run_delta.
  destruct (for_of (f :: fs) _ env _) as [r1 w1] eqn:Hloop.
  apply (for_of_preserves_in
           (fun a b => broadcast_effect (f :: fs) a b
                       /\ conversations (store b) = conversations (store a)))
    in Hloop.
  - destruct Hloop as [Heff Hconv].
    assert (Hstart : broadcast_effect (f :: fs) w
                       (set_counters 0 0 (set_store (store w) (sent_request w))))
      by (apply broadcast_effect_same; reflexivity).
    destruct r1; intros H; finish; (split; [|exact Hconv]).
    all: eapply broadcast_effect_trans; [exact Hstart|].
    all: eapply broadcast_effect_trans; [exact Heff|].
    all: apply broadcast_effect_same; reflexivity.
  - intros v; split; [apply broadcast_effect_refl | reflexivity].
  - intros a b c [H1 C1] [H2 C2].
    split; [eapply broadcast_effect_trans; eauto | congruence].
  - intros x Hx v r0 v' Hv.
    eapply DailyTopic_iteration_effect; eauto.
Qed.

Lemma DailyTopicLogged_GET_effect env w r w' :
  DailyTopicLogged.GET env w = (r, w') ->
  broadcast_effect (families (store w)) w w'.
Proof.
  assert (Hhere : forall v, store v = store w -> pushes v = pushes w ->
            broadcast_effect (families (store w)) w v).
  { intros v Hs Hp. apply broadcast_effect_same; assumption. }
  unfold DailyTopicLogged.GET.
  run_delta.
  destruct (store_fault env (store_requests w)) as [msg|].
  { run_delta. intros H; finish. apply Hhere; reflexivity. }
  destruct (families (store w)) as [|f fs] eqn:Hfams.
  { run_delta. intros H; finish. apply Hhere; reflexivity. }
  run_delta.
  destruct (for_of (f :: fs) _ env _) as [r1 w1] eqn:Hloop.
  apply (for_of_preserves_in (broadcast_effect (f :: fs))) in Hloop.
  - assert (Hstart : broadcast_effect (f :: fs) w
                       (set_counters 0 0 (set_store (store w) (sent_request w))))
      by (apply broadcast_effect_same; reflexivity).
    destruct r1; intros H; finish.
    all: eapply broadcast_effect_trans; [exact Hstart|].
    all: eapply broadcast_effect_trans; [exact Hloop|].
    all: apply broadcast_effect_same; reflexivity.
  - apply broadcast_effect_refl.
  - apply broadcast_effect_trans.
  - intros x Hx v r0 v' Hv.
    eapply DailyTopicLogged_iteration_effect; eauto.
Qed.

(** X12.  The scheduled broadcast (both variants) stays within the families
    of the store: whatever the collaborators answer, it changes no profile,
    family or membership; every message it pushes goes to the group of one
    of these families or to the non-empty platform user id of one of its
    members; and every topic row it records belongs to one of them. *)
Theorem broadcast_stays_within_the_families GET env w r w' :
  GET = DailyTopic.GET \/ GET = DailyTopicLogged.GET ->
  GET env w = (r, w') ->
  profiles (store w') = profiles (store w)
  /\ families (store w') = families (store w)
  /\ family_members (store w') = family_members (store w)
  /\ (exists new,
         pushes w' = pushes w ++ new
         /\ Forall (fun p => exists f,
                       In f (families (store w))
                       /\ in_family (store w) f (push_to p)) new)
  /\ (exists topics,
         daily_topics (store w') = daily_topics (store w) ++ topics
         /\ Forall (fun t => exists f,
                       In f (families (store w))
                       /\ DailyTopics.family_id t = Some (Families.id f))
                   topics).
Proof.
  intros Hwhich Hrun.
  assert (Heffect : broadcast_effect (families (store w)) w w').
  { destruct Hwhich as [-> | ->].
    - apply DailyTopic_GET_effect in Hrun. exact (proj1 Hrun).
    - apply DailyTopicLogged_GET_effect in Hrun. exact Hrun. }
  destruct Heffect as (P & F & M & Hpushes & _ & Htopics).
  repeat split; assumption.
Qed.

Lemma broadcast_stays_within_the_families_witness :
  exists r w',
    DailyTopicLogged.GET Sample.second_generation_fails Sample.three_families
    = (r, w')
    /\ exists new,
        pushes w' = pushes Sample.three_families ++ new
        /\ Forall (fun p => exists f,
                      In f (families (store Sample.three_families))
                      /\ in_family (store Sample.three_families) f (push_to p))
                  new.
Proof.
  eexists; eexists; split; [vm_compute; reflexivity|].
  destruct (broadcast_stays_within_the_families DailyTopicLogged.GET
              Sample.second_generation_fails Sample.three_families _ _
              (or_intror eq_refl) ltac:(vm_compute; reflexivity))
    as (_ & _ & _ & Hpushes & _).
  exact Hpushes.
Defined.

(** X13.  Only the logging variant of the broadcast writes conversation
    entries: [route.ts] leaves the conversation log as it is, whatever
    happens; the entries the logging variant appends are all AI-generated,
    linked to a family of the store and attributed to a member of that
    family whose platform user id is not empty. *)
Theorem only_the_logging_broadcast_writes_entries env w :
  (forall r w',
      DailyTopic.GET env w = (r, w') ->
      conversations (store w') = conversations (store w))
  /\ (forall r w',
         DailyTopicLogged.GET env w = (r, w') ->
         exists added,
           conversations (store w') = conversations (store w) ++ added
           /\ Forall (fun c =>
                        Conversations.is_ai_generated c = true
                        /\ exists f u pid,
                            In f (families (store w))
                            /\ Conversations.family_id c
                               = Some (Families.id f)
                            /\ Conversations.sender_id c = Some pid
                            /\ member_line_id (store w) (Families.id f) u pid)
                     added).
Proof.
  split; intros r w' Hrun.
  - apply DailyTopic_GET_effect in Hrun. exact (proj2 Hrun).
  - apply DailyTopicLogged_GET_effect in Hrun.
    destruct Hrun as (_ & _ & _ & _ & Hadded & _). exact Hadded.
Qed.

Lemma only_the_logging_broadcast_writes_entries_witness :
  exists r w',
    DailyTopic.GET Sample.all_goes_well Sample.three_families = (r, w')
    /\ conversations (store w') = conversations (store Sample.three_families).
Proof.
  eexists; eexists; split; [vm_compute; reflexivity|].
  exact (proj1 (only_the_logging_broadcast_writes_entries
                  Sample.all_goes_well Sample.three_families)
           _ _ ltac:(vm_compute; reflexivity)).
Defined.

(** X14.  The broadcast without families (both variants): when the fetch of
    the families fails, the answer is 500 with the store's message as
    details; when there are no families, it is 200 with the nothing-to-do
    body; in both cases nothing is generated, nothing is pushed and the store
    is left as it is. *)
Theorem broadcast_without_families env w :
  (forall msg,
      store_fault env (store_requests w) = Some msg ->
      forall GET, GET = DailyTopic.GET \/ GET = DailyTopicLogged.GET ->
      exists w',
        GET env w
        = (Normal (mkBroadcast 500 (ErrorBody "Failed to fetch families" msg)),
           w')
        /\ store w' = store w /\ chats w' = chats w /\ pushes w' = pushes w)
  /\ (store_fault env (store_requests w) = None ->
      families (store w) = [] ->
      forall GET, GET = DailyTopic.GET \/ GET = DailyTopicLogged.GET ->
      exists w',
        GET env w = (Normal (mkBroadcast 200 NothingToDo), w')
        /\ store w' = store w /\ chats w' = chats w /\ pushes w' = pushes w).
Proof.
  split.
  - intros msg Hfault GET [-> | ->].
    + unfold DailyTopic.GET. run_delta. rewrite Hfault. run_delta.
      eexists; repeat split.
    + unfold DailyTopicLogged.GET. run_delta. rewrite Hfault. run_delta.
      eexists; repeat split.
  - intros Hfault Hnone GET [-> | ->].
    + unfold DailyTopic.GET. run_delta. rewrite Hfault, Hnone. run_delta.
      eexists; repeat split.
    + unfold DailyTopicLogged.GET. run_delta. rewrite Hfault, Hnone. run_delta.
      eexists; repeat split.
Qed.

Lemma broadcast_without_families_witness :
  exists w',
    DailyTopic.GET Sample.all_goes_well Sample.nobody_yet
    = (Normal (mkBroadcast 200 NothingToDo), w')
    /\ store w' = store Sample.nobody_yet
    /\ chats w' = chats Sample.nobody_yet
    /\ pushes w' = pushes Sample.nobody_yet.
Proof.
  exact (proj2 (broadcast_without_families Sample.all_goes_well
                  Sample.nobody_yet)
           eq_refl eq_refl DailyTopic.GET (or_introl eq_refl)).
Defined.

Lemma member_lookup_is_sound_witness :
  exists w',
    DailyTopicLogged.getFamilyMemberInfo 11 Sample.all_goes_well
      Sample.one_family = (Normal (Some ("U-alice", 1)), w')
    /\ member_line_id (store Sample.one_family) 11 "U-alice" 1.
Proof.
  eexists; split; [vm_compute; reflexivity|].
  destruct (proj2 (member_lookup_is_sound Sample.all_goes_well
                     Sample.one_family 11)
              _ _ ltac:(vm_compute; reflexivity))
    as (_ & _ & _ & found & Hfound & Hsound & _).
  apply (Hsound "U-alice" 1).
  injection Hfound as <-. reflexivity.
Defined.
Lemma first_of_map_filter {A B} (g : A -> B) (P : A -> bool) l y rest :
  firstn 1 (map g (filter P l)) = y :: rest ->
  exists x, In x l /\ P x = true /\ y = g x.
Proof.
  destruct (filter P l) as [|x xs] eqn:Hf; [discriminate|].
  simpl. intros H. injection H as <- _.
  assert (Hin : In x (filter P l)) by (rewrite Hf; left; reflexivity).
  apply filter_In in Hin. destruct Hin. exists x; auto.
Qed.

(** A membership that the inner join keeps has its family in the store, and
    that family comes embedded as an object. *)
Lemma joined_member_embedded st p m :
  Gacha.joined_member st p m = true ->
  FamilyMembers.user_id m = p
  /\ exists f, In f (families st)
               /\ Families.id f = FamilyMembers.family_id m
               /\ Gacha.embedded_family st m = Some (Gacha.EmbeddedObject f).
Proof.
  unfold Gacha.joined_member, Gacha.embedded_family. intros H.
  apply andb_prop in H. destruct H as [Hu Hf]. apply Nat.eqb_eq in Hu.
  split; [exact Hu|].
  destruct (Gacha.joined_families st m) as [|f fs] eqn:Hj; [discriminate|].
  assert (Hin : In f (Gacha.joined_families st m))
    by (rewrite Hj; left; reflexivity).
  apply filter_In in Hin. destruct Hin as [Hin Hid]. apply Nat.eqb_eq in Hid.
  exists f. auto.
Qed.

Lemma getUserFamilyInfo_sound env w u r w' :
  Gacha.getUserFamilyInfo u env w = (r, w') ->
  store w' = store w /\ chats w' = chats w /\ pushes w' = pushes w
  /\ exists found,
      r = Normal found
      /\ (forall info, found = Some info -> info_in_store (store w) u info)
      /\ (filter (Supabase.has_line_user_id u) (profiles (store w)) = [] ->
          found = None)
      /\ ((forall m p, In m (family_members (store w)) ->
                       In p (profiles (store w)) ->
                       Profiles.line_user_id p = u ->
                       FamilyMembers.user_id m <> Profiles.id p) ->
          found = None).
Proof.
  unfold Gacha.getUserFamilyInfo, Gacha.first_membership.
  run.
  all: finish;
    (split; [reflexivity | split; [reflexivity | split; [reflexivity|]]]).
  all: eexists; split; [reflexivity|]; split; [|split].
  all: try (intros info Hinfo; discriminate).
  all: try (intros _; reflexivity).
  all: try (intros Hnone; congruence).
  all: try match goal with
         | Hp : filter (Supabase.has_line_user_id _) _ = [?p],
           Hm : firstn 1 (map _ (filter _ _)) = _ :: _ |- _ =>
             let x := fresh "x" in
             let Hin := fresh "Hin" in
             let Hx := fresh "Hx" in
             let Hy := fresh "Hy" in
             let f := fresh "f" in
             let Hf := fresh "Hf" in
             let Hid := fresh "Hid" in
             let He := fresh "He" in
             apply first_of_map_filter in Hm;
             destruct Hm as (x & Hin & Hx & Hy);
             apply joined_member_embedded in Hx;
             destruct Hx as [Hx (f & Hf & Hid & He)];
             apply pair_equal_spec in Hy; destruct Hy as [-> Hy];
             rewrite He in Hy;
             assert (Hpin : In p (filter (Supabase.has_line_user_id u)
                                         (profiles (store w))))
               by (rewrite Hp; left; reflexivity);
             apply filter_In in Hpin; destruct Hpin as [Hpin Hpu];
             apply String.eqb_eq in Hpu
         end.
  all: try (intros Hno; exfalso; eapply Hno; eassumption).
  all: intros info Hinfo; injection Hinfo as <-; subst o.
  all: unfold info_in_store;
    cbn [Gacha.lineUserId Gacha.profileId Gacha.familyId Gacha.lineGroupId
         Gacha.lineGroupId_of].
  all: split; [reflexivity|]; split; [eexists; repeat split; eassumption|].
  all: split; [destruct x as [xf xu]; cbn in *; subst; assumption|].
  all: split; [exists f; split; assumption | reflexivity].
Qed.

(** X15.  The lookup of the on-demand broadcast is a pure read that never
    throws: it changes neither the store nor what was sent to OpenAI and LINE;
    what it returns is in the store (the profile of that platform user, a
    membership of that profile, and the family of that membership); the group
    id it returns is always null, whatever group the family has, because the
    family comes embedded as an object and the handler reads the group id of
    an array only; and it returns null when the platform user has no profile
    or the profile has no membership. *)
Theorem user_family_lookup_is_sound env w u r w' :
  Gacha.getUserFamilyInfo u env w = (r, w') ->
  store w' = store w /\ chats w' = chats w /\ pushes w' = pushes w
  /\ exists found,
      r = Normal found
      /\ (forall info,
             found = Some info ->
             Gacha.lineUserId info = u
             /\ (exists p, In p (profiles (store w))
                           /\ Profiles.id p = Gacha.profileId info
                           /\ Profiles.line_user_id p = u)
             /\ In (FamilyMembers.mk (Gacha.familyId info)
                                     (Gacha.profileId info))
                   (family_members (store w))
             /\ (exists f, In f (families (store w))
                           /\ Families.id f = Gacha.familyId info)
             /\ Gacha.lineGroupId info = None)
      /\ (filter (Supabase.has_line_user_id u) (profiles (store w)) = [] ->
          found = None)
      /\ ((forall m p, In m (family_members (store w)) ->
                       In p (profiles (store w)) ->
                       Profiles.line_user_id p = u ->
                       FamilyMembers.user_id m <> Profiles.id p) ->
          found = None).
Proof.
  apply getUserFamilyInfo_sound.
Qed.

Lemma user_family_lookup_is_sound_witness :
  exists w',
    Gacha.getUserFamilyInfo "U-alice" Sample.all_goes_well Sample.one_family
    = (Normal (Some (Gacha.mkInfo 1 11 "U-alice" None)), w')
    /\ In Sample.family_a (families (store Sample.one_family))
    /\ Families.line_group_id Sample.family_a = Some "G-a"
    /\ info_in_store (store Sample.one_family) "U-alice"
         (Gacha.mkInfo 1 11 "U-alice" None).
Proof.
  eexists; split; [vm_compute; reflexivity|].
  split; [left; reflexivity|]. split; [reflexivity|].
  destruct (user_family_lookup_is_sound Sample.all_goes_well
              Sample.one_family "U-alice" _ _ ltac:(vm_compute; reflexivity))
    as (_ & _ & _ & found & Hfound & Hsound & _).
  apply Hsound. injection Hfound as <-. reflexivity.
Defined.

(** The handler reads the first family of an array; of an object it reads
    nothing. *)
Lemma lineGroupId_of_shapes f fs :
  Gacha.lineGroupId_of (Some (Gacha.EmbeddedArray (f :: fs)))
  = Families.line_group_id f
  /\ Gacha.lineGroupId_of (Some (Gacha.EmbeddedObject f)) = None
  /\ Gacha.lineGroupId_of (Some (Gacha.EmbeddedArray [])) = None
  /\ Gacha.lineGroupId_of None = None.
Proof. repeat split. Qed.

(** X16.  The on-demand broadcast rejects unknown users before anything is
    generated: without a user id in the body (missing or empty) the answer is
    400 and the world is untouched; for a platform user without a profile, or
    whose profile has no membership, the answer is 404 and nothing is
    generated, pushed or written. *)
Theorem gacha_rejects_unknown_users env w :
  (forall lineUserId,
      Js.truthy lineUserId = false ->
      Gacha.POST (Gacha.mkRequest (Some lineUserId)) env w
      = (Normal (Gacha.mkReply 400 (Gacha.ErrorBody "User ID is required")), w))
  /\ (forall u r w',
         Gacha.POST (Gacha.mkRequest (Some (Some u))) env w = (r, w') ->
         filter (Supabase.has_line_user_id u) (profiles (store w)) = []
         \/ (forall m p, In m (family_members (store w)) ->
                         In p (profiles (store w)) ->
                         Profiles.line_user_id p = u ->
                         FamilyMembers.user_id m <> Profiles.id p) ->
         Js.truthy (Some u) = true ->
         r = Normal (Gacha.mkReply 404 (Gacha.ErrorBody "Family not found"))
         /\ store w' = store w /\ chats w' = chats w /\ pushes w' = pushes w).
Proof.
  split.
  - intros [[|c u]|] Hfalsy; try discriminate; reflexivity.
  - intros u r w' Hrun Hunknown Htruthy.
    destruct u as [|c u]; [discriminate|].
    unfold Gacha.POST, Gacha.read_lineUserId in Hrun. cbn [Gacha.json] in Hrun.
    revert Hrun. run_delta.
    destruct (Gacha.getUserFamilyInfo (String c u) env w) as [r1 w1] eqn:Hinfo.
    apply getUserFamilyInfo_sound in Hinfo.
    destruct Hinfo as (Hs & Hc & Hp & found & -> & _ & Hnoprofile & Hnomember).
    assert (Hfound : found = None) by (destruct Hunknown; auto).
    subst found. run_delta. intros H; finish. repeat split; auto.
Qed.

(** X17.  For a request that carries a user id, the on-demand broadcast
    never throws, and records only what it delivered: a run that does not
    answer 200 leaves the store as it is and delivers nothing; a run that
    answers 200 found the user's membership in the store, delivered exactly
    one push, of the announcement of the non-empty topic, to the user (never
    to the group of the family: the embedded family is an object, of which
    the handler reads no group id), and wrote at most the two rows of that
    topic: the AI-generated conversation entry and the topic row, both of
    that family and that profile, each of them kept or dropped on its own
    when its insert fails. *)
Theorem gacha_delivers_before_it_records env w u r w' :
  Gacha.POST (Gacha.mkRequest (Some (Some u))) env w = (r, w') ->
  exists reply,
    r = Normal reply
    /\ ((Gacha.status reply <> 200
         /\ store w' = store w /\ delivered w' = delivered w)
        \/ (exists info topic,
               reply = Gacha.mkReply 200 (Gacha.TopicBody topic)
               /\ topic <> ""
               /\ info_in_store (store w) u info
               /\ pushes w'
                  = pushes w ++ [mkPush u (Gacha.announcement topic) true]
               /\ (conversations (store w') = conversations (store w)
                   \/ conversations (store w')
                      = conversations (store w)
                          ++ [Conversations.mk (Some (Gacha.profileId info))
                                (Some (Gacha.familyId info))
                                ("話題ガチャ: " ++ topic) true])
               /\ (daily_topics (store w') = daily_topics (store w)
                   \/ daily_topics (store w')
                      = daily_topics (store w)
                          ++ [DailyTopics.mk (Some (Gacha.familyId info)) topic
                                (Some (Gacha.profileId info))]))).
Proof.
  unfold Gacha.POST, Gacha.read_lineUserId. cbn [Gacha.json]. run_delta.
  destruct u as [|c u].
  { run_delta. intros H; finish. eexists; split; [reflexivity|].
    left; repeat split; discriminate. }
  destruct (Gacha.getUserFamilyInfo (String c u) env w) as [r1 w1] eqn:Hinfo.
  apply getUserFamilyInfo_sound in Hinfo.
  destruct Hinfo as (Hs & Hc & Hp & found & -> & Hsound & _).
  destruct found as [info|].
  2: { run_delta. intros H; finish. eexists; split; [reflexivity|].
       left; repeat split; auto; try discriminate.
       unfold delivered; rewrite Hp; reflexivity. }
  specialize (Hsound info eq_refl).
  assert (Hu : Gacha.lineUserId info = String c u) by (destruct Hsound; auto).
  assert (Hg : Gacha.lineGroupId info = None)
    by (destruct Hsound as (_ & _ & _ & _ & Hg); exact Hg).
  rewrite Hg, Hu. cbn [js_or_string].
  run.
  all: finish; eexists; (split; [reflexivity|]).
  all: try (left; split; [discriminate|]; observe; rewrite ?Hs, ?Hp; split;
            [reflexivity | lia]).
  all: right; exists info; eexists; split; [reflexivity|].
  all: split; [discriminate|]; split; [exact Hsound|].
  all: project; rewrite ?Hs, ?Hp, ?Hu.
  all: split; [reflexivity|]; split; auto.
Qed.

Lemma gacha_rejects_unknown_users_witness :
  exists w',
    Gacha.POST (Gacha.mkRequest (Some (Some "U-dave"))) Sample.all_goes_well
      Sample.one_family
    = (Normal (Gacha.mkReply 404 (Gacha.ErrorBody "Family not found")), w')
    /\ store w' = store Sample.one_family
    /\ chats w' = chats Sample.one_family
    /\ pushes w' = pushes Sample.one_family.
Proof.
  eexists; split; [vm_compute; reflexivity|].
  destruct (proj2 (gacha_rejects_unknown_users Sample.all_goes_well
                     Sample.one_family)
              "U-dave" _ _ ltac:(vm_compute; reflexivity)
              (or_introl eq_refl) eq_refl)
    as (_ & Hstore & Hchats & Hpushes).
  split; [exact Hstore | split; [exact Hchats | exact Hpushes]].
Defined.

Lemma gacha_delivers_before_it_records_witness :
  exists r w',
    Gacha.POST (Gacha.mkRequest (Some (Some "U-alice"))) Sample.all_goes_well
      Sample.one_family = (r, w')
    /\ r = Normal (Gacha.mkReply 200 (Gacha.TopicBody "今日の晩ごはんは？"))
    /\ pushes w'
       = [mkPush "U-alice" (Gacha.announcement "今日の晩ごはんは？") true]
    /\ exists reply, r = Normal reply.
Proof.
  eexists; eexists; split; [vm_compute; reflexivity|].
  split; [reflexivity|]. split; [vm_compute; reflexivity|].
  destruct (gacha_delivers_before_it_records Sample.all_goes_well
              Sample.one_family "U-alice" _ _ ltac:(vm_compute; reflexivity))
    as (reply & Hreply & _).
  exists reply. exact Hreply.
Defined.

Lemma newest_is_last {A} (l : list A) x rest :
  firstn 1 (rev l) = x :: rest -> exists older, l = older ++ [x].
Proof.
  destruct (rev l) as [|y ys] eqn:Hrev; [discriminate|].
  simpl. intros H. injection H as <- _.
  exists (rev ys). rewrite <- (rev_involutive l), Hrev. reflexivity.
Qed.

(** X18.  The single-user broadcast never throws, touches neither the
    identity tables nor the conversation log, and records the topic only
    after the delivery: a run that does not answer 200 writes no topic row
    and delivers nothing; a run that answers 200 pushed the non-empty topic
    to the newest profile (the last one created) and wrote at most its topic
    row, without a family; with no profile at all the answer is 404 and
    nothing is generated. *)
Theorem single_topic_delivers_before_it_records env w r w' :
  SingleTopic.GET env w = (r, w') ->
  exists reply,
    r = Normal reply
    /\ profiles (store w') = profiles (store w)
    /\ families (store w') = families (store w)
    /\ family_members (store w') = family_members (store w)
    /\ conversations (store w') = conversations (store w)
    /\ ((SingleTopic.status reply <> 200
         /\ daily_topics (store w') = daily_topics (store w)
         /\ delivered w' = delivered w)
        \/ (exists older p topic,
               profiles (store w) = older ++ [p]
               /\ topic <> ""
               /\ reply = SingleTopic.mkReply 200
                            (SingleTopic.SentBody topic (Profiles.id p)
                               (Profiles.line_user_id p))
               /\ pushes w'
                  = pushes w ++ [mkPush (Profiles.line_user_id p) topic true]
               /\ (daily_topics (store w') = daily_topics (store w)
                   \/ daily_topics (store w')
                      = daily_topics (store w)
                          ++ [DailyTopics.mk None topic
                                             (Some (Profiles.id p))])))
    /\ (store_fault env (store_requests w) = None ->
        profiles (store w) = [] ->
        SingleTopic.status reply = 404 /\ chats w' = chats w).
Proof.
  unfold SingleTopic.GET, SingleTopic.send, SingleTopic.newest_profile.
  run.
  all: finish; eexists; (split; [reflexivity|]).
  all: do 4 (split; [reflexivity|]).
  all: split;
    [| intros Hok Hempty; try congruence;
       try (match goal with H : firstn 1 (rev _) = _ :: _ |- _ =>
              rewrite Hempty in H; discriminate end);
       split; reflexivity ].
  all: try (left; split; [discriminate|]; observe; split; [reflexivity | lia]).
  all: right.
  all: match goal with
       | H : firstn 1 (rev _) = ?p :: _ |- _ =>
           apply newest_is_last in H; destruct H as [older Holder];
           exists older, p
       end.
  all: eexists; split; [exact Holder|];
    refine (conj _ (conj eq_refl _));
    [ discriminate | project; split; [reflexivity|]; auto ].
Qed.

Lemma single_topic_delivers_before_it_records_witness :
  exists r w',
    SingleTopic.GET Sample.all_goes_well Sample.three_families = (r, w')
    /\ r = Normal (SingleTopic.mkReply 200
                     (SingleTopic.SentBody "今日の晩ごはんは？" 3 "U-carol"))
    /\ conversations (store w') = conversations (store Sample.three_families).
Proof.
  eexists; eexists; split; [vm_compute; reflexivity|].
  split; [reflexivity|].
  destruct (single_topic_delivers_before_it_records Sample.all_goes_well
              Sample.three_families _ _ ltac:(vm_compute; reflexivity))
    as (reply & _ & _ & _ & _ & Hconversations & _).
  exact Hconversations.
Defined.

(* ------------------------------------------------------------------ *)
(** ** The history page: grouping by date *)

Section GroupingFacts.

Variable dateKey : string -> string.

Lemma dates_of_snoc convs c :
  dates_of dateKey (convs ++ [c])
  = if in_dec string_dec (dateKey (Page.sent_at c)) (dates_of dateKey convs)
    then dates_of dateKey convs
    else dates_of dateKey convs ++ [dateKey (Page.sent_at c)].
Proof.
  unfold dates_of. rewrite map_app, rev_app_distr. cbn [map rev app nodup].
  destruct (in_dec string_dec (dateKey (Page.sent_at c))
              (rev (map (fun c0 => dateKey (Page.sent_at c0)) convs)))
    as [Hin | Hout];
    destruct (in_dec string_dec (dateKey (Page.sent_at c)) _)
      as [Hin' | Hout']; try reflexivity.
  - exfalso. apply Hout'. rewrite <- in_rev. apply nodup_In. exact Hin.
  - exfalso. apply Hout. rewrite <- in_rev in Hin'.
    apply nodup_In in Hin'. exact Hin'.
Qed.

Lemma dates_of_NoDup convs : NoDup (dates_of dateKey convs).
Proof.
  unfold dates_of. apply NoDup_rev. apply NoDup_nodup.
Qed.

Lemma dates_of_In convs k :
  In k (dates_of dateKey convs)
  <-> exists c, In c convs /\ dateKey (Page.sent_at c) = k.
Proof.
  unfold dates_of. rewrite <- in_rev, nodup_In, <- in_rev, in_map_iff.
  split; intros (c & H1 & H2); exists c; auto.
Qed.

Lemma dated_snoc k convs c :
  dated dateKey k (convs ++ [c])
  = if String.eqb (dateKey (Page.sent_at c)) k
    then dated dateKey k convs ++ [c]
    else dated dateKey k convs.
Proof.
  unfold dated. rewrite filter_app. cbn [filter].
  destruct (String.eqb (dateKey (Page.sent_at c)) k);
    [reflexivity | apply app_nil_r].
Qed.

Lemma dated_nil k convs :
  ~ In k (dates_of dateKey convs) -> dated dateKey k convs = [].
Proof.
  intros Hout. unfold dated.
  induction convs as [|c rest IH]; [reflexivity|].
  cbn [filter].
  destruct (String.eqb (dateKey (Page.sent_at c)) k) eqn:Hk.
  - exfalso. apply Hout. apply dates_of_In. exists c; split; [left; reflexivity|].
    apply String.eqb_eq; exact Hk.
  - apply IH. intros Hin. apply Hout. apply dates_of_In.
    apply dates_of_In in Hin. destruct Hin as (c' & H1 & H2).
    exists c'; split; [right; exact H1 | exact H2].
Qed.

(** Pushing under a key that is there extends the list of that key. *)
Lemma push_known k c convs ks :
  NoDup ks -> In k ks ->
  Page.push k c (map (fun k' => (k', dated dateKey k' convs)) ks)
  = map (fun k' => (k', if String.eqb k k'
                        then dated dateKey k' convs ++ [c]
                        else dated dateKey k' convs)) ks.
Proof.
  induction ks as [|k0 rest IH]; intros Hnd Hin; [destruct Hin|].
  cbn [map Page.push].
  inversion Hnd as [|? ? Hnotin Hnd']; subst.
  destruct (String.eqb k0 k) eqn:Hk.
  - apply String.eqb_eq in Hk; subst k0. rewrite String.eqb_refl.
    f_equal. apply map_ext_in. intros k' Hk'.
    destruct (String.eqb k k') eqn:Hkk; [|reflexivity].
    apply String.eqb_eq in Hkk; subst; contradiction.
  - rewrite String.eqb_sym, Hk. f_equal.
    apply IH; [exact Hnd'|].
    destruct Hin as [-> | Hin]; [|exact Hin].
    rewrite String.eqb_refl in Hk; discriminate.
Qed.

(** Pushing under a new key adds the key at the end. *)
Lemma push_new k c (groups : list (string * list Page.Conversation)) :
  ~ In k (map fst groups) ->
  Page.push k c groups = groups ++ [(k, [c])].
Proof.
  induction groups as [|[k0 cs] rest IH]; intros Hout; [reflexivity|].
  cbn [Page.push app].
  destruct (String.eqb k0 k) eqn:Hk.
  - exfalso. apply Hout. left. apply String.eqb_eq; exact Hk.
  - f_equal. apply IH. intros Hin. apply Hout. right; exact Hin.
Qed.

(** The object [groups] after the [forEach]. *)
Lemma groups_spec convs :
  fold_left (fun groups conv =>
               Page.push (dateKey (Page.sent_at conv)) conv groups)
            convs []
  = map (fun k => (k, dated dateKey k convs)) (dates_of dateKey convs).
Proof.
  induction convs as [|c convs IH] using rev_ind; [reflexivity|].
  rewrite fold_left_app. cbn [fold_left]. rewrite IH.
  rewrite dates_of_snoc.
  destruct (in_dec string_dec (dateKey (Page.sent_at c))
              (dates_of dateKey convs)) as [Hin | Hout].
  - rewrite push_known by (auto using dates_of_NoDup).
    apply map_ext. intros k. rewrite dated_snoc. reflexivity.
  - rewrite push_new.
    + rewrite map_app. cbn [map]. f_equal.
      * apply map_ext_in. intros k Hk. rewrite dated_snoc.
        destruct (String.eqb (dateKey (Page.sent_at c)) k) eqn:Hck;
          [|reflexivity].
        apply String.eqb_eq in Hck; subst; contradiction.
      * rewrite dated_snoc, String.eqb_refl, (dated_nil _ _ Hout). reflexivity.
    + rewrite map_map. cbn [fst]. rewrite map_id. exact Hout.
Qed.

Lemma groupConversationsByDate_spec convs :
  Page.groupConversationsByDate dateKey convs
  = map (fun k => Page.mkGroup k (dated dateKey k convs))
        (dates_of dateKey convs).
Proof.
  unfold Page.groupConversationsByDate.
  rewrite groups_spec, map_map. reflexivity.
Qed.

(** X19.  The history page groups the conversations by their date: the
    groups are the dates that occur, each exactly once, in the order in
    which they first occur; the group of a date holds exactly the
    conversations of that date, in the order they came; and no group is
    empty. *)
Theorem grouping_is_by_date convs :
  Page.groupConversationsByDate dateKey convs
  = map (fun k => Page.mkGroup k (dated dateKey k convs))
        (dates_of dateKey convs)
  /\ NoDup (map Page.date (Page.groupConversationsByDate dateKey convs))
  /\ Forall (fun g => Page.conversations g <> [])
            (Page.groupConversationsByDate dateKey convs).
Proof.
  split; [apply groupConversationsByDate_spec|].
  rewrite groupConversationsByDate_spec. split.
  - rewrite map_map. cbn [Page.date]. rewrite map_id. apply dates_of_NoDup.
  - apply Forall_forall. intros g Hg. apply in_map_iff in Hg.
    destruct Hg as (k & <- & Hk). cbn [Page.conversations].
    apply dates_of_In in Hk. destruct Hk as (c & Hc & Hkey).
    intros Hnil.
    assert (Hin : In c (dated dateKey k convs)).
    { apply filter_In. split; [exact Hc|]. apply String.eqb_eq. exact Hkey. }
    rewrite Hnil in Hin. destruct Hin.
Qed.

Lemma push_permutation k c groups :
  Permutation (concat (map snd (Page.push k c groups)))
              (concat (map snd groups) ++ [c]).
Proof.
  induction groups as [|[k0 cs] rest IH]; [reflexivity|].
  cbn [Page.push]. destruct (String.eqb k0 k); cbn [map snd concat].
  - rewrite <- !app_assoc. apply Permutation_app_head.
    apply Permutation_app_comm.
  - rewrite <- app_assoc. apply Permutation_app_head. exact IH.
Qed.

Lemma groups_permutation convs acc :
  Permutation
    (concat (map snd
               (fold_left (fun groups conv =>
                             Page.push (dateKey (Page.sent_at conv)) conv groups)
                          convs acc)))
    (concat (map snd acc) ++ convs).
Proof.
  revert acc. induction convs as [|c rest IH]; intros acc; cbn [fold_left].
  - rewrite app_nil_r. reflexivity.
  - rewrite IH. rewrite push_permutation. rewrite <- app_assoc. reflexivity.
Qed.

(** X20.  Grouping loses and duplicates nothing: the conversations of all
    groups together are a permutation of the conversations given, so that
    every conversation is shown exactly once, under the date it has; and
    the page shows as many conversations as it fetched. *)
Theorem grouping_keeps_every_conversation convs :
  Permutation
    (concat (map Page.conversations
                 (Page.groupConversationsByDate dateKey convs)))
    convs
  /\ (forall g c,
         In g (Page.groupConversationsByDate dateKey convs) ->
         In c (Page.conversations g) ->
         In c convs /\ dateKey (Page.sent_at c) = Page.date g)
  /\ length (concat (map Page.conversations
                         (Page.groupConversationsByDate dateKey convs)))
     = length convs.
Proof.
  assert (Hperm :
            Permutation
              (concat (map Page.conversations
                           (Page.groupConversationsByDate dateKey convs)))
              convs).
  { unfold Page.groupConversationsByDate. rewrite map_map.
    cbn [Page.conversations]. apply (groups_permutation convs []). }
  split; [exact Hperm|]. split.
  - intros g c Hg Hc. rewrite groupConversationsByDate_spec in Hg.
    apply in_map_iff in Hg. destruct Hg as (k & <- & _).
    cbn [Page.conversations Page.date] in *.
    apply filter_In in Hc. destruct Hc as [Hc Hk].
    split; [exact Hc | apply String.eqb_eq; exact Hk].
  - apply Permutation_length. exact Hperm.
Qed.

End GroupingFacts.

Lemma grouping_keeps_every_conversation_witness :
  In Sample.evening [Sample.morning; Sample.next_day; Sample.evening]
  /\ Sample.day_of (Page.sent_at Sample.evening) = "2024-05-01".
Proof.
  exact (proj1 (proj2 (grouping_keeps_every_conversation Sample.day_of
                         [Sample.morning; Sample.next_day; Sample.evening]))
           (Page.mkGroup "2024-05-01" [Sample.morning; Sample.evening])
           Sample.evening
           ltac:(vm_compute; left; reflexivity)
           ltac:(vm_compute; right; left; reflexivity)).
Defined.

Example history_of_two_days :
  Page.groupConversationsByDate Sample.day_of
    [Sample.morning; Sample.next_day; Sample.evening]
  = [Page.mkGroup "2024-05-01" [Sample.morning; Sample.evening];
     Page.mkGroup "2024-05-02" [Sample.next_day]].
Proof. reflexivity. Qed.
